(** * Time-Capsule: credential verifier and second-factor manager

    A shallow embedding of the account-lockout methods of the [User] model
    (models/User.js) and of the login and two-factor controllers
    (controllers/users.js, controllers/twoFactorAuth.js), followed by the
    properties of the specification that concern them.

    Conventions of the embedding:
    - a Mongoose document is a [User] record; the collection is a finite map
      from document ids to records;
    - [req.body] and [process.env] are finite maps from property names to
      strings, an absent property being [undefined];
    - a controller is a computation in the [Handler] monad: it threads the
      collection, the request's session slot and the logger output, and it
      ends with a response, either sent normally or from the [catch] block;
    - a promise that a controller drops is kept with its rejection, and
      [serve] tells what the process around the controller makes of it;
    - bcrypt, speakeasy, qrcode, jsonwebtoken and [Math.random] are outside
      the repository: they are the fields of the [Primitives] interface. *)

From Stdlib Require Import ZArith String Ascii List.
From stdpp Require Import base option list gmap strings pretty.

Set Warnings "-register-all".

Local Open Scope string_scope.
Local Open Scope Z_scope.

(** ** JavaScript values *)

(** [ToBoolean]: what [if (x)], [!x] and [x && y] look at. *)
Class Truthy (A : Type) := truthy : A -> bool.

#[export] Instance truthy_bool : Truthy bool := fun b => b.

(** A string is falsy exactly when it is empty. *)
#[export] Instance truthy_string : Truthy string :=
  fun s => negb (String.eqb s EmptyString).

(** [undefined] and [null] are falsy. *)
#[export] Instance truthy_option {A} `{Truthy A} : Truthy (option A) :=
  fun o => match o with Some a => truthy a | None => false end.

Inductive Exn := TypeError (message : string) | Error (message : string).

Definition message (e : Exn) : string :=
  match e with TypeError m => m | Error m => m end.

(** The value an [async] function returns: a promise, fulfilled with the
    value the function returns or rejected with what it throws. *)
Inductive Promise (A : Type) : Type :=
| Resolves (a : A)
| Rejects (reason : Exn).
Arguments Resolves {A} a.
Arguments Rejects {A} reason.

Definition rejection {A} (p : Promise A) : option Exn :=
  match p with Rejects reason => Some reason | Resolves _ => None end.

(** Every object is truthy, a promise included, however it is settled. *)
#[export] Instance truthy_promise {A} : Truthy (Promise A) := fun _ => true.

(** A [Date] object; [getTime] is its value in milliseconds. *)
Record Date := mkDate { getTime : Z }.

#[export] Instance truthy_date : Truthy Date := fun _ => true.

(** [Array.prototype.findIndex]: the index of the first element on which the
    callback's result is truthy, [-1] when there is none. *)
Fixpoint findIndex_from {A R} `{Truthy R} (f : A -> R) (l : list A) (i : Z) : Z :=
  match l with
  | [] => -1
  | x :: l' => if truthy (f x) then i else findIndex_from f l' (i + 1)
  end.

Definition findIndex {A R} `{Truthy R} (f : A -> R) (l : list A) : Z :=
  findIndex_from f l 0.

(** What the callback returned at the calls [findIndex] made of it: one
    call for each element up to the first on which the result is truthy.
    [findIndex] looks at each result once and keeps none. *)
Fixpoint findIndex_results {A R} `{Truthy R} (f : A -> R) (l : list A) : list R :=
  match l with
  | [] => []
  | x :: l' => f x :: (if truthy (f x) then [] else findIndex_results f l')
  end.

(** JSON response bodies. *)
Inductive Json :=
| JNull
| JBool (b : bool)
| JNum (n : Z)
| JStr (s : string)
| JArr (xs : list Json)
| JObj (fields : list (string * Json)).

Definition field (k : string) (j : Json) : option Json :=
  match j with
  | JObj fs => snd <$> List.find (fun p => String.eqb (fst p) k) fs
  | _ => None
  end.

Record Response := mkResponse { status : Z; body : Json }.

(** [res.status(c).json(b)] *)
Definition json (c : Z) (b : list (string * Json)) : Response :=
  mkResponse c (JObj b).

(** ** The User model (models/User.js) *)

Record BackupCode := mkBackupCode { code : string; used : bool }.

Record User := mkUser {
  _id : string;
  name : string;
  email : string;
  password : string;
  twoFactorEnabled : bool;
  twoFactorSecret : option string;
  twoFactorBackupCodes : list BackupCode;
  loginAttempts : Z;
  accountLocked : bool;
  lockUntil : option Date;
  lastLogin : option Date;
  role : string
}.

(** The paths the schema declares with [select: false]. *)
Definition select_false : list string :=
  ["password"; "twoFactorSecret"; "twoFactorBackupCodes.code"].

(** The words of a projection string, which spaces separate. *)
Fixpoint words_from (s word : string) : list string :=
  match s with
  | EmptyString => [word]
  | String c s' =>
      if Ascii.eqb c " " then word :: words_from s' EmptyString
      else words_from s' (word ++ String c EmptyString)
  end.

Definition words (s : string) : list string :=
  List.filter (fun word => negb (String.eqb word EmptyString))
    (words_from s EmptyString).

(** [query.select(projection)], for the projections the controllers write,
    which only add paths: whether the document the query returns has
    [path].  A path with [select: false] is loaded only when the projection
    names that very path with a [+]. *)
Definition selected (projection path : string) : bool :=
  negb (existsb (String.eqb path) select_false)
  || existsb (String.eqb ("+" ++ path)) (words projection).

(** A MongoDB update document, restricted to the paths the code writes:
    [$inc] on [loginAttempts] and [$set] on the others. *)
Record UpdateDoc := mkUpdate {
  inc_loginAttempts : option Z;
  set_loginAttempts : option Z;
  set_lockUntil : option (option Date);
  set_accountLocked : option bool;
  set_lastLogin : option (option Date);
  set_twoFactorSecret : option (option string);
  set_twoFactorEnabled : option bool;
  set_twoFactorBackupCodes : option (list BackupCode)
}.

Definition no_update : UpdateDoc :=
  mkUpdate None None None None None None None None.

Definition apply_update (upd : UpdateDoc) (u : User) : User :=
  {| _id := _id u;
     name := name u;
     email := email u;
     password := password u;
     twoFactorEnabled := default (twoFactorEnabled u) (set_twoFactorEnabled upd);
     twoFactorSecret := default (twoFactorSecret u) (set_twoFactorSecret upd);
     twoFactorBackupCodes :=
       default (twoFactorBackupCodes u) (set_twoFactorBackupCodes upd);
     loginAttempts :=
       match set_loginAttempts upd with
       | Some v => v
       | None => loginAttempts u + default 0 (inc_loginAttempts upd)
       end;
     accountLocked := default (accountLocked u) (set_accountLocked upd);
     lockUntil := default (lockUntil u) (set_lockUntil upd);
     lastLogin := default (lastLogin u) (set_lastLogin upd);
     role := role u |}.

(** [doc.updateOne(upd)]: the update is applied to the stored document whose
    id is the receiver's; the receiver itself is not modified. *)
Definition updateOne (this : User) (upd : UpdateDoc)
    (users : gmap string User) : gmap string User :=
  alter (apply_update upd) (_id this) users.

(** [UserSchema.methods.isLocked] *)
Definition isLocked (this : User) (now : Z) : bool :=
  match lockUntil this with
  | Some d => truthy d && (now <? getTime d)
  | None => false
  end.

(** [UserSchema.methods.incrementLoginAttempts]: the update it sends. *)
Definition incrementLoginAttempts (this : User) (now : Z) : UpdateDoc :=
  if match lockUntil this with
     | Some d => truthy d && (getTime d <? now)
     | None => false
     end
  then
    {| inc_loginAttempts := None;
       set_loginAttempts := Some 1;
       set_lockUntil := Some None;
       set_accountLocked := Some false;
       set_lastLogin := None;
       set_twoFactorSecret := None;
       set_twoFactorEnabled := None;
       set_twoFactorBackupCodes := None |}
  else
    let updates :=
      {| inc_loginAttempts := Some 1;
         set_loginAttempts := None;
         set_lockUntil := None;
         set_accountLocked := None;
         set_lastLogin := None;
         set_twoFactorSecret := None;
         set_twoFactorEnabled := None;
         set_twoFactorBackupCodes := None |} in
    if 5 <=? loginAttempts this + 1 then
      {| inc_loginAttempts := inc_loginAttempts updates;
         set_loginAttempts := set_loginAttempts updates;
         set_lockUntil := Some (Some (mkDate (now + 1 * 60 * 60 * 1000)));
         set_accountLocked := Some true;
         set_lastLogin := set_lastLogin updates;
         set_twoFactorSecret := set_twoFactorSecret updates;
         set_twoFactorEnabled := set_twoFactorEnabled updates;
         set_twoFactorBackupCodes := set_twoFactorBackupCodes updates |}
    else updates.

(** A stored lock date lies strictly in the past: the condition of the first
    branch of [incrementLoginAttempts]. *)
Definition lock_expired (this : User) (now : Z) : bool :=
  match lockUntil this with
  | Some d => getTime d <? now
  | None => false
  end.

(** [UserSchema.methods.resetLoginAttempts]: the update it sends. *)
Definition resetLoginAttempts (now : Z) : UpdateDoc :=
  {| inc_loginAttempts := None;
     set_loginAttempts := Some 0;
     set_lockUntil := Some None;
     set_accountLocked := Some false;
     set_lastLogin := Some (Some (mkDate now));
     set_twoFactorSecret := None;
     set_twoFactorEnabled := None;
     set_twoFactorBackupCodes := None |}.

(** ** The environment of a controller *)

(** What [speakeasy.generateSecret] returns, as far as the code reads it. *)
Record GeneratedSecret := mkSecret { base32 : string; otpauth_url : string }.

(** The payload [getSignedJwtToken] signs. *)
Record JwtPayload := mkPayload {
  jwt_id : string;
  jwt_role : string;
  jwt_twoFactorEnabled : bool
}.

(** What is outside the repository, each but [jwt_sign] taken to return a
    value on the inputs the controllers give it.  [bcrypt_hash data rounds k]
    is the hash bcrypt returns at its [k]-th call of the request (it draws a
    salt of its own at each call); [totp_verify secret token window now] is
    [speakeasy.totp.verify] with base32 encoding, read at time [now];
    [jwt_sign payload secret expiresIn] is [jwt.sign]: the token, or the error
    it throws, as it does when [process.env] gives it no secret;
    [Math_random_code k] is the value of
    [Math.random().toString(36).substring(2, 10)] at the [k]-th call of
    [Math.random]. *)
Class Primitives := {
  bcrypt_hash : string -> Z -> nat -> string;
  bcrypt_compare : string -> string -> bool;
  totp_verify : option string -> string -> Z -> Z -> bool;
  speakeasy_generateSecret : string -> GeneratedSecret;
  QRCode_toDataURL : string -> string;
  jwt_sign : JwtPayload -> option string -> option string -> Exn + string;
  Math_random_code : nat -> string
}.

(** [process.env] and the clock read by [Date.now()]. *)
Record Env := mkEnv { process_env : gmap string string; Date_now : Z }.

(** [req.user.id] (set by the [protect] middleware) and [req.body]. *)
Record Request := mkRequest {
  req_user_id : string;
  req_body : gmap string string
}.

Inductive Level := LInfo | LWarn | LError.

(** What a controller can change: the users collection, [req.session], the
    logger's output, the number of [Math.random] calls made so far, and the
    reasons of the promises that were rejected with nothing to handle them,
    which stay with the event loop. *)
Record World := mkWorld {
  users : gmap string User;
  session : option (gmap string string);
  logs : list (Level * string);
  random_calls : nat;
  unhandled : list Exn
}.

(** A statement either goes on with a value, or ends the controller with a
    response ([return res.status(..).json(..)]), or throws. *)
Inductive Outcome (A : Type) : Type :=
| Continue (a : A)
| Returned (r : Response)
| Thrown (e : Exn).
Arguments Continue {A} a.
Arguments Returned {A} r.
Arguments Thrown {A} e.

Definition Handler (A : Type) : Type := World -> Outcome A * World.

#[export] Instance handler_ret : MRet Handler :=
  fun A (a : A) (w : World) => (Continue a, w).

#[export] Instance handler_bind : MBind Handler :=
  fun A B (f : A -> Handler B) (m : Handler A) (w : World) =>
    match m w with
    | (Continue a, w') => f a w'
    | (Returned r, w') => (Returned r, w')
    | (Thrown e, w') => (Thrown e, w')
    end.

Definition respond {A} (r : Response) : Handler A :=
  fun w => (Returned r, w).

Definition throw {A} (e : Exn) : Handler A :=
  fun w => (Thrown e, w).

(** [try { body } catch (error) { handler }]: the [catch] blocks of the
    controllers log and answer, they do not throw. *)
Definition try_catch (body : Handler Response)
    (handler : Exn -> World -> Response * World) (w : World) : Response * World :=
  match body w with
  | (Continue r, w') => (r, w')
  | (Returned r, w') => (r, w')
  | (Thrown e, w') => handler e w'
  end.

Definition logger (l : Level) (msg : string) : Handler unit :=
  fun w => (Continue tt,
            mkWorld (users w) (session w) (logs w ++ [(l, msg)]) (random_calls w)
              (unhandled w)).

Definition log_only (l : Level) (msg : string) (w : World) : World :=
  mkWorld (users w) (session w) (logs w ++ [(l, msg)]) (random_calls w)
    (unhandled w).

Definition get_users : Handler (gmap string User) :=
  fun w => (Continue (users w), w).

Definition put_users (us : gmap string User) : Handler unit :=
  fun w => (Continue tt,
            mkWorld us (session w) (logs w) (random_calls w) (unhandled w)).

Definition get_session : Handler (option (gmap string string)) :=
  fun w => (Continue (session w), w).

Definition put_session (s : option (gmap string string)) : Handler unit :=
  fun w => (Continue tt,
            mkWorld (users w) s (logs w) (random_calls w) (unhandled w)).

(** Promises that are left to themselves, neither awaited nor given a
    handler: when one is rejected, its reason is an unhandled rejection. *)
Definition floating {A} (promises : list (Promise A)) : Handler unit :=
  fun w => (Continue tt,
            mkWorld (users w) (session w) (logs w) (random_calls w)
              (unhandled w ++ omap rejection promises)).

(** A call that returns a value or throws. *)
Definition call {A} (result : Exn + A) : Handler A :=
  match result with
  | inr a => mret a
  | inl error => throw error
  end.

(** Reading a property of [null] throws. *)
Definition deref {A} (o : option A) (prop : string) : Handler A :=
  match o with
  | Some a => mret a
  | None =>
      throw (TypeError ("Cannot read properties of null (reading '" ++ prop ++ "')"))
  end.

(** A template literal prints [undefined] for an absent value. *)
Definition interpolate (o : option string) : string := default "undefined" o.

(** [User.findById(id)], for an id that Mongoose casts to an ObjectId, as
    the ids of the stored documents are. *)
Definition findById (id : string) : Handler (option User) :=
  us ← get_users; mret (us !! id).

(** The stored document with a given email address (the schema makes the
    address unique); no document has an [undefined] address. *)
Definition find_by_email (e : option string) (us : gmap string User) : option User :=
  e ≫= fun e' =>
    List.find (fun u => String.eqb (email u) e') (snd <$> map_to_list us).

(** [User.findOne({ email })] *)
Definition findOne_email (e : option string) : Handler (option User) :=
  us ← get_users; mret (find_by_email e us).

(** [User.findByIdAndUpdate(id, upd, { new: true })]: the updated document,
    [null] when there is none with this id. *)
Definition findByIdAndUpdate (id : string) (upd : UpdateDoc) : Handler (option User) :=
  us ← get_users;
  put_users (alter (apply_update upd) id us);;
  mret (apply_update upd <$> us !! id).

(** [this.updateOne(upd)] *)
Definition doc_updateOne (this : User) (upd : UpdateDoc) : Handler unit :=
  us ← get_users; put_users (updateOne this upd us).

(** [user.save()]: Mongoose writes the modified paths and leaves the others
    as they are stored.  A [User] holds the stored value of every path, also
    of a path its query did not select (reading such a path goes through
    [selected]), so the stored document becomes the record. *)
Definition save (this : User) : Handler unit :=
  us ← get_users; put_users (<[_id this := this]> us).

Section Controllers.
Context `{Primitives}.

(** [UserSchema.methods.matchPassword]; bcrypt rejects a missing argument. *)
Definition matchPassword (this : User) (enteredPassword : option string)
    : Handler bool :=
  match enteredPassword with
  | Some p => mret (bcrypt_compare p (password this))
  | None => throw (Error "data and hash arguments required")
  end.

(** [UserSchema.methods.getSignedJwtToken]: the token, or what [jwt.sign]
    throws. *)
Definition getSignedJwtToken (env : Env) (this : User) : Exn + string :=
  jwt_sign
    {| jwt_id := _id this;
       jwt_role := role this;
       jwt_twoFactorEnabled := twoFactorEnabled this |}
    (process_env env !! "JWT_SECRET")
    (process_env env !! "JWT_EXPIRE").

(** [Math.random().toString(36).substring(2, 10)] *)
Definition Math_random : Handler string :=
  fun w => (Continue (Math_random_code (random_calls w)),
            mkWorld (users w) (session w) (logs w) (S (random_calls w))
              (unhandled w)).

(** *** controllers/users.js *)

Definition user_json (u : User) : Json :=
  JObj [("id", JStr (_id u)); ("name", JStr (name u)); ("email", JStr (email u))].

Definition loginUser (env : Env) (req : Request) : World -> Response * World :=
  try_catch
    (let email' := req_body req !! "email" in
     let password' := req_body req !! "password" in
     user ← findOne_email email';
     match user with
     | None =>
         logger LWarn ("Login attempt with invalid email: " ++ interpolate email');;
         respond (json 401 [("success", JBool false);
                            ("message", JStr "Invalid credentials")])
     | Some user =>
         if isLocked user (Date_now env) then
           logger LWarn ("Login attempt on locked account: " ++ interpolate email');;
           respond (json 401
             [("success", JBool false);
              ("message",
               JStr "Account is locked due to too many failed attempts. Try again later.")])
         else
           isMatch ← matchPassword user password';
           if negb isMatch then
             doc_updateOne user (incrementLoginAttempts user (Date_now env));;
             logger LWarn ("Failed login attempt for user: " ++ _id user);;
             respond (json 401 [("success", JBool false);
                                ("message", JStr "Invalid credentials")])
           else if twoFactorEnabled user then
             logger LInfo ("2FA required for user login: " ++ _id user);;
             doc_updateOne user (resetLoginAttempts (Date_now env));;
             respond (json 200
               [("success", JBool true);
                ("twoFactorRequired", JBool true);
                ("userId", JStr (_id user));
                ("message", JStr "Please complete two-factor authentication")])
           else
             doc_updateOne user (resetLoginAttempts (Date_now env));;
             token ← call (getSignedJwtToken env user);
             logger LInfo ("User logged in: " ++ _id user);;
             respond (json 200
               [("success", JBool true);
                ("token", JStr token);
                ("user", JObj [("id", JStr (_id user));
                               ("name", JStr (name user));
                               ("email", JStr (email user));
                               ("twoFactorEnabled", JBool (twoFactorEnabled user))])])
     end)
    (fun error w =>
       (json 500 [("success", JBool false); ("message", JStr "Server error")],
        log_only LError ("Error in user login: " ++ message error) w)).

(** *** controllers/twoFactorAuth.js *)

Definition generate2FASecret (env : Env) (req : Request)
    : World -> Response * World :=
  try_catch
    (user ← findById (req_user_id req);
     user ← deref user "email";
     let secret := speakeasy_generateSecret ("Time Capsule:" ++ email user) in
     let qrCodeUrl := QRCode_toDataURL (otpauth_url secret) in
     sess ← get_session;
     put_session (Some (<["twoFactorSecret" := base32 secret]> (default ∅ sess)));;
     logger LInfo ("2FA secret generated for user: " ++ _id user);;
     respond (json 200
       [("success", JBool true);
        ("data", JObj [("qrCode", JStr qrCodeUrl);
                       ("secret", JStr (base32 secret));
                       ("otpauthUrl", JStr (otpauth_url secret))])]))
    (fun error w =>
       (json 500 [("success", JBool false);
                  ("message", JStr "Error generating 2FA secret")],
        log_only LError ("Error generating 2FA secret: " ++ message error) w)).

(** The loop [for (let i = 0; i < 10; i++) backupCodes.push(..)], with [n]
    iterations left. *)
Fixpoint backupCodes_loop (n i : nat) (backupCodes : list BackupCode)
    : Handler (list BackupCode) :=
  match n with
  | O => mret backupCodes
  | S n' =>
      code ← Math_random;
      backupCodes_loop n' (S i)
        (backupCodes ++ [mkBackupCode (bcrypt_hash code 10 i) false])
  end.

(** [arr.map(f)] for a callback with effects, called from left to right. *)
Fixpoint array_map {A B} (f : A -> Handler B) (arr : list A) : Handler (list B) :=
  match arr with
  | [] => mret []
  | x :: arr' => y ← f x; ys ← array_map f arr'; mret (y :: ys)
  end.

Definition verify2FAToken (env : Env) (req : Request)
    : World -> Response * World :=
  try_catch
    (let token := req_body req !! "token" in
     if negb (truthy token) then
       respond (json 400 [("success", JBool false);
                          ("message", JStr "Please provide a token")])
     else
       sess ← get_session;
       if negb (truthy (sess ≫= fun s => s !! "twoFactorSecret")) then
         respond (json 400
           [("success", JBool false);
            ("message",
             JStr "No 2FA secret found. Please generate a new secret first.")])
       else
         let pending := sess ≫= fun s => s !! "twoFactorSecret" in
         let verified :=
           totp_verify pending (default EmptyString token) 1 (Date_now env) in
         if negb verified then
           logger LWarn ("Failed 2FA verification attempt for user: "
                         ++ req_user_id req);;
           respond (json 400 [("success", JBool false);
                              ("message", JStr "Invalid token, verification failed")])
         else
           backupCodes ← backupCodes_loop 10 0 [];
           user ← findByIdAndUpdate (req_user_id req)
             {| inc_loginAttempts := None;
                set_loginAttempts := None;
                set_lockUntil := None;
                set_accountLocked := None;
                set_lastLogin := None;
                set_twoFactorSecret := Some pending;
                set_twoFactorEnabled := Some true;
                set_twoFactorBackupCodes := Some backupCodes |};
           plainBackupCodes ← array_map (fun _ => Math_random) backupCodes;
           user ← deref user "id";
           logger LInfo ("2FA enabled for user: " ++ _id user);;
           put_session ((fun s => delete "twoFactorSecret" s) <$> sess);;
           respond (json 200
             [("success", JBool true);
              ("message", JStr "2FA has been enabled");
              ("backupCodes", JArr (JStr <$> plainBackupCodes))]))
    (fun error w =>
       (json 500 [("success", JBool false);
                  ("message", JStr "Error verifying 2FA token")],
        log_only LError ("Error verifying 2FA token: " ++ message error) w)).

Definition disable2FA (env : Env) (req : Request) : World -> Response * World :=
  try_catch
    (let token := req_body req !! "token" in
     let password' := req_body req !! "password" in
     if negb (truthy token) && negb (truthy password') then
       respond (json 400
         [("success", JBool false);
          ("message",
           JStr "Please provide either a valid 2FA token or your password")])
     else
       user ← findById (req_user_id req);
       (* whichever check runs first reads a property of [user] *)
       user ← deref user (if truthy token then "twoFactorSecret" else "matchPassword");
       let isVerified := false in
       let isVerified :=
         if truthy token then
           totp_verify (twoFactorSecret user) (default EmptyString token) 1
             (Date_now env)
         else isVerified in
       isVerified ←
         (if truthy password' && negb isVerified
          then matchPassword user password'
          else mret isVerified);
       if negb isVerified then
         logger LWarn ("Failed 2FA disable attempt for user: " ++ _id user);;
         respond (json 400
           [("success", JBool false);
            ("message",
             JStr "Verification failed. Please provide either a valid 2FA token or your correct password")])
       else
         let user :=
           {| _id := _id user;
              name := name user;
              email := email user;
              password := password user;
              twoFactorEnabled := false;
              twoFactorSecret := None;
              twoFactorBackupCodes := [];
              loginAttempts := loginAttempts user;
              accountLocked := accountLocked user;
              lockUntil := lockUntil user;
              lastLogin := lastLogin user;
              role := role user |} in
         save user;;
         logger LInfo ("2FA disabled for user: " ++ _id user);;
         respond (json 200 [("success", JBool true);
                            ("message", JStr "2FA has been disabled")]))
    (fun error w =>
       (json 500 [("success", JBool false); ("message", JStr "Error disabling 2FA")],
        log_only LError ("Error disabling 2FA: " ++ message error) w)).

(** [user.twoFactorBackupCodes[i].used = true] *)
Definition mark_used (i : Z) (user : User) : User :=
  {| _id := _id user;
     name := name user;
     email := email user;
     password := password user;
     twoFactorEnabled := twoFactorEnabled user;
     twoFactorSecret := twoFactorSecret user;
     twoFactorBackupCodes :=
       alter (fun c => mkBackupCode (code c) true) (Z.to_nat i)
         (twoFactorBackupCodes user);
     loginAttempts := loginAttempts user;
     accountLocked := accountLocked user;
     lockUntil := lockUntil user;
     lastLogin := lastLogin user;
     role := role user |}.

(** [bcrypt.compare(data, hash)] without a callback: a promise, rejected
    when an argument is missing. *)
Definition bcrypt_compare_promise (data hash : option string) : Promise bool :=
  match data, hash with
  | Some data, Some hash => Resolves (bcrypt_compare data hash)
  | _, _ => Rejects (Error "data and hash arguments required")
  end.

(** The callback given to [findIndex]: an [async] arrow function, so what
    [findIndex] receives from it is a promise.  [code.code] is read off a
    document loaded with [projection]; an error thrown at the [await]
    rejects the promise of the callback. *)
Definition backupCode_matches (projection backupCode : string) (c : BackupCode)
    : Promise bool :=
  let code_code :=
    if selected projection "twoFactorBackupCodes.code" then Some (code c) else None in
  match bcrypt_compare_promise (Some backupCode) code_code with
  | Resolves isMatch => Resolves (isMatch && negb (used c))
  | Rejects reason => Rejects reason
  end.

Definition verify2FALogin (env : Env) (req : Request)
    : World -> Response * World :=
  try_catch
    (let userId := req_body req !! "userId" in
     let authToken := req_body req !! "token" in
     let backupCode := req_body req !! "backupCode" in
     if negb (truthy userId) || (negb (truthy authToken) && negb (truthy backupCode))
     then
       respond (json 400
         [("success", JBool false);
          ("message",
           JStr "Please provide userId and either a token or backup code")])
     else
       (* the query loads [twoFactorSecret], which the code reads below, and
          not [twoFactorBackupCodes.code] *)
       let projection := "+twoFactorSecret +twoFactorBackupCodes" in
       user ← findById (default EmptyString userId);
       match user with
       | None =>
           respond (json 404 [("success", JBool false);
                              ("message", JStr "User not found")])
       | Some user =>
           if negb (twoFactorEnabled user) then
             respond (json 400 [("success", JBool false);
                                ("message", JStr "2FA is not enabled for this user")])
           else
             let isVerified := false in
             '(user, isVerified) ←
               (if truthy authToken then
                  mret (user,
                        totp_verify (twoFactorSecret user)
                          (default EmptyString authToken) 1 (Date_now env))
                else if truthy backupCode then
                  let callback :=
                    backupCode_matches projection (default EmptyString backupCode) in
                  let backupCodeIndex :=
                    findIndex callback (twoFactorBackupCodes user) in
                  floating (findIndex_results callback (twoFactorBackupCodes user));;
                  if negb (backupCodeIndex =? -1) then
                    let user := mark_used backupCodeIndex user in
                    save user;;
                    mret (user, true)
                  else mret (user, isVerified)
                else mret (user, isVerified));
             if negb isVerified then
               logger LWarn ("Failed 2FA login attempt for user: " ++ _id user);;
               respond (json 400 [("success", JBool false);
                                  ("message", JStr "Invalid token or backup code")])
             else
               doc_updateOne user (resetLoginAttempts (Date_now env));;
               logger LInfo ("Successful 2FA login for user: " ++ _id user);;
               jwtToken ← call (getSignedJwtToken env user);
               respond (json 200 [("success", JBool true);
                                  ("token", JStr jwtToken);
                                  ("user", user_json user)])
       end)
    (fun error w =>
       (json 500 [("success", JBool false); ("message", JStr "Error verifying 2FA")],
        log_only LError ("Error in 2FA login: " ++ message error) w)).

End Controllers.

(** ** The process around a controller *)

(** What Node does with a promise that is rejected while nothing handles
    it ([--unhandled-rejections]).  From version 15 on, the default is to
    raise the reason as an uncaught exception, which ends the process unless
    a listener of [unhandledRejection] or [uncaughtException] is installed;
    before, and with such a listener, the process goes on. *)
Inductive UnhandledRejections := raise_uncaught | warn_only.

(** A request as the client sees it: answered, or cut off by the exit of
    the process.  How far a write under way had got when the process exited
    is not described. *)
Inductive Served :=
| Answered (r : Response) (w : World)
| Exited (reason : Exn).

(** An unhandled rejection is reported as soon as the running code gives
    the event loop its turn, which the next [await] of a database call does.
    The one controller that leaves a promise behind, [verify2FALogin],
    awaits [user.save()] between its call of [findIndex] and its answer: the
    process ends before the answer. *)
Definition serve (mode : UnhandledRejections)
    (controller : World -> Response * World) (w : World) : Served :=
  let '(r, w') := controller w in
  match mode, unhandled w' with
  | raise_uncaught, reason :: _ => Exited reason
  | _, _ => Answered r w'
  end.

(** ** Vocabulary of the statements *)

(** [req.session.twoFactorSecret], [undefined] when there is no session. *)
Definition pending_secret (w : World) : option string :=
  session w ≫= fun s => s !! "twoFactorSecret".

(** The proof of control [disable2FA] accepts: a one-time code that
    validates against the stored secret, or a password that matches the
    stored hash. *)
Definition proof_of_control `{Primitives} (env : Env) (req : Request)
    (user : User) : bool :=
  match req_body req !! "token" with
  | Some t => truthy t && totp_verify (twoFactorSecret user) t 1 (Date_now env)
  | None => false
  end
  || match req_body req !! "password" with
     | Some p => truthy p && bcrypt_compare p (password user)
     | None => false
     end.

(** The document [disable2FA] stores: the second factor is gone, the rest
    is as it was. *)
Definition without_2FA (user : User) : User :=
  {| _id := _id user;
     name := name user;
     email := email user;
     password := password user;
     twoFactorEnabled := false;
     twoFactorSecret := None;
     twoFactorBackupCodes := [];
     loginAttempts := loginAttempts user;
     accountLocked := accountLocked user;
     lockUntil := lockUntil user;
     lastLogin := lastLogin user;
     role := role user |}.

(** A document with other lockout fields. *)
Definition with_lockout (attempts : Z) (locked : bool) (until : option Date)
    (user : User) : User :=
  {| _id := _id user;
     name := name user;
     email := email user;
     password := password user;
     twoFactorEnabled := twoFactorEnabled user;
     twoFactorSecret := twoFactorSecret user;
     twoFactorBackupCodes := twoFactorBackupCodes user;
     loginAttempts := attempts;
     accountLocked := locked;
     lockUntil := until;
     lastLogin := lastLogin user;
     role := role user |}.

(** ** A concrete environment, for the scenarios *)

Module Scenario.

(** Stand-ins for the primitives: a hash is the plaintext behind a marker,
    the only valid one-time code of a secret is the secret itself, a token
    names its user and is not signed without a secret, the k-th random code
    is a letter followed by seven zeros. *)
Definition toy : Primitives := {|
  bcrypt_hash := fun data _ _ => "$" ++ data;
  bcrypt_compare := fun data h => String.eqb h ("$" ++ data);
  totp_verify := fun secret token _ _ =>
    match secret with Some s => String.eqb s token | None => false end;
  speakeasy_generateSecret := fun name =>
    mkSecret "JBSWY3DPEHPK3PXP" ("otpauth://totp/" ++ name);
  QRCode_toDataURL := fun url => "data:image/png;base64," ++ url;
  jwt_sign := fun p secret _ =>
    match secret with
    | Some _ => inr ("jwt." ++ jwt_id p)
    | None => inl (Error "secretOrPrivateKey must have a value")
    end;
  Math_random_code := fun k =>
    String (ascii_of_nat (97 + k)) "0000000"
|}.

Definition alice : User :=
  {| _id := "u1";
     name := "Alice";
     email := "alice@example.com";
     password := "$hunter2";
     twoFactorEnabled := true;
     twoFactorSecret := Some "SECRET";
     twoFactorBackupCodes :=
       [mkBackupCode "$AB12CD34" false; mkBackupCode "$ZZ99YY88" false];
     loginAttempts := 0;
     accountLocked := false;
     lockUntil := None;
     lastLogin := None;
     role := "user" |}.

(** The same account with a given attempt counter and no lock... *)
Definition unlocked (attempts : Z) : User :=
  with_lockout attempts false None alice.

(** ... and with a lock that ends at [until]. *)
Definition locked_until (attempts until : Z) : User :=
  with_lockout attempts true (Some (mkDate until)) alice.

(** The account after its first backup code was spent. *)
Definition spent : User := mark_used 0 alice.

Definition world_of (u : User) : World :=
  mkWorld {[ _id u := u ]} None [] 0 [].

Definition dev : Env :=
  mkEnv {[ "NODE_ENV" := "development";
           "JWT_SECRET" := "not-so-secret"; "JWT_EXPIRE" := "30d" ]} 1000000.
Definition production : Env :=
  mkEnv {[ "NODE_ENV" := "production";
           "JWT_SECRET" := "not-so-secret"; "JWT_EXPIRE" := "30d" ]} 1000000.

Definition post (uid : string) (fields : list (string * string)) : Request :=
  mkRequest uid (list_to_map fields).

End Scenario.

(** ** utils/sanitize.js *)

(** [DOMPurify.sanitize(dirty, config)], from the dompurify package. *)
Class DOMPurify := { DOMPurify_sanitize : string -> Json -> string }.

Section Sanitize.
Context `{DOMPurify}.

(** [exports.sanitizeHtml]; a request value that is not a string gives the
    empty string. *)
Definition sanitizeHtml (dirty : Json) : string :=
  match dirty with
  | JStr dirty =>
      let config :=
        JObj [("ALLOWED_TAGS",
               JArr [JStr "b"; JStr "i"; JStr "em"; JStr "strong"; JStr "p";
                     JStr "br"; JStr "ul"; JStr "ol"; JStr "li"; JStr "a"]);
              ("ALLOWED_ATTR", JArr [JStr "href"; JStr "target"]);
              ("KEEP_CONTENT", JBool true);
              ("RETURN_DOM", JBool false);
              ("RETURN_DOM_FRAGMENT", JBool false);
              ("RETURN_DOM_IMPORT", JBool false);
              ("SANITIZE_DOM", JBool true);
              ("WHOLE_DOCUMENT", JBool false)] in
      DOMPurify_sanitize dirty config
  | _ => EmptyString
  end.

(** [exports.stripHtml] *)
Definition stripHtml (dirty : Json) : string :=
  match dirty with
  | JStr dirty =>
      let config :=
        JObj [("ALLOWED_TAGS", JArr []);
              ("ALLOWED_ATTR", JArr []);
              ("KEEP_CONTENT", JBool true)] in
      DOMPurify_sanitize dirty config
  | _ => EmptyString
  end.

(** [exports.sanitizeObject].  An object is the list of its own properties
    in the order of [Object.entries], which is also the order in which the
    result gets them; the entries of an array are its elements under their
    indices, so an array comes back as a plain object.  The result starts
    as [{}], where [__proto__] is the accessor of [Object.prototype]: the
    assignment [sanitized['__proto__'] = ..] calls its setter, which gives
    the result no property of its own. *)
Fixpoint sanitizeObject (obj : Json) : Json :=
  let entry (value : Json) : Json :=
    match value with
    | JStr _ => JStr (stripHtml value)
    | JArr _ | JObj _ => sanitizeObject value
    | _ => value
    end in
  match obj with
  | JObj fields =>
      JObj ((fix entries (l : list (string * Json)) : list (string * Json) :=
               match l with
               | [] => []
               | (key, value) :: l' =>
                   if String.eqb key "__proto__" then entries l'
                   else (key, entry value) :: entries l'
               end) fields)
  | JArr xs =>
      JObj ((fix entries (i : nat) (l : list Json) : list (string * Json) :=
               match l with
               | [] => []
               | value :: l' => (pretty i, entry value) :: entries (S i) l'
               end) 0%nat xs)
  | _ => obj
  end.

End Sanitize.

(** The string values of a request value, at any depth, from left to right
    (property names are not values). *)
Fixpoint string_values (j : Json) : list string :=
  match j with
  | JStr s => [s]
  | JArr xs =>
      (fix go (l : list Json) : list string :=
         match l with [] => [] | x :: l' => (string_values x ++ go l')%list end) xs
  | JObj fields =>
      (fix go (l : list (string * Json)) : list string :=
         match l with
         | [] => []
         | (_, x) :: l' => (string_values x ++ go l')%list
         end) fields
  | _ => []
  end.

(** The property names of an object, in order. *)
Definition keys (j : Json) : list string :=
  match j with
  | JObj fields => fst <$> fields
  | _ => []
  end.

(** ** middleware/admin.js *)

(** [String.prototype.includes]: [search] occurs somewhere in [s]. *)
Fixpoint includes (s search : string) : bool :=
  String.prefix search s
  || match s with
     | EmptyString => false
     | String _ s' => includes s' search
     end.

(** [exports.isAdmin]; [mret tt] is the call of [next()]. *)
Definition isAdmin (req_user : option User) : Handler unit :=
  match req_user with
  | Some user =>
      if negb (String.eqb (role user) "admin") then
        logger LWarn ("Unauthorized admin access attempt by user: " ++ _id user);;
        respond (json 403
          [("success", JBool false);
           ("message", JStr "Access denied. Admin privileges required.")])
      else mret tt
  | None =>
      logger LWarn "Unauthorized admin access attempt by user: unauthenticated";;
      respond (json 403
        [("success", JBool false);
         ("message", JStr "Access denied. Admin privileges required.")])
  end.

(** [exports.isSuperAdmin]; reading [includes] off an unset
    [SUPER_ADMIN_IDS] throws, and nothing here catches it. *)
Definition isSuperAdmin (env : Env) (req_user : option User) : Handler unit :=
  let deny (who : string) : Handler unit :=
    logger LWarn ("Unauthorized super admin access attempt by user: " ++ who);;
    respond (json 403
      [("success", JBool false);
       ("message", JStr "Access denied. Super admin privileges required.")]) in
  match req_user with
  | Some user =>
      if negb (String.eqb (role user) "admin") then deny (_id user)
      else
        match process_env env !! "SUPER_ADMIN_IDS" with
        | None =>
            throw (TypeError "Cannot read properties of undefined (reading 'includes')")
        | Some ids =>
            if negb (includes ids (_id user)) then deny (_id user) else mret tt
        end
  | None => deny "unauthenticated"
  end.

(** ** models/Capsule.js *)

Module Capsule.

Record Recipient := mkRecipient { email : string; name : string }.

Record File := mkFile {
  filename : string;
  originalName : string;
  path : string;
  mimetype : string
}.

Record Content := mkContent {
  type : string;
  text : option string;
  files : list File
}.

Record t := mk {
  _id : string;
  sender : string;
  recipient : Recipient;
  content : Content;
  deliveryDate : Date;
  status : string;
  isPublic : bool;
  title : string;
  message : string;
  createdAt : Date;
  deliveredAt : option Date
}.

End Capsule.

(** ** controllers/capsules.js *)

(** The message object given to [transporter.sendMail]. *)
Record Mail := mkMail {
  mail_from : option string;
  mail_to : string;
  mail_subject : string;
  mail_text : string;
  mail_html : string
}.

(** What is outside the repository for the capsule controllers.
    [Capsule_toJSON] is the serialization of a document in a response;
    [castObjectId id] tells whether Mongoose can cast [id] to an ObjectId (a
    query by an id it cannot cast is rejected with a CastError);
    [Capsule_runUpdate body doc] is the document
    [findByIdAndUpdate(id, body, { new: true, runValidators: true })] leaves in
    place of [doc], or the validation error it is rejected with;
    [sort_deliveredAt_desc] is the cursor's [sort({ deliveredAt: -1 })];
    [sendMail k mail] is the [k]-th call of [transporter.sendMail] in a
    request: [None] when the mail is accepted, the message of the error it
    is rejected with otherwise;
    [Capsule_valid doc] tells whether [doc] passes the validators of the
    schema other than the [min] of [deliveryDate] (required, match, enum,
    maxlength);
    [ValidationError_message now doc] is the message of the error
    [doc.validate()] is rejected with at time [now], when it is. *)
Class CapsuleModel := {
  Capsule_toJSON : Capsule.t -> Json;
  castObjectId : string -> bool;
  CastError_message : string -> string;
  Capsule_runUpdate : Json -> Capsule.t -> Exn + Capsule.t;
  sort_deliveredAt_desc : list Capsule.t -> list Capsule.t;
  sendMail : nat -> Mail -> option string;
  Capsule_valid : Capsule.t -> bool;
  ValidationError_message : Z -> Capsule.t -> string
}.

(** What a capsule controller can change: the capsules collection, in its
    natural order, the console and the mails accepted by the transport. *)
Record Store := mkStore {
  capsules : list Capsule.t;
  console : list (Level * string);
  sent : list Mail
}.

(** [console.log] and [console.error] *)
Definition console_log (msg : string) (st : Store) : Store :=
  mkStore (capsules st) (console st ++ [(LInfo, msg)]) (sent st).

Definition console_error (msg : string) (st : Store) : Store :=
  mkStore (capsules st) (console st ++ [(LError, msg)]) (sent st).

Definition put_capsules (cs : list Capsule.t) (st : Store) : Store :=
  mkStore cs (console st) (sent st).

(** The write of [capsule.save()]: the document replaces the stored one
    with its id. *)
Definition save_capsule (capsule : Capsule.t) (cs : list Capsule.t)
    : list Capsule.t :=
  (fun c => if String.eqb (Capsule._id c) (Capsule._id capsule) then capsule else c)
    <$> cs.

(** [capsule.remove()] *)
Definition remove_capsule (capsule : Capsule.t) (cs : list Capsule.t)
    : list Capsule.t :=
  List.filter (fun c => negb (String.eqb (Capsule._id c) (Capsule._id capsule))) cs.

Definition nl : string := String (ascii_of_nat 10) EmptyString.
Definition dq : string := String (ascii_of_nat 34) EmptyString.

Section Capsules.
Context `{CapsuleModel}.

(** The validator the schema gives [deliveryDate],
    [min: [Date.now, 'Delivery date must be in the future']]: Mongoose calls
    [Date.now] when it validates, and accepts a date that is not before. *)
Definition deliveryDate_min (now : Z) (capsule : Capsule.t) : bool :=
  now <=? getTime (Capsule.deliveryDate capsule).

(** [capsule.save()] on a document a query has loaded: Mongoose validates
    the paths of the document first, [deliveryDate] among them, and writes
    only when they pass. *)
Definition Capsule_save (now : Z) (capsule : Capsule.t) (cs : list Capsule.t)
    : Exn + list Capsule.t :=
  if deliveryDate_min now capsule && Capsule_valid capsule
  then inr (save_capsule capsule cs)
  else inl (Error (ValidationError_message now capsule)).

(** [Capsule.findById(id)] *)
Definition Capsule_findById (id : string) (cs : list Capsule.t)
    : Exn + option Capsule.t :=
  if castObjectId id
  then inr (List.find (fun c => String.eqb (Capsule._id c) id) cs)
  else inl (Error (CastError_message id)).

Definition server_error : Response :=
  json 500 [("success", JBool false); ("message", JStr "Server error")].

(** [exports.getCapsules]; [req.user.id] is the id of the document the
    [protect] middleware loaded. *)
Definition getCapsules (req_user_id : string) (st : Store) : Response * Store :=
  let capsules :=
    List.filter (fun c => String.eqb (Capsule.sender c) req_user_id) (capsules st) in
  (json 200 [("success", JBool true);
             ("count", JNum (Z.of_nat (length capsules)));
             ("data", JArr (Capsule_toJSON <$> capsules))],
   console_log ("Retrieved " ++ pretty (length capsules) ++ " capsules for user "
                ++ req_user_id) st).

(** [exports.getCapsule] *)
Definition getCapsule (req_user_id params_id : string) (st : Store)
    : Response * Store :=
  match Capsule_findById params_id (capsules st) with
  | inl error =>
      (server_error, console_error ("Error retrieving capsule: " ++ message error) st)
  | inr None =>
      (json 404 [("success", JBool false); ("message", JStr "Capsule not found")],
       console_log ("Capsule not found: " ++ params_id) st)
  | inr (Some capsule) =>
      if negb (Capsule.isPublic capsule)
         && negb (String.eqb (Capsule.sender capsule) req_user_id)
      then
        (json 403 [("success", JBool false);
                   ("message", JStr "Not authorized to access this capsule")],
         console_log ("Unauthorized access to capsule " ++ params_id ++ " by user "
                      ++ req_user_id) st)
      else
        (json 200 [("success", JBool true); ("data", Capsule_toJSON capsule)],
         console_log ("Capsule " ++ params_id ++ " retrieved successfully") st)
  end.

(** [exports.updateCapsule] *)
Definition updateCapsule (req_user_id params_id : string) (req_body : Json)
    (st : Store) : Response * Store :=
  let failed (error : Exn) (st : Store) :=
    (server_error, console_error ("Error updating capsule: " ++ message error) st) in
  match Capsule_findById params_id (capsules st) with
  | inl error => failed error st
  | inr None =>
      (json 404 [("success", JBool false); ("message", JStr "Capsule not found")],
       console_log ("Capsule not found for update: " ++ params_id) st)
  | inr (Some capsule) =>
      if negb (String.eqb (Capsule.sender capsule) req_user_id) then
        (json 403 [("success", JBool false);
                   ("message", JStr "Not authorized to update this capsule")],
         console_log ("Unauthorized update attempt to capsule " ++ params_id
                      ++ " by user " ++ req_user_id) st)
      else if negb (String.eqb (Capsule.status capsule) "pending") then
        (json 400
           [("success", JBool false);
            ("message",
             JStr "Cannot update a capsule that has already been delivered")],
         console_log ("Cannot update already delivered capsule " ++ params_id) st)
      else
        match Capsule_runUpdate req_body capsule with
        | inl error => failed error st
        | inr updated =>
            (json 200 [("success", JBool true); ("data", Capsule_toJSON updated)],
             console_log ("Capsule " ++ params_id ++ " updated successfully")
               (put_capsules
                  ((fun c => if String.eqb (Capsule._id c) params_id
                             then updated else c) <$> capsules st) st))
        end
  end.

(** [exports.deleteCapsule] *)
Definition deleteCapsule (req_user_id params_id : string) (st : Store)
    : Response * Store :=
  match Capsule_findById params_id (capsules st) with
  | inl error =>
      (server_error, console_error ("Error deleting capsule: " ++ message error) st)
  | inr None =>
      (json 404 [("success", JBool false); ("message", JStr "Capsule not found")],
       console_log ("Capsule not found for deletion: " ++ params_id) st)
  | inr (Some capsule) =>
      if negb (String.eqb (Capsule.sender capsule) req_user_id) then
        (json 403 [("success", JBool false);
                   ("message", JStr "Not authorized to delete this capsule")],
         console_log ("Unauthorized deletion attempt to capsule " ++ params_id
                      ++ " by user " ++ req_user_id) st)
      else
        (json 200 [("success", JBool true); ("data", JObj [])],
         console_log ("Capsule " ++ params_id ++ " deleted successfully")
           (put_capsules (remove_capsule capsule (capsules st)) st))
  end.

(** [exports.getPublicCapsules] *)
Definition getPublicCapsules (st : Store) : Response * Store :=
  let capsules :=
    sort_deliveredAt_desc
      (List.filter
         (fun c => Capsule.isPublic c && String.eqb (Capsule.status c) "delivered")
         (capsules st)) in
  (json 200 [("success", JBool true);
             ("count", JNum (Z.of_nat (length capsules)));
             ("data", JArr (Capsule_toJSON <$> capsules))],
   console_log ("Retrieved " ++ pretty (length capsules) ++ " public capsules") st).

(** The query of [deliverCapsules]: due at [currentDate] and still pending. *)
Definition due (currentDate : Date) (c : Capsule.t) : bool :=
  (getTime (Capsule.deliveryDate c) <=? getTime currentDate)
  && String.eqb (Capsule.status c) "pending".

(** The mail [deliverCapsules] writes for a capsule. *)
Definition capsule_mail (env : Env) (capsule : Capsule.t) : Mail :=
  let attachments :=
    if (0 <? length (Capsule.files (Capsule.content capsule)))%nat then
      "<p>This capsule contains attachments. View them <a href=" ++ dq
      ++ interpolate (process_env env !! "FRONTEND_URL") ++ "/capsule/"
      ++ Capsule._id capsule ++ dq ++ ">here</a>.</p>"
    else EmptyString in
  {| mail_from := process_env env !! "EMAIL_FROM";
     mail_to := Capsule.email (Capsule.recipient capsule);
     mail_subject := "Time Capsule: " ++ Capsule.title capsule;
     mail_text :=
       "Hello " ++ Capsule.name (Capsule.recipient capsule) ++ "," ++ nl ++ nl
       ++ "You have received a time capsule from a friend!" ++ nl ++ nl ++ "Message: "
       ++ Capsule.message capsule ++ nl ++ nl ++ "Enjoy this blast from the past!";
     mail_html :=
       "<h2>Hello " ++ Capsule.name (Capsule.recipient capsule) ++ ",</h2>" ++ nl
       ++ "                 <p>You have received a time capsule from a friend!</p>"
       ++ nl ++ "                 <div style=" ++ dq
       ++ "border: 1px solid #ccc; padding: 20px; margin: 20px 0; border-radius: 5px;"
       ++ dq ++ ">" ++ nl ++ "                   <h3>" ++ Capsule.title capsule
       ++ "</h3>" ++ nl ++ "                   <p>" ++ Capsule.message capsule
       ++ "</p>" ++ nl ++ "                   " ++ attachments ++ nl
       ++ "                 </div>" ++ nl
       ++ "                 <p>Enjoy this blast from the past!</p>" |}.

Definition with_status (status : string) (deliveredAt : option Date)
    (capsule : Capsule.t) : Capsule.t :=
  {| Capsule._id := Capsule._id capsule;
     Capsule.sender := Capsule.sender capsule;
     Capsule.recipient := Capsule.recipient capsule;
     Capsule.content := Capsule.content capsule;
     Capsule.deliveryDate := Capsule.deliveryDate capsule;
     Capsule.status := status;
     Capsule.isPublic := Capsule.isPublic capsule;
     Capsule.title := Capsule.title capsule;
     Capsule.message := Capsule.message capsule;
     Capsule.createdAt := Capsule.createdAt capsule;
     Capsule.deliveredAt := deliveredAt |}.

(** The [try] block of the loop for one capsule, at the [k]-th call of
    [sendMail]: the error that leaves it, if any, with the document in
    memory and the store at that point. *)
Definition deliver_try (env : Env) (currentDate : Date) (k : nat)
    (capsule : Capsule.t) (st : Store) : option Exn * Capsule.t * Store :=
  let mail := capsule_mail env capsule in
  match sendMail k mail with
  | Some error_message => (Some (Error error_message), capsule, st)
  | None =>
      let st := mkStore (capsules st) (console st) (sent st ++ [mail]) in
      let capsule := with_status "delivered" (Some currentDate) capsule in
      match Capsule_save (Date_now env) capsule (capsules st) with
      | inl error => (Some error, capsule, st)
      | inr cs =>
          (None, capsule,
           console_log ("Successfully delivered capsule " ++ Capsule._id capsule
                        ++ " to " ++ Capsule.email (Capsule.recipient capsule))
             (put_capsules cs st))
      end
  end.

(** One iteration of [for (const capsule of capsulesToDeliver)]: the entry
    it pushes on [deliveryResults], or the error that leaves it, which is
    the one [capsule.save()] throws inside the [catch] block. *)
Definition deliver_iteration (env : Env) (currentDate : Date) (k : nat)
    (capsule : Capsule.t) (st : Store) : (Exn + Json) * Store :=
  match deliver_try env currentDate k capsule st with
  | (None, capsule, st) =>
      (inr (JObj [("id", JStr (Capsule._id capsule)); ("success", JBool true)]), st)
  | (Some error, capsule, st) =>
      let st :=
        console_error ("Failed to deliver capsule " ++ Capsule._id capsule
                       ++ ": " ++ message error) st in
      let capsule := with_status "failed" (Capsule.deliveredAt capsule) capsule in
      match Capsule_save (Date_now env) capsule (capsules st) with
      | inl error => (inl error, st)
      | inr cs =>
          (inr (JObj [("id", JStr (Capsule._id capsule));
                      ("success", JBool false);
                      ("error", JStr (message error))]),
           put_capsules cs st)
      end
  end.

(** The loop, before the [k]-th call of [sendMail]. *)
Fixpoint deliver_loop (env : Env) (currentDate : Date)
    (capsulesToDeliver : list Capsule.t) (k : nat) (deliveryResults : list Json)
    (st : Store) : (Exn + list Json) * Store :=
  match capsulesToDeliver with
  | [] => (inr deliveryResults, st)
  | capsule :: rest =>
      match deliver_iteration env currentDate k capsule st with
      | (inl error, st) => (inl error, st)
      | (inr result, st) =>
          deliver_loop env currentDate rest (S k) (deliveryResults ++ [result]) st
      end
  end.

(** [exports.deliverCapsules] *)
Definition deliverCapsules (env : Env) (st : Store) : Response * Store :=
  let currentDate := mkDate (Date_now env) in
  let capsulesToDeliver := List.filter (due currentDate) (capsules st) in
  let st :=
    console_log ("Found " ++ pretty (length capsulesToDeliver)
                 ++ " capsules to deliver") st in
  if (length capsulesToDeliver =? 0)%nat then
    (json 200 [("success", JBool true);
               ("message", JStr "No capsules to deliver");
               ("count", JNum 0)],
     st)
  else
    match deliver_loop env currentDate capsulesToDeliver 0 [] st with
    | (inr deliveryResults, st) =>
        (json 200 [("success", JBool true);
                   ("message", JStr "Delivery process completed");
                   ("count", JNum (Z.of_nat (length capsulesToDeliver)));
                   ("results", JArr deliveryResults)],
         st)
    | (inl error, st) =>
        (json 500 [("success", JBool false);
                   ("message", JStr "Server error during delivery process")],
         console_error ("Error in delivery process: " ++ message error) st)
    end.

End Capsules.

(** ** routes/capsules.js *)

Inductive Method := GET | POST | PUT | DELETE.

(** A piece of a route path: a literal, or a named parameter ([:id]). *)
Inductive Segment := Lit (s : string) | Param (name : string).

Inductive Middleware := protect | isAdmin_middleware | validateCapsule.

Inductive Controller :=
| createCapsule_controller
| getCapsules_controller
| getCapsule_controller
| updateCapsule_controller
| deleteCapsule_controller
| getPublicCapsules_controller
| deliverCapsules_controller.

Record Route := mkRoute {
  route_method : Method;
  route_path : list Segment;
  route_middlewares : list Middleware;
  route_controller : Controller
}.

(** The calls of [router.get], [router.post], [router.put] and
    [router.delete], in the order of the file. *)
Definition capsule_routes : list Route :=
  [ mkRoute GET [Lit "public"] [] getPublicCapsules_controller;
    mkRoute GET [] [protect] getCapsules_controller;
    mkRoute POST [] [protect; validateCapsule] createCapsule_controller;
    mkRoute GET [Param "id"] [protect] getCapsule_controller;
    mkRoute PUT [Param "id"] [protect; validateCapsule] updateCapsule_controller;
    mkRoute DELETE [Param "id"] [protect] deleteCapsule_controller;
    mkRoute GET [Lit "deliver"] [protect; isAdmin_middleware]
      deliverCapsules_controller ].

Definition Method_eqb (a b : Method) : bool :=
  match a, b with
  | GET, GET | POST, POST | PUT, PUT | DELETE, DELETE => true
  | _, _ => false
  end.

(** Express compares literals without regard to case. *)
Definition lower_ascii (c : ascii) : ascii :=
  let n := nat_of_ascii c in
  if ((65 <=? n) && (n <=? 90))%nat then ascii_of_nat (n + 32) else c.

Fixpoint lower (s : string) : string :=
  match s with
  | EmptyString => EmptyString
  | String c s' => String (lower_ascii c) (lower s')
  end.

(** A request path below the mount point is the list of its segments; a
    parameter takes one segment that is not empty. *)
Definition segment_matches (p : Segment) (seg : string) : bool :=
  match p with
  | Lit s => String.eqb (lower s) (lower seg)
  | Param _ => negb (String.eqb seg EmptyString)
  end.

Fixpoint path_matches (pattern : list Segment) (path : list string) : bool :=
  match pattern, path with
  | [], [] => true
  | p :: pattern', seg :: path' => segment_matches p seg && path_matches pattern' path'
  | _, _ => false
  end.

Definition route_matches (m : Method) (path : list string) (r : Route) : bool :=
  Method_eqb m (route_method r) && path_matches (route_path r) path.

(** The route that takes a request: the first one, in the order of
    registration, whose method and path match.  Its middlewares answer or
    pass on to its controller, and a controller always answers, so no later
    route is tried. *)
Definition dispatch (routes : list Route) (m : Method) (path : list string)
    : option Route :=
  List.find (route_matches m path) routes.

(** ** Stand-ins for the scenarios of the other modules *)

Module Examples.

(** Drops the angle brackets. *)
Fixpoint drop_brackets (s : string) : string :=
  match s with
  | EmptyString => EmptyString
  | String c s' =>
      if (Ascii.eqb c "<" || Ascii.eqb c ">")%char then drop_brackets s'
      else String c (drop_brackets s')
  end.

Definition purify : DOMPurify := {| DOMPurify_sanitize := fun s _ => drop_brackets s |}.

(** Hexadecimal ids of 24 characters are cast; the transport rejects the
    mails addressed to [bounce@example.com]; the validators other than the
    one of [deliveryDate] pass. *)
Definition model : CapsuleModel := {|
  Capsule_toJSON := fun c =>
    JObj [("_id", JStr (Capsule._id c)); ("status", JStr (Capsule.status c))];
  castObjectId := fun id => (String.length id =? 24)%nat;
  CastError_message := fun id => "Cast to ObjectId failed for value " ++ id;
  Capsule_runUpdate := fun _ c => inr c;
  sort_deliveredAt_desc := fun l => l;
  sendMail := fun _ m =>
    if String.eqb (mail_to m) "bounce@example.com"
    then Some "Mailbox unavailable" else None;
  Capsule_valid := fun _ => true;
  ValidationError_message := fun _ _ =>
    "Capsule validation failed: deliveryDate: Delivery date must be in the future"
|}.

Definition capsule (id owner to : string) (public : bool) (status : string)
    (due_at : Z) : Capsule.t :=
  {| Capsule._id := id;
     Capsule.sender := owner;
     Capsule.recipient := Capsule.mkRecipient to "Bob";
     Capsule.content := Capsule.mkContent "text" None [];
     Capsule.deliveryDate := mkDate due_at;
     Capsule.status := status;
     Capsule.isPublic := public;
     Capsule.title := "Hello";
     Capsule.message := "See you";
     Capsule.createdAt := mkDate 0;
     Capsule.deliveredAt := None |}.

Definition id1 : string := "aaaaaaaaaaaaaaaaaaaaaaa1".
Definition id2 : string := "aaaaaaaaaaaaaaaaaaaaaaa2".
Definition id3 : string := "aaaaaaaaaaaaaaaaaaaaaaa3".

(** Three capsules of Alice: one due and deliverable, one due whose mail
    bounces, one not yet due. *)
Definition store : Store :=
  mkStore
    [ capsule id1 "u1" "bob@example.com" false "pending" 500;
      capsule id2 "u1" "bounce@example.com" true "pending" 600;
      capsule id3 "u1" "bob@example.com" false "pending" 5000000 ]
    [] [].

Definition admin : User := mkUser "a1" "Root" "root@example.com" "$root"
  false None [] 0 false None None "admin".

(** Alice with the second factor enabled and no backup code left. *)
Definition no_codes : User := mkUser "u1" "Alice" "alice@example.com" "$hunter2"
  true (Some "SECRET") [] 0 false None None "user".


End Examples.

(** ** Vocabulary of the further statements *)

(** The stored document after a failed attempt at time [now]. *)
Definition record_failure (now : Z) (u : User) : User :=
  apply_update (incrementLoginAttempts u now) u.

(** The lockout fields agree with one another: the counter is not
    negative, the flag is set exactly when a lock date is stored, and a lock
    date is stored exactly when the counter has reached 5. *)
Definition lockout_consistent (u : User) : Prop :=
  0 <= loginAttempts u /\
  (accountLocked u = true <-> is_Some (lockUntil u)) /\
  (is_Some (lockUntil u) <-> 5 <= loginAttempts u).

(** Every document of the collection is stored under its own id. *)
Definition keyed_by_id (us : gmap string User) : Prop :=
  forall k u, us !! k = Some u -> _id u = k.

(** The property names that occur in a request value, at any depth. *)
Fixpoint property_names (j : Json) : list string :=
  match j with
  | JArr xs =>
      (fix go (l : list Json) : list string :=
         match l with [] => [] | x :: l' => (property_names x ++ go l')%list end) xs
  | JObj fields =>
      (fix go (l : list (string * Json)) : list string :=
         match l with
         | [] => []
         | (k, x) :: l' => (k :: property_names x ++ go l')%list
         end) fields
  | _ => []
  end.

(** A property name under which an assignment to a plain object makes a
    property of that object: any but [__proto__]. *)
Definition own_name (key : string) : bool := negb (String.eqb key "__proto__").

(** What the loop of [sanitizeObject] assigns for a property value. *)
Definition sanitize_entry `{DOMPurify} (value : Json) : Json :=
  match value with
  | JStr _ => JStr (stripHtml value)
  | JArr _ | JObj _ => sanitizeObject value
  | _ => value
  end.

(** ** Account lockout (models/User.js) *)

Section Lockout.
Implicit Types (this : User) (now : Z) (us : gmap string User).

(** What [updateOne] leaves in the collection for a document that was just
    read from it. *)
Lemma updateOne_lookup this upd us :
  us !! _id this = Some this ->
  updateOne this upd us !! _id this = Some (apply_update upd this).
Proof.
  intros Hthis. unfold updateOne.
  rewrite lookup_alter_eq, Hthis. reflexivity.
Qed.

Lemma updateOne_lookup_ne this upd us (id : string) :
  id <> _id this -> updateOne this upd us !! id = us !! id.
Proof.
  intros Hne. unfold updateOne. rewrite lookup_alter_ne; [reflexivity | congruence].
Qed.

Lemma incrementLoginAttempts_expired this now :
  lock_expired this now = true ->
  incrementLoginAttempts this now =
    mkUpdate None (Some 1) (Some None) (Some false) None None None None.
Proof.
  unfold lock_expired, incrementLoginAttempts.
  destruct (lockUntil this) as [d|]; [|discriminate].
  cbn. intros ->. reflexivity.
Qed.

Lemma incrementLoginAttempts_not_expired this now :
  lock_expired this now = false ->
  incrementLoginAttempts this now =
    if 5 <=? loginAttempts this + 1
    then mkUpdate (Some 1) None (Some (Some (mkDate (now + 3600000)))) (Some true)
           None None None None
    else mkUpdate (Some 1) None None None None None None None.
Proof.
  unfold lock_expired, incrementLoginAttempts.
  destruct (lockUntil this) as [d|]; cbn; [intros ->|intros _]; reflexivity.
Qed.

(** C5: when the stored lock date has passed, a failed attempt sets the
    counter to exactly 1, clears [lockUntil] and [accountLocked], and leaves
    the account unlocked; nothing else in the document changes. *)
Theorem incrementLoginAttempts_resets_after_expiry this now us (d : Date) :
  us !! _id this = Some this ->
  lockUntil this = Some d ->
  getTime d < now ->
  exists u',
    updateOne this (incrementLoginAttempts this now) us !! _id this = Some u' /\
    loginAttempts u' = 1 /\
    lockUntil u' = None /\
    accountLocked u' = false /\
    (forall t, isLocked u' t = false) /\
    twoFactorEnabled u' = twoFactorEnabled this /\
    twoFactorSecret u' = twoFactorSecret this /\
    twoFactorBackupCodes u' = twoFactorBackupCodes this /\
    password u' = password this /\
    lastLogin u' = lastLogin this.
Proof.
  intros Hthis Hlock Hpast.
  assert (Hexp : lock_expired this now = true).
  { unfold lock_expired. rewrite Hlock. apply Z.ltb_lt, Hpast. }
  eexists. split.
  - rewrite (updateOne_lookup _ _ _ Hthis), (incrementLoginAttempts_expired _ _ Hexp).
    reflexivity.
  - cbn. repeat split; reflexivity.
Qed.

Lemma incrementLoginAttempts_resets_after_expiry_witness :
  exists u',
    updateOne (Scenario.locked_until 5 0) (incrementLoginAttempts (Scenario.locked_until 5 0) 1000)
      {[ "u1" := Scenario.locked_until 5 0 ]} !! "u1" = Some u' /\
    loginAttempts u' = 1 /\ lockUntil u' = None /\ accountLocked u' = false.
Proof.
  destruct (incrementLoginAttempts_resets_after_expiry
              (Scenario.locked_until 5 0) 1000 {[ "u1" := Scenario.locked_until 5 0 ]}
              (mkDate 0)) as (u' & Hu & Hn & Hl & Ha & _).
  - reflexivity.
  - reflexivity.
  - cbn. lia.
  - exists u'. auto.
Defined.

(** C4, as stated, fails on a user whose lock has expired: such a user has
    no unexpired lock and four recorded attempts, and the failed attempt
    leaves the counter at 1 and the account unlocked. *)
Lemma incrementLoginAttempts_four_attempts_expired_lock :
  let this := Scenario.locked_until 4 0 in
  let now := 1000 in
  loginAttempts this = 4 /\ isLocked this now = false /\
  updateOne this (incrementLoginAttempts this now) {[ _id this := this ]} !! _id this
    = Some (Scenario.unlocked 1) /\
  loginAttempts (Scenario.unlocked 1) <> 5 /\
  accountLocked (Scenario.unlocked 1) <> true.
Proof.
  cbn zeta. repeat split; try reflexivity; cbn; [lia | discriminate].
Qed.

(** C4, amended: with four recorded attempts and a lock that is neither
    running nor expired (no lock date stored, or one that is exactly now), a
    failed attempt makes the counter 5, sets [accountLocked] and sets
    [lockUntil] to now plus one hour.  In general the update sets the lock
    exactly when the counter it leaves is at least 5. *)
Theorem incrementLoginAttempts_locks_at_five this now us :
  us !! _id this = Some this ->
  exists u',
    updateOne this (incrementLoginAttempts this now) us !! _id this = Some u' /\
    (loginAttempts this = 4 ->
     isLocked this now = false -> lock_expired this now = false ->
       loginAttempts u' = 5 /\ accountLocked u' = true /\
       lockUntil u' = Some (mkDate (now + 3600000))) /\
    (set_accountLocked (incrementLoginAttempts this now) = Some true /\
     set_lockUntil (incrementLoginAttempts this now)
       = Some (Some (mkDate (now + 3600000)))
     <-> 5 <= loginAttempts u') /\
    (5 <= loginAttempts u' ->
       accountLocked u' = true /\ lockUntil u' = Some (mkDate (now + 3600000))).
Proof.
  intros Hthis. eexists. split; [apply (updateOne_lookup _ _ _ Hthis)|].
  destruct (lock_expired this now) eqn:Hexp.
  - rewrite (incrementLoginAttempts_expired _ _ Hexp). cbn.
    repeat split; try discriminate; try lia.
    intros [[=] _].
  - rewrite (incrementLoginAttempts_not_expired _ _ Hexp).
    destruct (5 <=? loginAttempts this + 1) eqn:Hfive; cbn.
    + apply Z.leb_le in Hfive. rewrite Z.add_0_r || idtac.
      repeat split; try reflexivity; try lia.
    + apply Z.leb_gt in Hfive.
      repeat split; try lia; try discriminate.
      intros [[=] _].
Qed.

Lemma incrementLoginAttempts_locks_at_five_witness :
  exists u',
    updateOne (Scenario.unlocked 4) (incrementLoginAttempts (Scenario.unlocked 4) 1000)
      {[ "u1" := Scenario.unlocked 4 ]} !! "u1" = Some u' /\
    loginAttempts u' = 5 /\ accountLocked u' = true /\
    lockUntil u' = Some (mkDate 3601000).
Proof.
  destruct (incrementLoginAttempts_locks_at_five
              (Scenario.unlocked 4) 1000 {[ "u1" := Scenario.unlocked 4 ]})
    as (u' & Hu & Hfour & _).
  - reflexivity.
  - exists u'. split; [exact Hu|]. apply Hfour; reflexivity.
Defined.

End Lockout.

(** ** Login (controllers/users.js) *)

#[local] Arguments find_by_email : simpl never.
#[local] Arguments isLocked : simpl never.
#[local] Arguments incrementLoginAttempts : simpl never.
#[local] Arguments resetLoginAttempts : simpl never.
#[local] Arguments updateOne : simpl never.
#[local] Arguments getSignedJwtToken : simpl never.
#[local] Arguments interpolate : simpl never.
#[local] Arguments String.append : simpl never.
#[local] Arguments json : simpl never.

(** Runs the monadic plumbing of a controller as far as the data allows. *)
Ltac run_handler :=
  cbv beta iota zeta delta
    [try_catch mbind handler_bind mret handler_ret respond throw logger
     get_users put_users get_session put_session findById findOne_email
     findByIdAndUpdate doc_updateOne save deref matchPassword floating call
     fst snd] in *.

Section Login.
Context `{Primitives}.
Implicit Types (env : Env) (req : Request) (w : World) (user : User).

Lemma loginUser_locked env req w user :
  find_by_email (req_body req !! "email") (users w) = Some user ->
  isLocked user (Date_now env) = true ->
  loginUser env req w =
    (json 401
       [("success", JBool false);
        ("message",
         JStr "Account is locked due to too many failed attempts. Try again later.")],
     log_only LWarn
       ("Login attempt on locked account: " ++ interpolate (req_body req !! "email")) w).
Proof.
  intros Hfind Hlocked.
  unfold loginUser. run_handler.
  rewrite Hfind. run_handler. rewrite Hlocked. reflexivity.
Qed.

Lemma loginUser_wrong_password env req w user (p : string) :
  find_by_email (req_body req !! "email") (users w) = Some user ->
  isLocked user (Date_now env) = false ->
  req_body req !! "password" = Some p ->
  bcrypt_compare p (password user) = false ->
  loginUser env req w =
    (json 401 [("success", JBool false); ("message", JStr "Invalid credentials")],
     mkWorld (updateOne user (incrementLoginAttempts user (Date_now env)) (users w))
       (session w)
       (logs w ++ [(LWarn, "Failed login attempt for user: " ++ _id user)])
       (random_calls w) (unhandled w)).
Proof.
  intros Hfind Hlocked Hp Hcmp.
  unfold loginUser. run_handler.
  rewrite Hfind. run_handler. rewrite Hlocked, Hp. run_handler.
  rewrite Hcmp. reflexivity.
Qed.

(** A wrong password on an unlocked account is recorded by
    [incrementLoginAttempts] on the stored document. *)
Lemma loginUser_records_failure env req w user (p : string) :
  find_by_email (req_body req !! "email") (users w) = Some user ->
  users w !! _id user = Some user ->
  isLocked user (Date_now env) = false ->
  req_body req !! "password" = Some p ->
  bcrypt_compare p (password user) = false ->
  status (fst (loginUser env req w)) = 401 /\
  users (snd (loginUser env req w)) !! _id user =
    Some (apply_update (incrementLoginAttempts user (Date_now env)) user).
Proof.
  intros Hfind Hstored Hlocked Hp Hcmp.
  rewrite (loginUser_wrong_password _ _ _ _ _ Hfind Hlocked Hp Hcmp).
  split; [reflexivity|]. cbn [snd users].
  apply updateOne_lookup, Hstored.
Qed.

(** C3, amended: the answer to a login attempt on a locked account and the
    answer to a wrong password on an unlocked account agree on the status
    (401) and on [success] (false), but not on the message: the first says
    that the account is locked, the second says "Invalid credentials".  The
    two are also logged as different warnings. *)
Theorem loginUser_locked_message_differs env req req' w w' user user' (p : string) :
  find_by_email (req_body req !! "email") (users w) = Some user ->
  isLocked user (Date_now env) = true ->
  find_by_email (req_body req' !! "email") (users w') = Some user' ->
  isLocked user' (Date_now env) = false ->
  req_body req' !! "password" = Some p ->
  bcrypt_compare p (password user') = false ->
  let locked := loginUser env req w in
  let wrong := loginUser env req' w' in
  status (fst locked) = 401 /\ status (fst wrong) = 401 /\
  field "success" (body (fst locked)) = Some (JBool false) /\
  field "success" (body (fst wrong)) = Some (JBool false) /\
  field "message" (body (fst locked)) =
    Some (JStr "Account is locked due to too many failed attempts. Try again later.") /\
  field "message" (body (fst wrong)) = Some (JStr "Invalid credentials") /\
  field "message" (body (fst locked)) <> field "message" (body (fst wrong)) /\
  logs (snd locked) =
    (logs w ++ [(LWarn, ("Login attempt on locked account: "
                         ++ interpolate (req_body req !! "email"))%string)])%list /\
  logs (snd wrong) =
    (logs w' ++ [(LWarn, ("Failed login attempt for user: " ++ _id user')%string)])%list /\
  users (snd locked) = users w.
Proof.
  intros Hfind Hlocked Hfind' Hunlocked Hp Hcmp locked wrong.
  subst locked wrong.
  rewrite (loginUser_locked _ _ _ _ Hfind Hlocked).
  rewrite (loginUser_wrong_password _ _ _ _ _ Hfind' Hunlocked Hp Hcmp).
  cbn. repeat split; discriminate.
Qed.

End Login.

Lemma loginUser_locked_message_differs_witness :
  let locked :=
    loginUser (H := Scenario.toy) Scenario.dev
      (Scenario.post EmptyString
         [("email", "alice@example.com"); ("password", "letmein")])
      (Scenario.world_of (Scenario.locked_until 5 2000000)) in
  let wrong :=
    loginUser (H := Scenario.toy) Scenario.dev
      (Scenario.post EmptyString
         [("email", "alice@example.com"); ("password", "letmein")])
      (Scenario.world_of (Scenario.unlocked 0)) in
  status (fst locked) = 401 /\ status (fst wrong) = 401 /\
  field "message" (body (fst locked)) <> field "message" (body (fst wrong)).
Proof.
  destruct (loginUser_locked_message_differs (H := Scenario.toy) Scenario.dev
              (Scenario.post EmptyString
                 [("email", "alice@example.com"); ("password", "letmein")])
              (Scenario.post EmptyString
                 [("email", "alice@example.com"); ("password", "letmein")])
              (Scenario.world_of (Scenario.locked_until 5 2000000))
              (Scenario.world_of (Scenario.unlocked 0))
              (Scenario.locked_until 5 2000000) (Scenario.unlocked 0) "letmein")
    as (H1 & H2 & _ & _ & _ & _ & H3 & _); try (vm_compute; reflexivity).
  cbv zeta. auto.
Defined.

(** C3, as stated, fails: with the same wrong password, the message sent for
    the locked account is not the one sent for the unlocked account. *)
Lemma loginUser_reveals_locked_account :
  let req :=
    Scenario.post EmptyString
      [("email", "alice@example.com"); ("password", "letmein")] in
  let locked :=
    fst (loginUser (H := Scenario.toy) Scenario.dev req
           (Scenario.world_of (Scenario.locked_until 5 2000000))) in
  let wrong :=
    fst (loginUser (H := Scenario.toy) Scenario.dev req
           (Scenario.world_of (Scenario.unlocked 0))) in
  field "message" (body locked) =
    Some (JStr "Account is locked due to too many failed attempts. Try again later.") /\
  field "message" (body wrong) = Some (JStr "Invalid credentials") /\
  field "message" (body locked) <> field "message" (body wrong) /\
  locked <> wrong.
Proof.
  vm_compute. repeat split; discriminate.
Qed.

(** ** Enrollment and disablement (controllers/twoFactorAuth.js) *)

Section Enrollment.
Context `{Primitives}.
Implicit Types (env : Env) (req : Request) (w : World) (user : User).

(** C6: when the session holds no pending secret, or the submitted code
    does not validate against it (window 1), [verify2FAToken] answers 400
    with [success: false] and returns no backup codes; the users collection
    and the session are what they were, so nothing is enabled or stored. *)
Theorem verify2FAToken_invalid_code env req w :
  truthy (pending_secret w) = false \/
  totp_verify (pending_secret w) (default EmptyString (req_body req !! "token")) 1
    (Date_now env) = false ->
  status (fst (verify2FAToken env req w)) = 400 /\
  field "success" (body (fst (verify2FAToken env req w))) = Some (JBool false) /\
  field "backupCodes" (body (fst (verify2FAToken env req w))) = None /\
  users (snd (verify2FAToken env req w)) = users w /\
  session (snd (verify2FAToken env req w)) = session w /\
  random_calls (snd (verify2FAToken env req w)) = random_calls w.
Proof.
  unfold pending_secret, verify2FAToken. intros Hbad.
  run_handler.
  destruct (truthy (req_body req !! "token")); cbn [negb]; [|repeat split].
  destruct (truthy (option_bind _ _ _ (session w))) eqn:Hpending;
    cbn [negb]; [|repeat split].
  destruct Hbad as [Hnone|Hcode]; [discriminate|].
  rewrite Hcode. cbn [negb]. repeat split.
Qed.


(** The loop of [verify2FAToken]: [n] iterations append the hashes of the
    next [n] random codes and advance the random source by [n]. *)
Lemma backupCodes_loop_spec (n i : nat) (acc : list BackupCode) w :
  backupCodes_loop n i acc w =
    (Continue
       (acc ++ ((fun j => mkBackupCode
                            (bcrypt_hash (Math_random_code (j + random_calls w)) 10
                               (i + j)) false) <$> seq 0 n))%list,
     mkWorld (users w) (session w) (logs w) (n + random_calls w) (unhandled w)).
Proof.
  revert i acc w. induction n as [|n IH]; intros i acc w.
  - cbn. rewrite app_nil_r. destruct w; reflexivity.
  - cbn [backupCodes_loop]. unfold mbind, handler_bind, Math_random.
    rewrite IH. cbn [users session logs random_calls].
    f_equal; [f_equal|f_equal; lia].
    rewrite <- app_assoc. f_equal. cbn [seq fmap list_fmap app Nat.add].
    rewrite Nat.add_0_r. f_equal.
    rewrite <- fmap_S_seq, <- list_fmap_compose.
    apply list_fmap_ext. intros _ j _. cbn [compose].
    f_equal. f_equal; [f_equal|]; lia.
Qed.

(** The codes sent back: one more random code for each stored entry. *)
Lemma array_map_random_spec (l : list BackupCode) w :
  array_map (fun _ => Math_random) l w =
    (Continue ((fun j => Math_random_code (j + random_calls w)) <$> seq 0 (length l)),
     mkWorld (users w) (session w) (logs w) (length l + random_calls w) (unhandled w)).
Proof.
  revert w. induction l as [|c l IH]; intros w.
  - destruct w; reflexivity.
  - cbn [array_map]. unfold mbind, handler_bind, mret, handler_ret.
    unfold Math_random at 1. rewrite IH.
    cbn [users session logs random_calls length seq fmap list_fmap Nat.add].
    f_equal; [f_equal|f_equal; lia]. f_equal.
    rewrite <- fmap_S_seq, <- list_fmap_compose.
    apply list_fmap_ext. intros _ j _. cbn [compose]. f_equal. lia.
Qed.

(** A successful enrollment: the stored entries hash the first ten random
    codes of the request, the codes sent back are the next ten. *)
Lemma verify2FAToken_enrolls env req w (t secret : string) :
  req_body req !! "token" = Some t -> truthy t = true ->
  pending_secret w = Some secret -> truthy secret = true ->
  totp_verify (Some secret) t 1 (Date_now env) = true ->
  is_Some (users w !! req_user_id req) ->
  let n := random_calls w in
  let stored :=
    (fun j => mkBackupCode (bcrypt_hash (Math_random_code (j + n)) 10 j) false)
      <$> seq 0 10 in
  let plain := (fun j => Math_random_code (j + (10 + n))) <$> seq 0 10 in
  fst (verify2FAToken env req w) =
    json 200 [("success", JBool true);
              ("message", JStr "2FA has been enabled");
              ("backupCodes", JArr (JStr <$> plain))] /\
  users (snd (verify2FAToken env req w)) =
    alter (apply_update
             (mkUpdate None None None None None (Some (Some secret)) (Some true)
                (Some stored)))
      (req_user_id req) (users w) /\
  pending_secret (snd (verify2FAToken env req w)) = None.
Proof.
  intros Htok Htokt Hpending Hsecret Hok [user Huser] n stored plain.
  subst n stored plain.
  unfold verify2FAToken, pending_secret in *. rewrite Htok.
  cbv beta iota delta [truthy truthy_option] in Htokt, Hsecret |- *.
  rewrite Htokt. cbn [negb default from_option id]. run_handler.
  rewrite Hpending.
  cbv beta iota delta [truthy truthy_option] in |- *.
  rewrite Hsecret. cbn [negb]. rewrite Hok. cbn [negb].
  rewrite backupCodes_loop_spec. cbn [app]. run_handler.
  rewrite array_map_random_spec, length_fmap, length_seq.
  cbn [users session logs random_calls].
  rewrite Huser. cbn [fmap option_fmap option_map]. run_handler.
  cbn [users session logs random_calls].
  split; [reflexivity|]. split; [reflexivity|].
  destruct (session w) as [sess|]; [|discriminate].
  cbn. apply lookup_delete_eq.
Qed.

(** Whatever [process.env] holds, the answer of [generate2FASecret] carries
    the raw base32 secret, the one it keeps in the session. *)
Lemma generate2FASecret_sends_secret env req w user :
  users w !! req_user_id req = Some user ->
  let secret := speakeasy_generateSecret ("Time Capsule:" ++ email user) in
  status (fst (generate2FASecret env req w)) = 200 /\
  field "data" (body (fst (generate2FASecret env req w))) ≫= field "secret" =
    Some (JStr (base32 secret)) /\
  pending_secret (snd (generate2FASecret env req w)) = Some (base32 secret) /\
  users (snd (generate2FASecret env req w)) = users w.
Proof.
  intros Huser secret. subst secret.
  unfold generate2FASecret, pending_secret. run_handler. rewrite Huser.
  cbn. repeat split. apply lookup_insert_eq.
Qed.

End Enrollment.

Lemma verify2FAToken_invalid_code_witness :
  let w := mkWorld {[ "u1" := Scenario.unlocked 0 ]}
             (Some {[ "twoFactorSecret" := "PENDING" ]}) [] 0 [] in
  let req := Scenario.post "u1" [("token", "000000")] in
  status (fst (verify2FAToken (H := Scenario.toy) Scenario.dev req w)) = 400 /\
  users (snd (verify2FAToken (H := Scenario.toy) Scenario.dev req w)) = users w.
Proof.
  intros w req.
  destruct (verify2FAToken_invalid_code (H := Scenario.toy) Scenario.dev req w)
    as (Hs & _ & _ & Hu & _).
  - right. vm_compute. reflexivity.
  - split; assumption.
Defined.


(** C2 fails on the code: after a successful enrollment there are ten codes
    in the answer and ten unused entries in the stored document, but no
    code of the answer verifies against any stored entry.  The stored
    hashes are those of ten other random codes. *)
Theorem verify2FAToken_returned_codes_not_stored :
  let w :=
    mkWorld {[ "u1" := without_2FA Scenario.alice ]}
      (Some {[ "twoFactorSecret" := "PENDING" ]}) [] 0 [] in
  let req := Scenario.post "u1" [("token", "PENDING")] in
  let r := verify2FAToken (H := Scenario.toy) Scenario.dev req w in
  exists (returned : list string) (stored : list BackupCode),
    status (fst r) = 200 /\
    field "backupCodes" (body (fst r)) = Some (JArr (JStr <$> returned)) /\
    (twoFactorBackupCodes <$> users (snd r) !! "u1") = Some stored /\
    length returned = 10%nat /\ length stored = 10%nat /\
    forallb (fun c => negb (used c)) stored = true /\
    stored =
      (fun i => mkBackupCode
                  (bcrypt_hash (Primitives := Scenario.toy)
                     (Math_random_code (Primitives := Scenario.toy) i) 10 i) false)
        <$> seq 0 10 /\
    returned = Math_random_code (Primitives := Scenario.toy) <$> seq 10 10 /\
    forallb (fun p =>
      forallb (fun c => negb (bcrypt_compare (Primitives := Scenario.toy) p (code c)))
        stored) returned = true.
Proof.
  intros w req r.
  exists (Math_random_code (Primitives := Scenario.toy) <$> seq 10 10).
  eexists. vm_compute. repeat split.
Qed.

(** C8 fails on the code: in a production configuration the answer of
    [generate2FASecret] still carries the raw base32 secret. *)
Theorem generate2FASecret_production_sends_secret :
  let r :=
    fst (generate2FASecret (H := Scenario.toy) Scenario.production
           (Scenario.post "u1" []) (Scenario.world_of Scenario.alice)) in
  process_env Scenario.production !! "NODE_ENV" = Some "production" /\
  status r = 200 /\
  field "data" (body r) ≫= field "secret" = Some (JStr "JBSWY3DPEHPK3PXP") /\
  base32 (speakeasy_generateSecret (Primitives := Scenario.toy)
            "Time Capsule:alice@example.com") = "JBSWY3DPEHPK3PXP".
Proof.
  vm_compute. repeat split.
Qed.

(** ** Second factor at login (controllers/twoFactorAuth.js) *)

Section SecondFactorLogin.
Context `{Primitives}.
Implicit Types (env : Env) (req : Request) (w : World) (user : User).

(** [findIndex] with an [async] callback stops at the first element. *)
Lemma findIndex_async {A B} (f : A -> Promise B) (l : list A) :
  findIndex f l = match l with [] => -1 | _ :: _ => 0 end.
Proof. destruct l; reflexivity. Qed.

(** ... after one call of the callback, whose promise it drops. *)
Lemma findIndex_results_async {A B} (f : A -> Promise B) (l : list A) :
  findIndex_results f l = match l with [] => [] | x :: _ => [f x] end.
Proof. destruct l; reflexivity. Qed.

(** The query of [verify2FALogin] names [twoFactorBackupCodes] and not
    [twoFactorBackupCodes.code]: the stored hash is not loaded, and the
    comparison is rejected whatever the entry and the string. *)
Lemma backupCode_matches_rejects (bc : string) (c : BackupCode) :
  backupCode_matches "+twoFactorSecret +twoFactorBackupCodes" bc c
  = Rejects (Error "data and hash arguments required").
Proof. reflexivity. Qed.

Lemma getSignedJwtToken_mark_used env user (i : Z) :
  getSignedJwtToken env (mark_used i user) = getSignedJwtToken env user.
Proof. reflexivity. Qed.

Lemma getSignedJwtToken_with_lockout env user (attempts : Z) (locked : bool)
    (until : option Date) :
  getSignedJwtToken env (with_lockout attempts locked until user)
  = getSignedJwtToken env user.
Proof. reflexivity. Qed.

(** The answer and the effects of a login with a valid one-time code, when
    the token gets signed. *)
Lemma verify2FALogin_token env req w user (uid t jwtToken : string) :
  req_body req !! "userId" = Some uid -> truthy uid = true ->
  req_body req !! "token" = Some t -> truthy t = true ->
  users w !! uid = Some user ->
  twoFactorEnabled user = true ->
  totp_verify (twoFactorSecret user) t 1 (Date_now env) = true ->
  getSignedJwtToken env user = inr jwtToken ->
  verify2FALogin env req w =
    (json 200 [("success", JBool true);
               ("token", JStr jwtToken);
               ("user", user_json user)],
     mkWorld (updateOne user (resetLoginAttempts (Date_now env)) (users w))
       (session w)
       (logs w ++ [(LInfo, "Successful 2FA login for user: " ++ _id user)])
       (random_calls w) (unhandled w)).
Proof.
  intros Hid Hidt Htok Htokt Huser Hen Hok Hsign.
  unfold verify2FALogin. rewrite Hid, Htok.
  cbv beta iota delta [truthy truthy_option] in *.
  rewrite Hidt, Htokt. cbn [negb orb andb default from_option id].
  run_handler. rewrite Huser, Hen. cbn [negb]. run_handler.
  rewrite Hok, Hsign. reflexivity.
Qed.

(** The answer and the effects of a login with a backup code, when the
    user has at least one stored and the token gets signed: neither the
    submitted string nor the [used] flags are looked at, and the rejected
    comparison is left behind. *)
Lemma verify2FALogin_backupCode env req w user (uid bc jwtToken : string) :
  req_body req !! "userId" = Some uid -> truthy uid = true ->
  truthy (req_body req !! "token") = false ->
  req_body req !! "backupCode" = Some bc -> truthy bc = true ->
  users w !! uid = Some user ->
  twoFactorEnabled user = true ->
  twoFactorBackupCodes user <> [] ->
  getSignedJwtToken env user = inr jwtToken ->
  verify2FALogin env req w =
    (json 200 [("success", JBool true);
               ("token", JStr jwtToken);
               ("user", user_json user)],
     mkWorld
       (updateOne (mark_used 0 user) (resetLoginAttempts (Date_now env))
          (<[_id user := mark_used 0 user]> (users w)))
       (session w)
       (logs w ++ [(LInfo, "Successful 2FA login for user: " ++ _id user)])
       (random_calls w)
       (unhandled w ++ [Error "data and hash arguments required"])).
Proof.
  intros Hid Hidt Htok Hbc Hbct Huser Hen Hcodes Hsign.
  unfold verify2FALogin. rewrite Hid, Hbc, Htok.
  cbv beta iota delta [truthy truthy_option] in Hidt, Hbct |- *.
  rewrite Hidt, Hbct. cbn [negb orb andb default from_option id].
  run_handler. rewrite Huser, Hen. cbn [negb]. run_handler.
  rewrite findIndex_async, findIndex_results_async.
  destruct (twoFactorBackupCodes user) as [|c cs] eqn:Hcs; [congruence|].
  cbn [negb Z.eqb]. rewrite getSignedJwtToken_mark_used, Hsign. reflexivity.
Qed.

(** The answer of [verify2FALogin] is the same whatever the lockout fields
    of the stored document are. *)
Lemma verify2FALogin_lockout_blind env req w w' user (uid : string)
    (attempts : Z) (locked : bool) (until : option Date) :
  req_body req !! "userId" = Some uid ->
  users w !! uid = Some user ->
  users w' !! uid = Some (with_lockout attempts locked until user) ->
  fst (verify2FALogin env req w) = fst (verify2FALogin env req w').
Proof.
  intros Hid Huser Huser'.
  unfold verify2FALogin. rewrite Hid.
  destruct (req_body req !! "token") as [t|];
    destruct (req_body req !! "backupCode") as [bc|];
    repeat first
      [ progress run_handler
      | progress cbv beta iota delta [truthy truthy_option truthy_bool]
      | progress cbn [default from_option id negb andb orb Z.eqb with_lockout
                      twoFactorEnabled twoFactorSecret twoFactorBackupCodes]
      | rewrite Huser
      | rewrite Huser'
      | rewrite !findIndex_async
      | rewrite !findIndex_results_async
      | rewrite !getSignedJwtToken_mark_used
      | rewrite !getSignedJwtToken_with_lockout
      | match goal with
        | |- context [truthy_string ?x] => destruct (truthy_string x) eqn:?
        | |- context [twoFactorEnabled user] => destruct (twoFactorEnabled user) eqn:?
        | |- context [totp_verify ?a ?b ?c ?d] => destruct (totp_verify a b c d) eqn:?
        | |- context [match twoFactorBackupCodes user with _ => _ end] =>
            destruct (twoFactorBackupCodes user) eqn:?
        | |- context [getSignedJwtToken ?e ?u] =>
            destruct (getSignedJwtToken e u) eqn:?
        end ];
    reflexivity.
Qed.

(** A backup code is accepted again right after it was accepted, in any
    environment where the token gets signed: the entry marked by the first
    call is found by the second. *)
Lemma verify2FALogin_backupCode_again env env' req w user
    (uid bc jwtToken jwtToken' : string) :
  req_body req !! "userId" = Some uid -> truthy uid = true ->
  truthy (req_body req !! "token") = false ->
  req_body req !! "backupCode" = Some bc -> truthy bc = true ->
  users w !! uid = Some user -> _id user = uid ->
  twoFactorEnabled user = true ->
  twoFactorBackupCodes user <> [] ->
  getSignedJwtToken env user = inr jwtToken ->
  getSignedJwtToken env' user = inr jwtToken' ->
  status (fst (verify2FALogin env req w)) = 200 /\
  status (fst (verify2FALogin env' req (snd (verify2FALogin env req w)))) = 200.
Proof.
  intros Hid Hidt Htok Hbc Hbct Huser Huid Hen Hcodes Hsign Hsign'.
  rewrite (verify2FALogin_backupCode env req w user uid bc jwtToken) by assumption.
  split; [reflexivity|]. cbn [snd].
  rewrite (verify2FALogin_backupCode env' req _
             (apply_update (resetLoginAttempts (Date_now env)) (mark_used 0 user))
             uid bc jwtToken'); try assumption; try reflexivity.
  - cbn [users]. unfold updateOne. cbn [mark_used _id]. rewrite Huid.
    rewrite lookup_alter_eq, lookup_insert_eq. reflexivity.
  - cbn. destruct (twoFactorBackupCodes user); [congruence|discriminate].
Qed.

(** What does hold of the [used] flags: [verify2FALogin] never clears one,
    and never changes a stored hash. *)
Lemma verify2FALogin_used_stays env req w user (uid : string) (i : nat)
    (c : BackupCode) :
  req_body req !! "userId" = Some uid ->
  users w !! uid = Some user -> _id user = uid ->
  twoFactorBackupCodes user !! i = Some c -> used c = true ->
  exists u',
    users (snd (verify2FALogin env req w)) !! uid = Some u' /\
    twoFactorBackupCodes u' !! i = Some c.
Proof.
  intros Hid Huser Huid Hc Hused.
  assert (Hmark : twoFactorBackupCodes (mark_used 0 user) !! i = Some c).
  { cbn. destruct (twoFactorBackupCodes user) as [|c0 cs]; [discriminate|].
    destruct i as [|i]; cbn in *; [|exact Hc].
    injection Hc as ->. destruct c as [h u]. cbn in *. subst u. reflexivity. }
  unfold verify2FALogin. rewrite Hid.
  destruct (req_body req !! "token") as [t|];
    destruct (req_body req !! "backupCode") as [bc|];
    repeat first
      [ progress run_handler
      | progress cbv beta iota delta [truthy truthy_option truthy_bool]
      | progress cbn [default from_option id negb andb orb Z.eqb Pos.eqb]
      | rewrite Huser
      | rewrite !findIndex_async
      | rewrite !findIndex_results_async
      | rewrite !getSignedJwtToken_mark_used
      | rewrite !getSignedJwtToken_with_lockout
      | match goal with
        | |- context [truthy_string ?x] => destruct (truthy_string x) eqn:?
        | |- context [twoFactorEnabled user] => destruct (twoFactorEnabled user) eqn:?
        | |- context [totp_verify ?a ?b ?c ?d] => destruct (totp_verify a b c d) eqn:?
        | |- context [match twoFactorBackupCodes user with _ => _ end] =>
            destruct (twoFactorBackupCodes user) eqn:?
        | |- context [getSignedJwtToken ?e ?u] =>
            destruct (getSignedJwtToken e u) eqn:?
        end ];
    cbn [users log_only];
    first
      [ solve [destruct i; discriminate]
      | exists user; split; [reflexivity || exact Huser | exact Hc]
      | exists (apply_update (resetLoginAttempts (Date_now env)) user);
        split; [rewrite <- Huid in Huser |- *; apply updateOne_lookup, Huser
               | exact Hc]
      | exists (apply_update (resetLoginAttempts (Date_now env)) (mark_used 0 user));
        split; [unfold updateOne; cbn [mark_used _id]; rewrite Huid;
                rewrite lookup_alter_eq, lookup_insert_eq; reflexivity
               | exact Hmark] ].
Qed.

(** C9, amended: for a user with the second factor enabled and at least one
    stored backup code, a login request with no one-time code and any
    non-empty backup code finds the first entry, whatever the string and the
    [used] flag of the entry.  No hash is compared: the query has not loaded
    the stored hashes, so the promise of the [findIndex] callback is
    rejected, and dropped.  Where an unhandled rejection ends the process,
    the process exits on it and the request gets no answer.  Where it does
    not, the request is answered 200 with the token [jwt.sign] makes of the
    user's id, role and second-factor flag under [JWT_SECRET] and
    [JWT_EXPIRE], provided it makes one, and the first stored entry is
    marked used. *)
Theorem verify2FALogin_accepts_any_backupCode env req w user
    (uid bc jwtToken : string) (c : BackupCode) (cs : list BackupCode)
    (mode : UnhandledRejections) :
  req_body req !! "userId" = Some uid -> truthy uid = true ->
  truthy (req_body req !! "token") = false ->
  req_body req !! "backupCode" = Some bc -> truthy bc = true ->
  users w !! uid = Some user -> _id user = uid ->
  twoFactorEnabled user = true ->
  twoFactorBackupCodes user = c :: cs ->
  unhandled w = [] ->
  jwt_sign
    {| jwt_id := uid; jwt_role := role user; jwt_twoFactorEnabled := true |}
    (process_env env !! "JWT_SECRET") (process_env env !! "JWT_EXPIRE")
  = inr jwtToken ->
  findIndex (backupCode_matches "+twoFactorSecret +twoFactorBackupCodes" bc)
    (twoFactorBackupCodes user) = 0 /\
  backupCode_matches "+twoFactorSecret +twoFactorBackupCodes" bc c
    = Rejects (Error "data and hash arguments required") /\
  match mode with
  | raise_uncaught =>
      serve mode (verify2FALogin env req) w
        = Exited (Error "data and hash arguments required")
  | warn_only =>
      exists r w',
        serve mode (verify2FALogin env req) w = Answered r w' /\
        status r = 200 /\
        field "success" (body r) = Some (JBool true) /\
        field "token" (body r) = Some (JStr jwtToken) /\
        exists u',
          users w' !! uid = Some u' /\
          twoFactorBackupCodes u' = mkBackupCode (code c) true :: cs
  end.
Proof.
  intros Hid Hidt Htok Hbc Hbct Huser Huid Hen Hcodes Hnone Hsign.
  split; [rewrite Hcodes; reflexivity|]. split; [reflexivity|].
  assert (Hsigned : getSignedJwtToken env user = inr jwtToken).
  { unfold getSignedJwtToken. rewrite Huid, Hen. exact Hsign. }
  unfold serve.
  rewrite (verify2FALogin_backupCode env req w user uid bc jwtToken) by
    (try assumption; rewrite Hcodes; discriminate).
  cbn [unhandled]. rewrite Hnone. cbn [app].
  destruct mode; [reflexivity|].
  do 2 eexists. split; [reflexivity|].
  cbn [fst snd status body users]. split; [reflexivity|]. split; [reflexivity|].
  split; [reflexivity|].
  exists (apply_update (resetLoginAttempts (Date_now env)) (mark_used 0 user)).
  split.
  - unfold updateOne. cbn [mark_used _id]. rewrite Huid.
    rewrite lookup_alter_eq, lookup_insert_eq. reflexivity.
  - cbn. rewrite Hcodes. reflexivity.
Qed.

(** C10, amended: [verify2FALogin] does not look at the lockout fields.
    For a user whose [lockUntil] is in the future, a valid one-time code is
    answered 200 with the token [jwt.sign] makes of the user's id, role and
    second-factor flag under [JWT_SECRET] and [JWT_EXPIRE], provided it
    makes one, and the stored document ends with [loginAttempts] 0, no
    [lockUntil] and [accountLocked] false, whatever the process does with
    unhandled rejections; the answer is the one an account with any other
    lockout fields gets.  A backup code as in C9 does the same where an
    unhandled rejection does not end the process; where it does, the
    process exits and the request gets no answer. *)
Theorem verify2FALogin_unlocks_locked_account env req w user
    (uid jwtToken : string) (d : Date) (mode : UnhandledRejections) :
  req_body req !! "userId" = Some uid -> truthy uid = true ->
  users w !! uid = Some user -> _id user = uid ->
  twoFactorEnabled user = true ->
  lockUntil user = Some d -> Date_now env < getTime d ->
  unhandled w = [] ->
  jwt_sign
    {| jwt_id := uid; jwt_role := role user; jwt_twoFactorEnabled := true |}
    (process_env env !! "JWT_SECRET") (process_env env !! "JWT_EXPIRE")
  = inr jwtToken ->
  let served := serve mode (verify2FALogin env req) w in
  let unlocked :=
    exists r w',
      served = Answered r w' /\
      status r = 200 /\
      field "success" (body r) = Some (JBool true) /\
      field "token" (body r) = Some (JStr jwtToken) /\
      (exists u',
        users w' !! uid = Some u' /\
        loginAttempts u' = 0 /\ lockUntil u' = None /\ accountLocked u' = false /\
        lastLogin u' = Some (mkDate (Date_now env)) /\
        isLocked u' (Date_now env) = false) /\
      (forall w0 attempts locked until,
         users w0 !! uid = Some (with_lockout attempts locked until user) ->
         fst (verify2FALogin env req w0) = r) in
  isLocked user (Date_now env) = true /\
  ((exists t, req_body req !! "token" = Some t /\ truthy t = true /\
              totp_verify (twoFactorSecret user) t 1 (Date_now env) = true) ->
   unlocked) /\
  (truthy (req_body req !! "token") = false ->
   (exists bc, req_body req !! "backupCode" = Some bc /\ truthy bc = true) ->
   twoFactorBackupCodes user <> [] ->
   match mode with
   | warn_only => unlocked
   | raise_uncaught => served = Exited (Error "data and hash arguments required")
   end).
Proof.
  intros Hid Hidt Huser Huid Hen Hlock Hfuture Hnone Hsign served unlocked.
  split.
  { unfold isLocked. rewrite Hlock. cbn. apply Z.ltb_lt, Hfuture. }
  assert (Hsigned : getSignedJwtToken env user = inr jwtToken).
  { unfold getSignedJwtToken. rewrite Huid, Hen. exact Hsign. }
  assert (Hunlocked : forall u' rejected,
    verify2FALogin env req w =
      (json 200 [("success", JBool true);
                 ("token", JStr jwtToken);
                 ("user", user_json user)],
       mkWorld (<[uid := apply_update (resetLoginAttempts (Date_now env)) u']>
                  (users w))
         (session w)
         (logs w ++ [(LInfo, "Successful 2FA login for user: " ++ _id user)])
         (random_calls w) rejected) ->
    (rejected = [] \/ mode = warn_only) ->
    unlocked).
  { intros u' rejected Heq Hrej. subst unlocked served.
    do 2 eexists. split.
    { unfold serve. rewrite Heq. cbn [unhandled].
      destruct Hrej as [-> | ->]; [destruct mode|]; reflexivity. }
    cbn [status body]. split; [reflexivity|]. split; [reflexivity|].
    split; [reflexivity|].
    split.
    - exists (apply_update (resetLoginAttempts (Date_now env)) u').
      cbn [users]. rewrite lookup_insert_eq. repeat split.
    - intros w0 attempts locked until Hw0.
      rewrite <- (verify2FALogin_lockout_blind env req w w0 user uid attempts locked
                    until Hid Huser Hw0).
      rewrite Heq. reflexivity. }
  split.
  - intros (t & Htok & Htokt & Hok).
    apply (Hunlocked user []); [|left; reflexivity].
    rewrite (verify2FALogin_token env req w user uid t jwtToken) by assumption.
    rewrite Hnone. do 2 f_equal. unfold updateOne. rewrite Huid.
    apply map_eq. intros k. destruct (decide (k = uid)) as [->|Hne].
    + rewrite lookup_alter_eq, lookup_insert_eq, Huser. reflexivity.
    + rewrite lookup_alter_ne, lookup_insert_ne by congruence. reflexivity.
  - intros Htok (bc & Hbc & Hbct) Hcodes.
    pose proof (verify2FALogin_backupCode env req w user uid bc jwtToken Hid Hidt
                  Htok Hbc Hbct Huser Hen Hcodes Hsigned) as Heq.
    rewrite Hnone in Heq. cbn [app] in Heq.
    destruct mode.
    + subst served. unfold serve. rewrite Heq. reflexivity.
    + apply (Hunlocked (mark_used 0 user) [Error "data and hash arguments required"]);
        [|right; reflexivity].
      rewrite Heq. do 2 f_equal. unfold updateOne. cbn [mark_used _id].
      rewrite Huid, alter_insert_eq. reflexivity.
Qed.

End SecondFactorLogin.

Lemma verify2FALogin_accepts_any_backupCode_witness :
  let user := Scenario.spent in
  let req := Scenario.post EmptyString [("userId", "u1"); ("backupCode", "nope")] in
  let w := Scenario.world_of user in
  existsb (fun c => bcrypt_compare (Primitives := Scenario.toy) "nope" (code c))
    (twoFactorBackupCodes user) = false /\
  (used <$> head (twoFactorBackupCodes user)) = Some true /\
  exists r w',
    serve warn_only (verify2FALogin (H := Scenario.toy) Scenario.dev req) w
      = Answered r w' /\
    status r = 200.
Proof.
  intros user req w. split; [reflexivity|]. split; [reflexivity|].
  destruct (verify2FALogin_accepts_any_backupCode (H := Scenario.toy) Scenario.dev
              req w user "u1" "nope" "jwt.u1" (mkBackupCode "$AB12CD34" true)
              [mkBackupCode "$ZZ99YY88" false] warn_only)
    as (_ & _ & r & w' & Hr & Hs & _);
    [reflexivity .. | ].
  exists r, w'. split; [exact Hr | exact Hs].
Defined.

(** C9, as stated, fails where an unhandled rejection ends the process, the
    default from Node 15 on: a backup-code login, even with the very code
    whose hash is stored first and unused, is not reported verified; the
    process exits on the rejected comparison. *)
Lemma verify2FALogin_backupCode_ends_process :
  let req :=
    Scenario.post EmptyString [("userId", "u1"); ("backupCode", "AB12CD34")] in
  let w := Scenario.world_of Scenario.alice in
  twoFactorEnabled Scenario.alice = true /\
  head (twoFactorBackupCodes Scenario.alice) = Some (mkBackupCode "$AB12CD34" false) /\
  bcrypt_compare (Primitives := Scenario.toy) "AB12CD34" "$AB12CD34" = true /\
  serve raise_uncaught (verify2FALogin (H := Scenario.toy) Scenario.dev req) w
    = Exited (Error "data and hash arguments required") /\
  forall r w',
    serve raise_uncaught (verify2FALogin (H := Scenario.toy) Scenario.dev req) w
      <> Answered r w'.
Proof.
  vm_compute. repeat split. intros r w'. discriminate.
Qed.

Lemma verify2FALogin_unlocks_locked_account_witness :
  let user := Scenario.locked_until 5 2000000 in
  let req := Scenario.post EmptyString [("userId", "u1"); ("token", "SECRET")] in
  let w := Scenario.world_of user in
  isLocked user (Date_now Scenario.dev) = true /\
  exists r w',
    serve raise_uncaught (verify2FALogin (H := Scenario.toy) Scenario.dev req) w
      = Answered r w' /\
    status r = 200 /\
    field "token" (body r) = Some (JStr "jwt.u1") /\
    exists u',
      users w' !! "u1" = Some u' /\
      loginAttempts u' = 0 /\ lockUntil u' = None /\ accountLocked u' = false.
Proof.
  intros user req w.
  destruct (verify2FALogin_unlocks_locked_account (H := Scenario.toy) Scenario.dev
              req w user "u1" "jwt.u1" (mkDate 2000000) raise_uncaught)
    as (Hl & Htotp & _); [reflexivity .. | ].
  destruct Htotp as (r & w' & Hr & Hs & _ & Ht & (u' & Hu & Ha & Hn & Hf & _) & _).
  { exists "SECRET". repeat split. }
  split; [exact Hl|]. exists r, w'.
  split; [exact Hr|]. split; [exact Hs|]. split; [exact Ht|].
  exists u'. auto.
Defined.

(** C10, as stated, fails for the backup code where an unhandled rejection
    ends the process: on a locked account with the second factor enabled,
    the backup-code login gets no answer and no token, the process exits. *)
Lemma verify2FALogin_backupCode_locked_account_exits :
  let user := Scenario.locked_until 5 2000000 in
  let req :=
    Scenario.post EmptyString [("userId", "u1"); ("backupCode", "AB12CD34")] in
  let w := Scenario.world_of user in
  isLocked user (Date_now Scenario.dev) = true /\
  twoFactorBackupCodes user <> [] /\
  serve raise_uncaught (verify2FALogin (H := Scenario.toy) Scenario.dev req) w
    = Exited (Error "data and hash arguments required") /\
  forall r w',
    serve raise_uncaught (verify2FALogin (H := Scenario.toy) Scenario.dev req) w
      <> Answered r w'.
Proof.
  vm_compute. repeat split; [discriminate|]. intros r w'. discriminate.
Qed.

(** C1 fails on the code: the same backup code is accepted twice in
    sequence.  The first call marks the stored entry used; the second call,
    with the same string, is answered 200 again. *)
Theorem verify2FALogin_backupCode_accepted_twice :
  let req :=
    Scenario.post EmptyString [("userId", "u1"); ("backupCode", "AB12CD34")] in
  let first := verify2FALogin (H := Scenario.toy) Scenario.dev req
                 (Scenario.world_of Scenario.alice) in
  let second := verify2FALogin (H := Scenario.toy) Scenario.dev req (snd first) in
  status (fst first) = 200 /\
  (twoFactorBackupCodes <$> users (snd first) !! "u1") =
    Some [mkBackupCode "$AB12CD34" true; mkBackupCode "$ZZ99YY88" false] /\
  status (fst second) = 200 /\
  field "success" (body (fst second)) = Some (JBool true) /\
  field "token" (body (fst second)) = Some (JStr "jwt.u1") /\
  (twoFactorBackupCodes <$> users (snd second) !! "u1") =
    Some [mkBackupCode "$AB12CD34" true; mkBackupCode "$ZZ99YY88" false].
Proof.
  vm_compute. repeat split.
Qed.

(** ** Further properties of the lockout (models/User.js) *)

Ltac lockout_cases :=
  unfold lockout_consistent, resetLoginAttempts; cbn; repeat split; intros;
  repeat match goal with
    | H : is_Some None |- _ => destruct H as [? [=]]
    | H : _ <-> _ |- _ => destruct H
    end;
  try lia; try discriminate; eauto.

Section LockoutMore.
Implicit Types (this u : User) (now : Z) (us : gmap string User).

(** The two updates of the lockout fields, on a consistent document. *)
Lemma lockout_updates_consistent u now :
  lockout_consistent u ->
  lockout_consistent (record_failure now u) /\
  lockout_consistent (apply_update (resetLoginAttempts now) u).
Proof.
  intros (Hpos & Hflag & Hdate). split; [|lockout_cases].
  unfold record_failure.
  destruct (lock_expired u now) eqn:Hexp.
  - rewrite (incrementLoginAttempts_expired _ _ Hexp). lockout_cases.
  - rewrite (incrementLoginAttempts_not_expired _ _ Hexp).
    destruct (5 <=? loginAttempts u + 1) eqn:Hfive;
      [apply Z.leb_le in Hfive; lockout_cases|apply Z.leb_gt in Hfive].
    assert (Hnone : lockUntil u = None).
    { destruct (lockUntil u) eqn:Hl; [|reflexivity].
      assert (5 <= loginAttempts u) by (apply Hdate; eauto). lia. }
    unfold lockout_consistent. cbn. rewrite Hnone in *.
    split; [lia|]. split; [exact Hflag|].
    split; [intros [? [=]]|lia].
Qed.

(** X1: [incrementLoginAttempts] and [resetLoginAttempts] keep the lockout
    fields consistent: whatever the time of the call, the stored document
    that results has a counter that is not negative, its flag set exactly
    when a lock date is stored, and a lock date stored exactly when the
    counter has reached 5. *)
Theorem lockout_consistent_preserved u now :
  lockout_consistent u ->
  lockout_consistent (record_failure now u) /\
  lockout_consistent (apply_update (resetLoginAttempts now) u).
Proof. apply lockout_updates_consistent. Qed.

Lemma lockout_consistent_preserved_witness :
  lockout_consistent (record_failure 1000 (Scenario.unlocked 4)) /\
  lockout_consistent (apply_update (resetLoginAttempts 1000) (Scenario.unlocked 4)).
Proof.
  apply lockout_consistent_preserved.
  unfold lockout_consistent. cbn. repeat split; intros; try lia; try discriminate.
  - destruct H as [? [=]].
  - destruct H as [? [=]].
Defined.

(** X2: failed attempts add up.  From a document with no lock date,
    [n] failed attempts that take the counter to at most 5 leave it at its
    old value plus [n]; the account is locked exactly when that is 5, until
    one hour after the last attempt, and is then locked at every earlier
    time.  The times of the attempts do not matter otherwise. *)
Theorem record_failures_add_up (times : list Z) u :
  lockUntil u = None ->
  loginAttempts u + Z.of_nat (length times) <= 5 ->
  let u' := fold_left (fun u t => record_failure t u) times u in
  loginAttempts u' = loginAttempts u + Z.of_nat (length times) /\
  (loginAttempts u' < 5 ->
     lockUntil u' = None /\ accountLocked u' = accountLocked u) /\
  (loginAttempts u' = 5 -> times <> [] ->
     accountLocked u' = true /\
     lockUntil u' = Some (mkDate (List.last times 0 + 3600000)) /\
     forall now, now < List.last times 0 + 3600000 -> isLocked u' now = true).
Proof.
  revert u. induction times as [|t times IH]; intros u Hnone Hle; cbn zeta.
  - cbn. split; [lia|]. split; [auto|]. intros _ Hne. congruence.
  - cbn [fold_left length] in *.
    assert (Hexp : lock_expired u t = false).
    { unfold lock_expired. rewrite Hnone. reflexivity. }
    assert (Hstep : record_failure t u =
              apply_update
                (if 5 <=? loginAttempts u + 1
                 then mkUpdate (Some 1) None (Some (Some (mkDate (t + 3600000))))
                        (Some true) None None None None
                 else mkUpdate (Some 1) None None None None None None None) u).
    { unfold record_failure. rewrite (incrementLoginAttempts_not_expired _ _ Hexp).
      reflexivity. }
    destruct times as [|t' times].
    + cbn [fold_left length List.last]. rewrite Hstep.
      destruct (5 <=? loginAttempts u + 1) eqn:Hfive;
        [apply Z.leb_le in Hfive|apply Z.leb_gt in Hfive]; cbn.
      * split; [lia|]. split; [lia|]. intros _ _.
        split; [reflexivity|]. split; [reflexivity|].
        intros now Hnow. unfold isLocked. cbn. apply Z.ltb_lt, Hnow.
      * split; [lia|]. split; [auto|]. lia.
    + assert (Hlt : loginAttempts u + 1 < 5) by (cbn [length] in Hle; lia).
      assert (Hfive : (5 <=? loginAttempts u + 1) = false) by (apply Z.leb_gt, Hlt).
      rewrite Hfive in Hstep.
      specialize (IH (record_failure t u)).
      rewrite Hstep in IH |- *. cbn [apply_update lockUntil loginAttempts
        accountLocked set_lockUntil set_loginAttempts inc_loginAttempts
        set_accountLocked default from_option id] in IH.
      destruct IH as (Hcount & Hlow & Hhigh); [exact Hnone|cbn [length] in *; lia|].
      change (List.last (t :: t' :: times) 0) with (List.last (t' :: times) 0).
      split; [cbn [length] in *; lia|]. split; [exact Hlow|].
      intros H5 _. apply Hhigh; [exact H5|discriminate].
Qed.

Lemma record_failures_add_up_witness :
  let u' := fold_left (fun u t => record_failure t u) [10; 20; 30; 40; 50]
              (Scenario.unlocked 0) in
  loginAttempts u' = 5 /\ accountLocked u' = true /\
  lockUntil u' = Some (mkDate 3600050) /\ isLocked u' 3600049 = true.
Proof.
  destruct (record_failures_add_up [10; 20; 30; 40; 50] (Scenario.unlocked 0))
    as (Hc & _ & Hh); [reflexivity | cbn; lia |].
  destruct Hh as (Ha & Hl & Hk); [exact Hc | discriminate |].
  cbv zeta. split; [exact Hc|]. split; [exact Ha|]. split; [exact Hl|].
  apply Hk. cbn. lia.
Defined.

(** X3: at the very millisecond a lock ends the account is no longer
    locked, but the lock does not count as expired either: a failed
    attempt then adds to the old counter instead of starting again at 1,
    and a counter that was 4 or more locks the account for another hour. *)
Theorem record_failure_at_lock_end u now (d : Date) :
  lockUntil u = Some d -> getTime d = now ->
  isLocked u now = false /\
  loginAttempts (record_failure now u) = loginAttempts u + 1 /\
  (4 <= loginAttempts u ->
     accountLocked (record_failure now u) = true /\
     lockUntil (record_failure now u) = Some (mkDate (now + 3600000)) /\
     isLocked (record_failure now u) (now + 1) = true).
Proof.
  intros Hlock Hnow.
  assert (Hexp : lock_expired u now = false).
  { unfold lock_expired. rewrite Hlock. apply Z.ltb_ge. lia. }
  split.
  { unfold isLocked. rewrite Hlock. cbn. apply Z.ltb_ge. lia. }
  unfold record_failure. rewrite (incrementLoginAttempts_not_expired _ _ Hexp).
  destruct (5 <=? loginAttempts u + 1) eqn:Hfive;
    [apply Z.leb_le in Hfive|apply Z.leb_gt in Hfive]; cbn.
  - split; [lia|]. intros _. split; [reflexivity|]. split; [reflexivity|].
    unfold isLocked. cbn. apply Z.ltb_lt. lia.
  - split; [lia|]. lia.
Qed.

Lemma record_failure_at_lock_end_witness :
  isLocked (Scenario.locked_until 5 1000) 1000 = false /\
  loginAttempts (record_failure 1000 (Scenario.locked_until 5 1000)) = 6 /\
  lockUntil (record_failure 1000 (Scenario.locked_until 5 1000))
    = Some (mkDate 3601000).
Proof.
  destruct (record_failure_at_lock_end (Scenario.locked_until 5 1000) 1000
              (mkDate 1000)) as (Hl & Hc & Hk); [reflexivity | reflexivity |].
  destruct Hk as (_ & Hd & _); [cbn; lia|].
  split; [exact Hl|]. split; [exact Hc|exact Hd].
Defined.

End LockoutMore.

(** ** Further properties of the login (controllers/users.js) *)

Section LoginMore.
Context `{Primitives}.
Implicit Types (env : Env) (req : Request) (w : World) (user : User).

Lemma loginUser_unknown_email env req w :
  find_by_email (req_body req !! "email") (users w) = None ->
  loginUser env req w =
    (json 401 [("success", JBool false); ("message", JStr "Invalid credentials")],
     log_only LWarn
       ("Login attempt with invalid email: " ++ interpolate (req_body req !! "email"))
       w).
Proof.
  intros Hfind. unfold loginUser. run_handler. rewrite Hfind. reflexivity.
Qed.

Lemma loginUser_password_ok env req w user (p : string) :
  find_by_email (req_body req !! "email") (users w) = Some user ->
  isLocked user (Date_now env) = false ->
  req_body req !! "password" = Some p ->
  bcrypt_compare p (password user) = true ->
  loginUser env req w =
    if twoFactorEnabled user then
      (json 200 [("success", JBool true);
                 ("twoFactorRequired", JBool true);
                 ("userId", JStr (_id user));
                 ("message", JStr "Please complete two-factor authentication")],
       mkWorld (updateOne user (resetLoginAttempts (Date_now env)) (users w))
         (session w)
         (logs w ++ [(LInfo, "2FA required for user login: " ++ _id user)])
         (random_calls w) (unhandled w))
    else
      match getSignedJwtToken env user with
      | inr token =>
          (json 200 [("success", JBool true);
                     ("token", JStr token);
                     ("user", JObj [("id", JStr (_id user));
                                    ("name", JStr (name user));
                                    ("email", JStr (email user));
                                    ("twoFactorEnabled",
                                     JBool (twoFactorEnabled user))])],
           mkWorld (updateOne user (resetLoginAttempts (Date_now env)) (users w))
             (session w)
             (logs w ++ [(LInfo, "User logged in: " ++ _id user)])
             (random_calls w) (unhandled w))
      | inl error =>
          (json 500 [("success", JBool false); ("message", JStr "Server error")],
           mkWorld (updateOne user (resetLoginAttempts (Date_now env)) (users w))
             (session w)
             (logs w ++ [(LError, "Error in user login: " ++ message error)])
             (random_calls w) (unhandled w))
      end.
Proof.
  intros Hfind Hlocked Hp Hcmp.
  unfold loginUser. run_handler.
  rewrite Hfind. run_handler. rewrite Hlocked, Hp. run_handler.
  rewrite Hcmp. cbn [negb].
  destruct (twoFactorEnabled user); [reflexivity|].
  destruct (getSignedJwtToken env user); reflexivity.
Qed.

(** X4: while an account is locked, a login attempt is answered 401
    whatever the password, the right one included; no token is issued and
    the users collection is unchanged, so the attempt neither counts nor
    extends the lock. *)
Theorem loginUser_locked_rejects_every_password env req w user :
  find_by_email (req_body req !! "email") (users w) = Some user ->
  isLocked user (Date_now env) = true ->
  status (fst (loginUser env req w)) = 401 /\
  field "token" (body (fst (loginUser env req w))) = None /\
  users (snd (loginUser env req w)) = users w.
Proof.
  intros Hfind Hlocked. rewrite (loginUser_locked _ _ _ _ Hfind Hlocked).
  repeat split.
Qed.

(** X5: an unknown email address and a wrong password on an unlocked
    account get the same answer, status and body; the unknown address
    changes nothing in the users collection. *)
Theorem loginUser_unknown_email_as_wrong_password env env' req req' w w' user
    (p : string) :
  find_by_email (req_body req !! "email") (users w) = None ->
  find_by_email (req_body req' !! "email") (users w') = Some user ->
  isLocked user (Date_now env') = false ->
  req_body req' !! "password" = Some p ->
  bcrypt_compare p (password user) = false ->
  fst (loginUser env req w) = fst (loginUser env' req' w') /\
  status (fst (loginUser env req w)) = 401 /\
  users (snd (loginUser env req w)) = users w.
Proof.
  intros Hnone Hfind Hlocked Hp Hcmp.
  rewrite (loginUser_unknown_email _ _ _ Hnone).
  rewrite (loginUser_wrong_password _ _ _ _ _ Hfind Hlocked Hp Hcmp).
  repeat split.
Qed.

(** X6: for a right password on an unlocked account without second factor,
    the stored document gets counter 0, no lock date, a cleared flag and the
    time of the login as [lastLogin], and then the token is signed:
    [jwt.sign] is given the user's id, role and second-factor flag with
    [JWT_SECRET] and [JWT_EXPIRE].  The answer is 200 with the token it
    makes, or 500 without a token when it throws, the lockout being reset
    all the same. *)
Theorem loginUser_success_resets env req w user (p : string) :
  find_by_email (req_body req !! "email") (users w) = Some user ->
  users w !! _id user = Some user ->
  isLocked user (Date_now env) = false ->
  req_body req !! "password" = Some p ->
  bcrypt_compare p (password user) = true ->
  twoFactorEnabled user = false ->
  match
    jwt_sign
      {| jwt_id := _id user; jwt_role := role user; jwt_twoFactorEnabled := false |}
      (process_env env !! "JWT_SECRET") (process_env env !! "JWT_EXPIRE")
  with
  | inr token =>
      status (fst (loginUser env req w)) = 200 /\
      field "token" (body (fst (loginUser env req w))) = Some (JStr token)
  | inl _ =>
      status (fst (loginUser env req w)) = 500 /\
      field "token" (body (fst (loginUser env req w))) = None
  end /\
  exists u',
    users (snd (loginUser env req w)) !! _id user = Some u' /\
    loginAttempts u' = 0 /\ lockUntil u' = None /\ accountLocked u' = false /\
    lastLogin u' = Some (mkDate (Date_now env)) /\
    password u' = password user.
Proof.
  intros Hfind Hstored Hlocked Hp Hcmp H2fa.
  rewrite (loginUser_password_ok _ _ _ _ _ Hfind Hlocked Hp Hcmp), H2fa.
  unfold getSignedJwtToken. rewrite H2fa.
  destruct (jwt_sign _ _ _) as [error|token];
    (split; [split; reflexivity|]);
    (eexists; split; [apply updateOne_lookup, Hstored|]; repeat split).
Qed.

(** X7: with the second factor enabled, a right password is answered 200
    without any token: the answer only names the user for the second step.
    The counter and the lock are reset, and [lastLogin] stamped, before the
    second factor is checked. *)
Theorem loginUser_second_factor_pending env req w user (p : string) :
  find_by_email (req_body req !! "email") (users w) = Some user ->
  users w !! _id user = Some user ->
  isLocked user (Date_now env) = false ->
  req_body req !! "password" = Some p ->
  bcrypt_compare p (password user) = true ->
  twoFactorEnabled user = true ->
  status (fst (loginUser env req w)) = 200 /\
  field "token" (body (fst (loginUser env req w))) = None /\
  field "twoFactorRequired" (body (fst (loginUser env req w))) = Some (JBool true) /\
  field "userId" (body (fst (loginUser env req w))) = Some (JStr (_id user)) /\
  exists u',
    users (snd (loginUser env req w)) !! _id user = Some u' /\
    loginAttempts u' = 0 /\ lockUntil u' = None /\ accountLocked u' = false /\
    lastLogin u' = Some (mkDate (Date_now env)).
Proof.
  intros Hfind Hstored Hlocked Hp Hcmp H2fa.
  rewrite (loginUser_password_ok _ _ _ _ _ Hfind Hlocked Hp Hcmp), H2fa.
  split; [reflexivity|]. split; [reflexivity|]. split; [reflexivity|].
  split; [reflexivity|].
  eexists. split; [apply updateOne_lookup, Hstored|]. repeat split.
Qed.

End LoginMore.

Lemma loginUser_locked_rejects_every_password_witness :
  let req := Scenario.post EmptyString
               [("email", "alice@example.com"); ("password", "hunter2")] in
  let w := Scenario.world_of (Scenario.locked_until 5 2000000) in
  bcrypt_compare (Primitives := Scenario.toy) "hunter2"
    (password (Scenario.locked_until 5 2000000)) = true /\
  status (fst (loginUser (H := Scenario.toy) Scenario.dev req w)) = 401 /\
  users (snd (loginUser (H := Scenario.toy) Scenario.dev req w)) = users w.
Proof.
  intros req w. split; [reflexivity|].
  destruct (loginUser_locked_rejects_every_password (H := Scenario.toy)
              Scenario.dev req w (Scenario.locked_until 5 2000000))
    as (Hs & _ & Hu); [reflexivity | reflexivity |].
  split; [exact Hs | exact Hu].
Defined.

Lemma loginUser_unknown_email_as_wrong_password_witness :
  let unknown := Scenario.post EmptyString
                   [("email", "nobody@example.com"); ("password", "x")] in
  let wrong := Scenario.post EmptyString
                 [("email", "alice@example.com"); ("password", "letmein")] in
  let w := Scenario.world_of Scenario.alice in
  fst (loginUser (H := Scenario.toy) Scenario.dev unknown w) =
  fst (loginUser (H := Scenario.toy) Scenario.dev wrong w).
Proof.
  intros unknown wrong w.
  destruct (loginUser_unknown_email_as_wrong_password (H := Scenario.toy)
              Scenario.dev Scenario.dev unknown wrong w w Scenario.alice "letmein")
    as (Heq & _); [reflexivity .. | exact Heq].
Defined.

Lemma loginUser_success_resets_witness :
  let user := without_2FA (Scenario.unlocked 3) in
  let req := Scenario.post EmptyString
               [("email", "alice@example.com"); ("password", "hunter2")] in
  let w := Scenario.world_of user in
  status (fst (loginUser (H := Scenario.toy) Scenario.dev req w)) = 200 /\
  field "token" (body (fst (loginUser (H := Scenario.toy) Scenario.dev req w)))
    = Some (JStr "jwt.u1") /\
  exists u',
    users (snd (loginUser (H := Scenario.toy) Scenario.dev req w)) !! "u1" = Some u' /\
    loginAttempts u' = 0.
Proof.
  intros user req w.
  destruct (loginUser_success_resets (H := Scenario.toy) Scenario.dev req w user
              "hunter2") as ((Hs & Ht) & u' & Hu & Hc & _); [reflexivity .. |].
  split; [exact Hs|]. split; [exact Ht|].
  exists u'. split; [exact Hu | exact Hc].
Defined.

Lemma loginUser_second_factor_pending_witness :
  let req := Scenario.post EmptyString
               [("email", "alice@example.com"); ("password", "hunter2")] in
  let w := Scenario.world_of Scenario.alice in
  status (fst (loginUser (H := Scenario.toy) Scenario.dev req w)) = 200 /\
  field "token" (body (fst (loginUser (H := Scenario.toy) Scenario.dev req w))) = None.
Proof.
  intros req w.
  destruct (loginUser_second_factor_pending (H := Scenario.toy) Scenario.dev req w
              Scenario.alice "hunter2") as (Hs & Ht & _); [reflexivity .. |].
  split; [exact Hs | exact Ht].
Defined.

(** ** The lockout invariant through the controllers *)

Section LockoutInvariant.
Context `{Primitives}.
Implicit Types (env : Env) (req : Request) (w : World) (user : User)
  (us : gmap string User).

Lemma find_by_email_stored (e : option string) us user :
  find_by_email e us = Some user -> exists k, us !! k = Some user.
Proof.
  unfold find_by_email. destruct e as [e|]; [|discriminate]. cbn.
  intros Hfind. apply find_some in Hfind as [Hin _].
  apply list_elem_of_In, list_elem_of_fmap in Hin as ([k u] & -> & Hin).
  exists k. apply elem_of_map_to_list, Hin.
Qed.

Lemma find_by_email_keyed (e : option string) us user :
  keyed_by_id us -> find_by_email e us = Some user -> us !! _id user = Some user.
Proof.
  intros Hkeys Hfind. destruct (find_by_email_stored _ _ _ Hfind) as [k Hk].
  rewrite (Hkeys _ _ Hk). exact Hk.
Qed.

Lemma loginUser_missing_password env req w user :
  find_by_email (req_body req !! "email") (users w) = Some user ->
  isLocked user (Date_now env) = false ->
  req_body req !! "password" = None ->
  status (fst (loginUser env req w)) = 500 /\
  users (snd (loginUser env req w)) = users w.
Proof.
  intros Hfind Hlocked Hp. unfold loginUser. run_handler.
  rewrite Hfind. run_handler. rewrite Hlocked, Hp. split; reflexivity.
Qed.

Lemma updateOne_reset_consistent this now us :
  (forall k u, us !! k = Some u -> lockout_consistent u) ->
  forall k u, updateOne this (resetLoginAttempts now) us !! k = Some u ->
              lockout_consistent u.
Proof.
  intros Hall k u. unfold updateOne.
  destruct (decide (k = _id this)) as [->|Hne].
  - rewrite lookup_alter_eq.
    destruct (us !! _id this) as [u0|] eqn:Hu0; [|discriminate].
    intros [= <-]. apply lockout_updates_consistent, (Hall _ _ Hu0).
  - rewrite lookup_alter_ne by congruence. apply Hall.
Qed.

Lemma updateOne_failure_consistent this now us :
  us !! _id this = Some this ->
  (forall k u, us !! k = Some u -> lockout_consistent u) ->
  forall k u, updateOne this (incrementLoginAttempts this now) us !! k = Some u ->
              lockout_consistent u.
Proof.
  intros Hthis Hall k u. unfold updateOne.
  destruct (decide (k = _id this)) as [->|Hne].
  - rewrite lookup_alter_eq, Hthis. intros [= <-].
    apply (lockout_updates_consistent this now), (Hall _ _ Hthis).
  - rewrite lookup_alter_ne by congruence. apply Hall.
Qed.

(** X8: the two login controllers keep the lockout fields of every stored
    document consistent.  In a collection where each document is stored
    under its id, whatever the request and its outcome, [loginUser] and
    [verify2FALogin] leave every document with a counter that is not
    negative, a flag set exactly when a lock date is stored and a lock date
    stored exactly when the counter has reached 5. *)
Theorem login_controllers_keep_lockout_consistent env req w :
  keyed_by_id (users w) ->
  (forall k u, users w !! k = Some u -> lockout_consistent u) ->
  (forall k u, users (snd (loginUser env req w)) !! k = Some u ->
               lockout_consistent u) /\
  (forall k u, users (snd (verify2FALogin env req w)) !! k = Some u ->
               lockout_consistent u).
Proof.
  intros Hkeys Hall. split.
  - destruct (find_by_email (req_body req !! "email") (users w)) as [user|] eqn:Hfind;
      [|rewrite (loginUser_unknown_email _ _ _ Hfind); exact Hall].
    destruct (isLocked user (Date_now env)) eqn:Hlocked;
      [rewrite (loginUser_locked _ _ _ _ Hfind Hlocked); exact Hall|].
    destruct (req_body req !! "password") as [p|] eqn:Hp;
      [|rewrite (proj2 (loginUser_missing_password _ _ _ _ Hfind Hlocked Hp));
        exact Hall].
    destruct (bcrypt_compare p (password user)) eqn:Hcmp.
    + rewrite (loginUser_password_ok _ _ _ _ _ Hfind Hlocked Hp Hcmp).
      destruct (twoFactorEnabled user); [|destruct (getSignedJwtToken env user)];
        cbn [snd users]; apply updateOne_reset_consistent, Hall.
    + rewrite (loginUser_wrong_password _ _ _ _ _ Hfind Hlocked Hp Hcmp).
      cbn [snd users]. apply updateOne_failure_consistent; [|exact Hall].
      apply (find_by_email_keyed _ _ _ Hkeys Hfind).
  - assert (Hmark : forall user, lockout_consistent user ->
                      lockout_consistent (mark_used 0 user)) by (intros ? Hc; exact Hc).
    unfold verify2FALogin.
    destruct (req_body req !! "userId") as [uid|];
      destruct (req_body req !! "token") as [t|];
      destruct (req_body req !! "backupCode") as [bc|];
      repeat first
        [ progress run_handler
        | progress cbv beta iota delta [truthy truthy_option truthy_bool]
        | progress cbn [default from_option id negb andb orb Z.eqb Pos.eqb]
        | rewrite !findIndex_async
        | rewrite !findIndex_results_async
        | rewrite !getSignedJwtToken_mark_used
        | rewrite !getSignedJwtToken_with_lockout
        | match goal with
          | |- context [truthy_string ?x] => destruct (truthy_string x) eqn:?
          | |- context [match users w !! ?k with _ => _ end] =>
              destruct (users w !! k) as [user|] eqn:?
          | |- context [twoFactorEnabled ?u] => destruct (twoFactorEnabled u) eqn:?
          | |- context [totp_verify ?a ?b ?c ?d] => destruct (totp_verify a b c d) eqn:?
          | |- context [match twoFactorBackupCodes ?u with _ => _ end] =>
              destruct (twoFactorBackupCodes u) eqn:?
          | |- context [getSignedJwtToken ?e ?u] =>
              destruct (getSignedJwtToken e u) eqn:?
          end ];
      cbn [users log_only];
      first
        [ exact Hall
        | apply updateOne_reset_consistent; first
            [ exact Hall
            | intros k u Hk; apply lookup_insert_Some in Hk as [[<- <-]|[Hne Hk]];
              [ apply Hmark; eauto | eapply Hall; eauto ] ] ].
Qed.

End LockoutInvariant.

Lemma login_controllers_keep_lockout_consistent_witness :
  let req := Scenario.post EmptyString
               [("email", "alice@example.com"); ("password", "letmein")] in
  let w := Scenario.world_of (Scenario.unlocked 4) in
  exists u,
    users (snd (loginUser (H := Scenario.toy) Scenario.dev req w)) !! "u1" = Some u /\
    loginAttempts u = 5 /\
    lockout_consistent u.
Proof.
  intros req w.
  destruct (login_controllers_keep_lockout_consistent (H := Scenario.toy)
              Scenario.dev req w) as (Hlogin & _).
  - intros k u Hk. unfold w, Scenario.world_of in Hk. cbn [users] in Hk.
    apply lookup_singleton_Some in Hk as [<- <-]. reflexivity.
  - intros k u Hk. unfold w, Scenario.world_of in Hk. cbn [users] in Hk.
    apply lookup_singleton_Some in Hk as [<- <-].
    unfold lockout_consistent. cbn. repeat split; intros Hx; try lia;
      try discriminate; destruct Hx as [? [=]].
  - eexists. split; [vm_compute; reflexivity|]. split; [reflexivity|].
    apply (Hlogin "u1"). vm_compute. reflexivity.
Defined.

(** ** Further properties of the second factor (controllers/twoFactorAuth.js) *)

Section SecondFactorMore.
Context `{Primitives}.
Implicit Types (env : Env) (req : Request) (w : World) (user : User).

(** X9: a valid code for the pending secret enables the second factor.  The
    answer is 200 and lists ten codes; the stored document gets the pending
    secret, [twoFactorEnabled] and ten backup entries, none of them used;
    its password and lockout fields are untouched, the other documents too,
    and the pending secret leaves the session. *)
Theorem verify2FAToken_enables_second_factor env req w user (t secret : string) :
  req_body req !! "token" = Some t -> truthy t = true ->
  pending_secret w = Some secret -> truthy secret = true ->
  totp_verify (Some secret) t 1 (Date_now env) = true ->
  users w !! req_user_id req = Some user ->
  status (fst (verify2FAToken env req w)) = 200 /\
  (exists plain,
     field "backupCodes" (body (fst (verify2FAToken env req w)))
       = Some (JArr (JStr <$> plain)) /\
     length plain = 10%nat) /\
  (exists u',
     users (snd (verify2FAToken env req w)) !! req_user_id req = Some u' /\
     twoFactorEnabled u' = true /\
     twoFactorSecret u' = Some secret /\
     length (twoFactorBackupCodes u') = 10%nat /\
     Forall (fun c => used c = false) (twoFactorBackupCodes u') /\
     password u' = password user /\
     loginAttempts u' = loginAttempts user /\
     lockUntil u' = lockUntil user /\
     accountLocked u' = accountLocked user) /\
  (forall k, k <> req_user_id req ->
     users (snd (verify2FAToken env req w)) !! k = users w !! k) /\
  pending_secret (snd (verify2FAToken env req w)) = None.
Proof.
  intros Htok Htokt Hpending Hsecret Hok Huser.
  destruct (verify2FAToken_enrolls env req w t secret Htok Htokt Hpending Hsecret Hok)
    as (Hr & Hu & Hp); [eauto|].
  rewrite Hr, Hu. split; [reflexivity|]. split.
  { eexists. split; [reflexivity|]. rewrite length_fmap, length_seq. reflexivity. }
  split.
  { eexists. split; [rewrite lookup_alter_eq, Huser; reflexivity|].
    cbn. repeat split; try lia; repeat constructor. }
  split; [|exact Hp].
  intros k Hk. apply lookup_alter_ne. congruence.
Qed.

(** X10: enrollment round trip.  The secret [generate2FASecret] hands out
    is held in the session only, the users collection being left as it
    was; a code that validates against it, sent to [verify2FAToken] in that
    session, makes it the stored secret of the user and empties the
    session slot. *)
Theorem enrollment_round_trip env env' req req' w user (t : string) :
  users w !! req_user_id req = Some user ->
  req_user_id req' = req_user_id req ->
  req_body req' !! "token" = Some t -> truthy t = true ->
  let secret := base32 (speakeasy_generateSecret ("Time Capsule:" ++ email user)) in
  truthy secret = true ->
  totp_verify (Some secret) t 1 (Date_now env') = true ->
  let w1 := snd (generate2FASecret env req w) in
  users w1 = users w /\
  pending_secret w1 = Some secret /\
  status (fst (verify2FAToken env' req' w1)) = 200 /\
  (exists u',
     users (snd (verify2FAToken env' req' w1)) !! req_user_id req = Some u' /\
     twoFactorEnabled u' = true /\ twoFactorSecret u' = Some secret) /\
  pending_secret (snd (verify2FAToken env' req' w1)) = None.
Proof.
  intros Huser Hsame Htok Htokt secret Hsecret Hok w1.
  destruct (generate2FASecret_sends_secret env req w user Huser)
    as (_ & _ & Hpending & Husers).
  fold secret in Hpending. fold w1 in Hpending, Husers.
  split; [exact Husers|]. split; [exact Hpending|].
  destruct (verify2FAToken_enrolls env' req' w1 t secret Htok Htokt Hpending
              Hsecret Hok) as (Hr & Hu & Hp).
  { rewrite Hsame, Husers, Huser. eauto. }
  rewrite Hr, Hu. split; [reflexivity|]. split; [|exact Hp].
  eexists. rewrite Hsame, lookup_alter_eq, Husers, Huser.
  split; [reflexivity|]. split; reflexivity.
Qed.

(** The case analysis of [verify2FALogin]. *)
Ltac verify2FALogin_cases w :=
  repeat first
    [ progress run_handler
    | progress cbv beta iota delta [truthy truthy_option truthy_bool]
    | progress cbn [default from_option id negb andb orb Z.eqb Pos.eqb]
    | rewrite !findIndex_async
    | rewrite !findIndex_results_async
    | rewrite !getSignedJwtToken_mark_used
    | rewrite !getSignedJwtToken_with_lockout
    | match goal with
      | |- context [truthy_string ?x] => destruct (truthy_string x) eqn:?
      | |- context [match users w !! ?k with _ => _ end] =>
          destruct (users w !! k) as [?user|] eqn:?
      | |- context [twoFactorEnabled ?u] => destruct (twoFactorEnabled u) eqn:?
      | |- context [totp_verify ?a ?b ?c ?d] => destruct (totp_verify a b c d) eqn:?
      | |- context [match twoFactorBackupCodes ?u with _ => _ end] =>
          destruct (twoFactorBackupCodes u) eqn:?
      | |- context [getSignedJwtToken ?e ?u] =>
          destruct (getSignedJwtToken e u) eqn:?
      end ].

(** X11: a second-factor login that is answered 400 or 404 has changed
    nothing in the users collection and has left no promise behind: a wrong
    code is not counted anywhere, it neither adds to [loginAttempts] nor
    locks the account, and no backup code is spent. *)
Theorem verify2FALogin_failure_changes_nothing env req w :
  status (fst (verify2FALogin env req w)) = 400 \/
  status (fst (verify2FALogin env req w)) = 404 ->
  users (snd (verify2FALogin env req w)) = users w /\
  unhandled (snd (verify2FALogin env req w)) = unhandled w /\
  field "token" (body (fst (verify2FALogin env req w))) = None.
Proof.
  unfold verify2FALogin.
  destruct (req_body req !! "userId") as [uid|];
    destruct (req_body req !! "token") as [t|];
    destruct (req_body req !! "backupCode") as [bc|];
    verify2FALogin_cases w; cbn [status users unhandled json];
    first [ intros _; repeat split; cbn; rewrite ?app_nil_r; reflexivity
          | intros [Hs | Hs]; discriminate Hs ].
Qed.

(** X12: when a request carries a one-time code, a backup code sent along
    with it is ignored: the answer and the effects are those of the same
    request without it. *)
Theorem verify2FALogin_token_first env req w (bc : string) :
  truthy (req_body req !! "token") = true ->
  verify2FALogin env
    (mkRequest (req_user_id req) (<["backupCode" := bc]> (req_body req))) w
  = verify2FALogin env
      (mkRequest (req_user_id req) (delete "backupCode" (req_body req))) w.
Proof.
  intros Htok. unfold verify2FALogin. cbn [req_body].
  rewrite lookup_insert_eq, lookup_delete_eq.
  rewrite !lookup_insert_ne, !lookup_delete_ne by discriminate.
  destruct (req_body req !! "token") as [t|]; [|discriminate].
  destruct (req_body req !! "userId") as [uid|];
    cbv beta iota delta [truthy truthy_option truthy_bool] in Htok |- *;
    rewrite Htok; reflexivity.
Qed.

(** X13: with no backup code stored, a backup-code login is answered 400
    and changes nothing. *)
Theorem verify2FALogin_no_backup_codes env req w user (uid bc : string) :
  req_body req !! "userId" = Some uid -> truthy uid = true ->
  truthy (req_body req !! "token") = false ->
  req_body req !! "backupCode" = Some bc -> truthy bc = true ->
  users w !! uid = Some user ->
  twoFactorEnabled user = true ->
  twoFactorBackupCodes user = [] ->
  status (fst (verify2FALogin env req w)) = 400 /\
  field "message" (body (fst (verify2FALogin env req w))) =
    Some (JStr "Invalid token or backup code") /\
  users (snd (verify2FALogin env req w)) = users w.
Proof.
  intros Hid Hidt Htok Hbc Hbct Huser Hen Hcodes.
  unfold verify2FALogin. rewrite Hid, Hbc, Htok.
  cbv beta iota delta [truthy truthy_option] in Hidt, Hbct |- *.
  rewrite Hidt, Hbct. cbn [negb orb andb default from_option id].
  run_handler. rewrite Huser, Hen. cbn [negb]. run_handler.
  rewrite findIndex_async, Hcodes. repeat split.
Qed.

(** What [verify2FALogin] can leave in place of a stored document. *)
Lemma verify2FALogin_stored env req w user (uid : string) :
  req_body req !! "userId" = Some uid ->
  users w !! uid = Some user -> _id user = uid ->
  users (snd (verify2FALogin env req w)) !! uid = Some user \/
  users (snd (verify2FALogin env req w)) !! uid
    = Some (apply_update (resetLoginAttempts (Date_now env)) user) \/
  users (snd (verify2FALogin env req w)) !! uid
    = Some (apply_update (resetLoginAttempts (Date_now env)) (mark_used 0 user)).
Proof.
  intros Hid Huser Huid.
  unfold verify2FALogin. rewrite Hid.
  destruct (req_body req !! "token") as [t|];
    destruct (req_body req !! "backupCode") as [bc|];
    repeat first
      [ progress run_handler
      | progress cbv beta iota delta [truthy truthy_option truthy_bool]
      | progress cbn [default from_option id negb andb orb Z.eqb Pos.eqb]
      | rewrite Huser
      | rewrite !findIndex_async
      | rewrite !findIndex_results_async
      | rewrite !getSignedJwtToken_mark_used
      | rewrite !getSignedJwtToken_with_lockout
      | match goal with
        | |- context [truthy_string ?x] => destruct (truthy_string x) eqn:?
        | |- context [twoFactorEnabled user] => destruct (twoFactorEnabled user) eqn:?
        | |- context [totp_verify ?a ?b ?c ?d] => destruct (totp_verify a b c d) eqn:?
        | |- context [match twoFactorBackupCodes user with _ => _ end] =>
            destruct (twoFactorBackupCodes user) eqn:?
        | |- context [getSignedJwtToken ?e ?u] =>
            destruct (getSignedJwtToken e u) eqn:?
        end ];
    cbn [users log_only];
    first
      [ left; first [reflexivity | exact Huser]
      | right; left; rewrite <- Huid in Huser |- *; apply updateOne_lookup, Huser
      | right; right; unfold updateOne; cbn [mark_used _id]; rewrite Huid;
        rewrite lookup_alter_eq, lookup_insert_eq; reflexivity ].
Qed.

(** X14: [verify2FALogin] never takes a backup code back.  Whatever the
    request, the stored entries of the user keep their number and their
    hashes, and an entry that was used stays used. *)
Theorem verify2FALogin_backup_codes_monotone env req w user (uid : string) :
  req_body req !! "userId" = Some uid ->
  users w !! uid = Some user -> _id user = uid ->
  exists u',
    users (snd (verify2FALogin env req w)) !! uid = Some u' /\
    code <$> twoFactorBackupCodes u' = code <$> twoFactorBackupCodes user /\
    forall i c, twoFactorBackupCodes user !! i = Some c -> used c = true ->
                twoFactorBackupCodes u' !! i = Some c.
Proof.
  intros Hid Huser Huid.
  assert (Hmark : code <$> twoFactorBackupCodes (mark_used 0 user)
                    = code <$> twoFactorBackupCodes user).
  { cbn. destruct (twoFactorBackupCodes user); reflexivity. }
  destruct (verify2FALogin_stored env req w user uid Hid Huser Huid)
    as [-> | [-> | ->]]; eexists; (split; [reflexivity|]).
  - split; [reflexivity|]. auto.
  - split; [reflexivity|]. auto.
  - split; [exact Hmark|]. intros i c Hc Hused. cbn.
    destruct (twoFactorBackupCodes user) as [|c0 cs]; [destruct i; discriminate|].
    destruct i as [|i]; cbn in *; [|exact Hc].
    injection Hc as ->. destruct c as [h u]. cbn in *. subst u. reflexivity.
Qed.

(** The answer and the effects of [disable2FA] on a valid proof. *)
Lemma disable2FA_disables env req w user :
  users w !! req_user_id req = Some user ->
  _id user = req_user_id req ->
  proof_of_control env req user = true ->
  disable2FA env req w =
    (json 200 [("success", JBool true); ("message", JStr "2FA has been disabled")],
     mkWorld (<[req_user_id req := without_2FA user]> (users w)) (session w)
       (logs w ++ [(LInfo, "2FA disabled for user: " ++ _id user)])
       (random_calls w) (unhandled w)).
Proof.
  intros Huser Hid. unfold disable2FA, proof_of_control, without_2FA.
  rewrite <- Hid in Huser |- *.
  destruct (req_body req !! "token") as [t|];
    destruct (req_body req !! "password") as [p|];
    repeat first
      [ progress run_handler
      | progress cbv beta iota delta [truthy truthy_option truthy_bool]
      | progress cbn [default from_option id negb andb orb]
      | rewrite Huser
      | match goal with
        | |- context [truthy_string ?x] => destruct (truthy_string x) eqn:?
        | |- context [totp_verify ?a ?b ?c ?d] => destruct (totp_verify a b c d) eqn:?
        | |- context [bcrypt_compare ?a ?b] => destruct (bcrypt_compare a b) eqn:?
        end ];
    first [ discriminate | intros _; reflexivity ].
Qed.

(** X15: once [disable2FA] has succeeded, the second-factor login of that
    user is closed: whatever code or backup code is sent, [verify2FALogin]
    answers 400, issues no token and changes nothing. *)
Theorem verify2FALogin_after_disable env env' req req' w user :
  users w !! req_user_id req = Some user ->
  _id user = req_user_id req ->
  proof_of_control env req user = true ->
  req_body req' !! "userId" = Some (req_user_id req) ->
  let w1 := snd (disable2FA env req w) in
  status (fst (verify2FALogin env' req' w1)) = 400 /\
  field "token" (body (fst (verify2FALogin env' req' w1))) = None /\
  users (snd (verify2FALogin env' req' w1)) = users w1.
Proof.
  intros Huser Hid Hproof Huid w1. subst w1.
  rewrite (disable2FA_disables _ _ _ _ Huser Hid Hproof). cbn [snd].
  unfold verify2FALogin. rewrite Huid.
  destruct (req_body req' !! "token") as [t|];
    destruct (req_body req' !! "backupCode") as [bc|];
    repeat first
      [ progress run_handler
      | progress cbv beta iota delta [truthy truthy_option truthy_bool]
      | progress cbn [default from_option id negb andb orb users]
      | rewrite lookup_insert_eq
      | match goal with
        | |- context [truthy_string ?x] => destruct (truthy_string x) eqn:?
        end ];
    repeat split.
Qed.

End SecondFactorMore.

Lemma verify2FAToken_enables_second_factor_witness :
  let w := mkWorld {[ "u1" := without_2FA Scenario.alice ]}
             (Some {[ "twoFactorSecret" := "PENDING" ]}) [] 0 [] in
  let req := Scenario.post "u1" [("token", "PENDING")] in
  status (fst (verify2FAToken (H := Scenario.toy) Scenario.dev req w)) = 200 /\
  pending_secret (snd (verify2FAToken (H := Scenario.toy) Scenario.dev req w)) = None.
Proof.
  intros w req.
  destruct (verify2FAToken_enables_second_factor (H := Scenario.toy) Scenario.dev
              req w (without_2FA Scenario.alice) "PENDING" "PENDING")
    as (Hs & _ & _ & _ & Hp); [reflexivity .. |].
  split; [exact Hs | exact Hp].
Defined.

Lemma enrollment_round_trip_witness :
  let w := Scenario.world_of (without_2FA Scenario.alice) in
  let req := Scenario.post "u1" [] in
  let req' := Scenario.post "u1" [("token", "JBSWY3DPEHPK3PXP")] in
  let w1 := snd (generate2FASecret (H := Scenario.toy) Scenario.dev req w) in
  users w1 = users w /\
  exists u',
    users (snd (verify2FAToken (H := Scenario.toy) Scenario.dev req' w1)) !! "u1"
      = Some u' /\
    twoFactorEnabled u' = true /\ twoFactorSecret u' = Some "JBSWY3DPEHPK3PXP".
Proof.
  intros w req req' w1.
  destruct (enrollment_round_trip (H := Scenario.toy) Scenario.dev Scenario.dev
              req req' w (without_2FA Scenario.alice) "JBSWY3DPEHPK3PXP")
    as (Hu & _ & _ & He & _); [reflexivity .. |].
  split; [exact Hu | exact He].
Defined.

Lemma verify2FALogin_failure_changes_nothing_witness :
  let req := Scenario.post EmptyString [("userId", "u1"); ("token", "000000")] in
  let w := Scenario.world_of (Scenario.unlocked 2) in
  status (fst (verify2FALogin (H := Scenario.toy) Scenario.dev req w)) = 400 /\
  users (snd (verify2FALogin (H := Scenario.toy) Scenario.dev req w)) = users w.
Proof.
  intros req w. split; [reflexivity|].
  apply (verify2FALogin_failure_changes_nothing (H := Scenario.toy)).
  left. reflexivity.
Defined.

Lemma verify2FALogin_token_first_witness :
  let req := Scenario.post EmptyString [("userId", "u1"); ("token", "SECRET")] in
  let w := Scenario.world_of (Scenario.unlocked 2) in
  verify2FALogin (H := Scenario.toy) Scenario.dev
    (mkRequest (req_user_id req) (<["backupCode" := "junk"]> (req_body req))) w
  = verify2FALogin (H := Scenario.toy) Scenario.dev
      (mkRequest (req_user_id req) (delete "backupCode" (req_body req))) w.
Proof.
  intros req w.
  apply (verify2FALogin_token_first (H := Scenario.toy)). reflexivity.
Defined.

Lemma verify2FALogin_no_backup_codes_witness :
  let req := Scenario.post EmptyString [("userId", "u1"); ("backupCode", "AB12CD34")] in
  let w := Scenario.world_of Examples.no_codes in
  status (fst (verify2FALogin (H := Scenario.toy) Scenario.dev req w)) = 400 /\
  users (snd (verify2FALogin (H := Scenario.toy) Scenario.dev req w)) = users w.
Proof.
  intros req w.
  destruct (verify2FALogin_no_backup_codes (H := Scenario.toy) Scenario.dev req w
              Examples.no_codes "u1" "AB12CD34") as (Hs & _ & Hu);
    [reflexivity .. |].
  split; [exact Hs | exact Hu].
Defined.

Lemma verify2FALogin_backup_codes_monotone_witness :
  let req := Scenario.post EmptyString [("userId", "u1"); ("backupCode", "nope")] in
  let w := Scenario.world_of Scenario.spent in
  exists u',
    users (snd (verify2FALogin (H := Scenario.toy) Scenario.dev req w)) !! "u1"
      = Some u' /\
    twoFactorBackupCodes u' !! 0%nat = Some (mkBackupCode "$AB12CD34" true).
Proof.
  intros req w.
  destruct (verify2FALogin_backup_codes_monotone (H := Scenario.toy) Scenario.dev
              req w Scenario.spent "u1") as (u' & Hu & _ & Hused);
    [reflexivity .. |].
  exists u'. split; [exact Hu|]. apply Hused; reflexivity.
Defined.

Lemma verify2FALogin_after_disable_witness :
  let req := Scenario.post "u1" [("password", "hunter2")] in
  let req' := Scenario.post EmptyString [("userId", "u1"); ("token", "SECRET")] in
  let w := Scenario.world_of Scenario.alice in
  let w1 := snd (disable2FA (H := Scenario.toy) Scenario.dev req w) in
  status (fst (verify2FALogin (H := Scenario.toy) Scenario.dev req' w)) = 200 /\
  status (fst (verify2FALogin (H := Scenario.toy) Scenario.dev req' w1)) = 400.
Proof.
  intros req req' w w1. split; [reflexivity|].
  destruct (verify2FALogin_after_disable (H := Scenario.toy) Scenario.dev
              Scenario.dev req req' w Scenario.alice) as (Hs & _);
    [reflexivity .. | exact Hs].
Defined.

(** ** Request sanitization (utils/sanitize.js) *)

Section JsonInduction.
Variable P : Json -> Prop.
Hypothesis HNull : P JNull.
Hypothesis HBool : forall b, P (JBool b).
Hypothesis HNum : forall n, P (JNum n).
Hypothesis HStr : forall s, P (JStr s).
Hypothesis HArr : forall xs, Forall P xs -> P (JArr xs).
Hypothesis HObj : forall fields, Forall (fun p => P (snd p)) fields -> P (JObj fields).

(** Induction on a JSON value, with the hypothesis on every element of an
    array and on every property value of an object. *)
Lemma Json_induction : forall j, P j.
Proof.
  fix IH 1. intros [| b | n | s | xs | fields].
  - exact HNull.
  - apply HBool.
  - apply HNum.
  - apply HStr.
  - apply HArr. induction xs as [|x xs IHxs]; constructor; [apply IH | exact IHxs].
  - apply HObj.
    induction fields as [|[k v] fields IHf]; constructor; [apply IH | exact IHf].
Qed.

End JsonInduction.

Section SanitizeObject.
Context `{DOMPurify}.

(** The two loops of [sanitizeObject], as maps. *)
Lemma sanitizeObject_object (fields : list (string * Json)) :
  sanitizeObject (JObj fields) =
    JObj ((fun p => (fst p, sanitize_entry (snd p)))
            <$> List.filter (fun p => own_name (fst p)) fields).
Proof.
  cbn [sanitizeObject]. f_equal.
  induction fields as [|[k v] fields IHf]; [reflexivity|].
  cbn [List.filter fst snd]. unfold own_name at 1.
  destruct (String.eqb k "__proto__"); cbn [negb fmap list_fmap fst snd];
    rewrite <- IHf; reflexivity.
Qed.

Lemma sanitizeObject_array (xs : list Json) :
  sanitizeObject (JArr xs) =
    JObj (imap (fun i v => (pretty i, sanitize_entry v)) xs).
Proof.
  cbn [sanitizeObject]. f_equal.
  change (fun i v => (pretty i, sanitize_entry v))
    with (fun i v => (pretty (0 + i)%nat, sanitize_entry v)).
  generalize 0%nat as i. induction xs as [|x xs IHxs]; intros i; [reflexivity|].
  cbn [imap]. rewrite Nat.add_0_r. f_equal.
  rewrite IHxs. apply imap_ext. intros j y _. cbn. do 2 f_equal. lia.
Qed.

Lemma string_values_object (fields : list (string * Json)) :
  string_values (JObj fields) = (fields ≫= fun p => string_values (snd p)).
Proof.
  cbn [string_values].
  induction fields as [|[k v] fields IHf]; [reflexivity|].
  cbn [mbind list_bind snd]. rewrite <- IHf. reflexivity.
Qed.

Lemma string_values_array (xs : list Json) :
  string_values (JArr xs) = (xs ≫= string_values).
Proof.
  cbn [string_values].
  induction xs as [|x xs IHxs]; [reflexivity|].
  cbn [mbind list_bind]. rewrite <- IHxs. reflexivity.
Qed.

Lemma property_names_object (fields : list (string * Json)) :
  property_names (JObj fields)
  = (fields ≫= fun p => fst p :: property_names (snd p)).
Proof.
  cbn [property_names].
  induction fields as [|[k v] fields IHf]; [reflexivity|].
  cbn [mbind list_bind fst snd app]. rewrite <- IHf. reflexivity.
Qed.

Lemma property_names_array (xs : list Json) :
  property_names (JArr xs) = (xs ≫= property_names).
Proof.
  cbn [property_names].
  induction xs as [|x xs IHxs]; [reflexivity|].
  cbn [mbind list_bind]. rewrite <- IHxs. reflexivity.
Qed.

(** The strings of a sanitized entry are stripped strings of the entry, in
    their order: none is added and none gets through as it was. *)
Lemma string_values_entry_sublist (v : Json) :
  string_values (sanitize_entry v)
    `sublist_of` ((fun s => stripHtml (JStr s)) <$> string_values v).
Proof.
  induction v as [| b | n | s | xs IHxs | fields IHf] using Json_induction;
    try reflexivity.
  - cbn [sanitize_entry]. rewrite sanitizeObject_array, string_values_object,
      string_values_array.
    generalize (@pretty nat _) as f.
    induction IHxs as [|x xs Hx _ IH]; intros f; [reflexivity|].
    cbn [imap mbind list_bind snd]. rewrite fmap_app.
    apply sublist_app; [exact Hx | apply (IH (f ∘ S))].
  - cbn [sanitize_entry]. rewrite sanitizeObject_object, !string_values_object.
    induction IHf as [|[k v] fields Hv _ IH]; [reflexivity|].
    cbn [List.filter fst snd mbind list_bind]. rewrite fmap_app.
    destruct (own_name k); cbn [fmap list_fmap mbind list_bind fst snd].
    + apply sublist_app; [exact Hv | exact IH].
    + apply sublist_inserts_l. exact IH.
Qed.

(** Where no property is named [__proto__], every string is there. *)
Lemma string_values_entry (v : Json) :
  "__proto__" ∉ property_names v ->
  string_values (sanitize_entry v) = (fun s => stripHtml (JStr s)) <$> string_values v.
Proof.
  induction v as [| b | n | s | xs IHxs | fields IHf] using Json_induction;
    try reflexivity.
  - rewrite property_names_array. intros Hfree.
    cbn [sanitize_entry]. rewrite sanitizeObject_array, string_values_object,
      string_values_array.
    revert Hfree. generalize (@pretty nat _) as f.
    induction IHxs as [|x xs Hx _ IH]; intros f Hfree; [reflexivity|].
    cbn [mbind list_bind] in Hfree. rewrite not_elem_of_app in Hfree.
    destruct Hfree as [Hfx Hfxs].
    cbn [imap mbind list_bind snd]. rewrite fmap_app, (Hx Hfx). f_equal.
    apply (IH (f ∘ S) Hfxs).
  - rewrite property_names_object. intros Hfree.
    cbn [sanitize_entry]. rewrite sanitizeObject_object, !string_values_object.
    induction IHf as [|[k v] fields Hv _ IH]; [reflexivity|].
    cbn [mbind list_bind fst snd] in Hfree.
    rewrite not_elem_of_app, not_elem_of_cons in Hfree.
    destruct Hfree as [[Hk Hfv] Hff]. cbn [snd] in Hv.
    cbn [List.filter fst snd mbind list_bind]. unfold own_name at 1.
    destruct (String.eqb_spec k "__proto__") as [->|_]; [congruence|].
    cbn [negb fmap list_fmap mbind list_bind fst snd].
    rewrite fmap_app, (Hv Hfv). f_equal. exact (IH Hff).
Qed.

(** X16: the string values of what [sanitizeObject] makes of an object or
    an array are stripped string values of the argument, in their order, at
    any depth: no string gets through as it was.  Where no property of the
    argument is named [__proto__], they are the [stripHtml] images of all
    the string values of the argument. *)
Theorem sanitizeObject_strips_every_string_value (obj : Json) :
  (forall s, obj <> JStr s) ->
  string_values (sanitizeObject obj)
    `sublist_of` ((fun s => stripHtml (JStr s)) <$> string_values obj) /\
  ("__proto__" ∉ property_names obj ->
   string_values (sanitizeObject obj)
     = (fun s => stripHtml (JStr s)) <$> string_values obj).
Proof.
  intros Hobj.
  destruct obj as [| b | n | s | xs | fields];
    try (split; [reflexivity | intros _; reflexivity]).
  - destruct (Hobj s). reflexivity.
  - split; [apply (string_values_entry_sublist (JArr xs))
           | apply (string_values_entry (JArr xs))].
  - split; [apply (string_values_entry_sublist (JObj fields))
           | apply (string_values_entry (JObj fields))].
Qed.

(** X17: [sanitizeObject] keeps the property names of an object, in their
    order, except [__proto__], which the result does not get; an array
    does not come back as an array but as an object whose property names are
    the indices [0], [1], ... of its elements; any other argument, a string
    included, is returned as it is, not stripped. *)
Theorem sanitizeObject_keys (obj : Json) :
  match obj with
  | JObj fields =>
      keys (sanitizeObject obj) = List.filter own_name (fst <$> fields) /\
      "__proto__" ∉ keys (sanitizeObject obj)
  | JArr xs =>
      (exists fields, sanitizeObject obj = JObj fields) /\
      keys (sanitizeObject obj) = pretty <$> seq 0 (length xs)
  | _ => sanitizeObject obj = obj
  end.
Proof.
  destruct obj as [| b | n | s | xs | fields]; try reflexivity.
  - rewrite sanitizeObject_array. split; [eauto|].
    cbn [keys].
    assert (Hgen : forall (g : nat -> Json -> string * Json) (f : nat -> string),
              (forall i v, fst (g i v) = f i) ->
              fst <$> imap g xs = f <$> seq 0 (length xs)).
    { induction xs as [|x xs IHxs]; intros g f Hg; [reflexivity|].
      cbn [imap seq length fmap list_fmap]. rewrite Hg. f_equal.
      rewrite (IHxs (g ∘ S) (f ∘ S)) by (intros; apply Hg).
      rewrite <- fmap_S_seq, <- list_fmap_compose. reflexivity. }
    apply Hgen. reflexivity.
  - rewrite sanitizeObject_object. cbn [keys].
    assert (Hkeys :
      fst <$> ((fun p : string * Json => (fst p, sanitize_entry (snd p)))
                 <$> List.filter (fun p => own_name (fst p)) fields)
      = List.filter own_name (fst <$> fields)).
    { rewrite <- list_fmap_compose.
      induction fields as [|[k v] fields IHf]; [reflexivity|].
      cbn [List.filter fmap list_fmap fst snd].
      destruct (own_name k); cbn [fmap list_fmap compose fst]; rewrite IHf;
        reflexivity. }
    rewrite Hkeys. split; [reflexivity|].
    rewrite list_elem_of_In, filter_In. intros [_ Hown]. discriminate Hown.
Qed.

(** The index of an array element is written in digits. *)
Lemma pretty_N_go_own (x : N) (s s' : string) :
  s <> String "_" s' -> pretty_N_go x s <> String "_" s'.
Proof.
  revert s. induction (N.lt_wf_0 x) as [x _ IH]. intros s Hs.
  destruct (decide (x = 0)%N) as [->|Hx]; [rewrite pretty_N_go_0; exact Hs|].
  rewrite pretty_N_go_step by lia.
  apply IH; [apply N.div_lt; lia|].
  unfold pretty_N_char. repeat case_match; discriminate.
Qed.

Lemma own_name_index (i : nat) : own_name (pretty i) = true.
Proof.
  unfold own_name.
  destruct (String.eqb_spec (pretty i) "__proto__") as [Heq|]; [|reflexivity].
  exfalso. revert Heq. unfold pretty, pretty_nat, pretty, pretty_N.
  case_decide; [discriminate|]. apply pretty_N_go_own. discriminate.
Qed.

Lemma sanitize_entry_idempotent (v : Json) :
  (forall s, stripHtml (JStr (stripHtml (JStr s))) = stripHtml (JStr s)) ->
  sanitize_entry (sanitize_entry v) = sanitize_entry v.
Proof.
  intros Hstrip.
  induction v as [| b | n | s | xs IHxs | fields IHf] using Json_induction;
    try reflexivity.
  - cbn [sanitize_entry]. rewrite Hstrip. reflexivity.
  - cbn [sanitize_entry]. rewrite sanitizeObject_array.
    change (sanitize_entry (JObj ?l)) with (sanitizeObject (JObj l)).
    rewrite sanitizeObject_object. f_equal.
    assert (Hgen : forall f : nat -> string,
              (forall i, own_name (f i) = true) ->
              (fun p : string * Json => (fst p, sanitize_entry (snd p)))
                <$> List.filter (fun p => own_name (fst p))
                      (imap (fun i v => (f i, sanitize_entry v)) xs)
              = imap (fun i v => (f i, sanitize_entry v)) xs).
    { induction IHxs as [|x xs Hx _ IH]; intros f Hf; [reflexivity|].
      cbn [imap List.filter fst snd]. rewrite Hf.
      cbn [fmap list_fmap fst snd]. rewrite Hx. f_equal.
      apply (IH (f ∘ S)). intros i. apply Hf. }
    apply Hgen, own_name_index.
  - cbn [sanitize_entry]. rewrite sanitizeObject_object.
    change (sanitize_entry (JObj ?l)) with (sanitizeObject (JObj l)).
    rewrite sanitizeObject_object. f_equal.
    induction IHf as [|[k v] fields Hv _ IH]; [reflexivity|].
    cbn [List.filter fst snd] in Hv |- *.
    destruct (own_name k) eqn:Hk; [|exact IH].
    cbn [fmap list_fmap List.filter fst snd]. rewrite Hk.
    cbn [fmap list_fmap fst snd]. rewrite Hv. f_equal. exact IH.
Qed.

(** X18: when stripping a stripped string changes nothing, sanitizing a
    sanitized value changes nothing: [sanitizeObject] is idempotent. *)
Theorem sanitizeObject_idempotent (obj : Json) :
  (forall s, stripHtml (JStr (stripHtml (JStr s))) = stripHtml (JStr s)) ->
  sanitizeObject (sanitizeObject obj) = sanitizeObject obj.
Proof.
  intros Hstrip.
  destruct obj as [| b | n | s | xs | fields]; try reflexivity.
  - apply (sanitize_entry_idempotent (JArr xs) Hstrip).
  - apply (sanitize_entry_idempotent (JObj fields) Hstrip).
Qed.

End SanitizeObject.

Lemma drop_brackets_idempotent (s : string) :
  Examples.drop_brackets (Examples.drop_brackets s) = Examples.drop_brackets s.
Proof.
  induction s as [|c s IHs]; [reflexivity|]. cbn [Examples.drop_brackets].
  destruct (Ascii.eqb c "<" || Ascii.eqb c ">")%char eqn:Hc; [exact IHs|].
  cbn [Examples.drop_brackets]. rewrite Hc, IHs. reflexivity.
Qed.

Lemma sanitizeObject_strips_every_string_value_witness :
  string_values
    (sanitizeObject (H := Examples.purify)
       (JObj [("title", JStr "<b>Hi</b>");
              ("tags", JArr [JStr "<i>a"; JNum 3; JObj [("deep", JStr "<>")]])]))
  = ["bHi/b"; "ia"; EmptyString].
Proof.
  destruct (sanitizeObject_strips_every_string_value (H := Examples.purify)
              (JObj [("title", JStr "<b>Hi</b>");
                     ("tags", JArr [JStr "<i>a"; JNum 3; JObj [("deep", JStr "<>")]])]))
    as [_ Hall]; [discriminate|].
  rewrite Hall; [reflexivity|].
  intros Hin. apply list_elem_of_In in Hin. cbn in Hin.
  intuition discriminate.
Defined.

Lemma sanitizeObject_idempotent_witness :
  let obj := JObj [("title", JStr "<b>Hi</b>"); ("tags", JArr [JStr "<i>a"])] in
  sanitizeObject (H := Examples.purify) (sanitizeObject (H := Examples.purify) obj)
  = sanitizeObject (H := Examples.purify) obj.
Proof.
  intros obj. apply (sanitizeObject_idempotent (H := Examples.purify)).
  intros s. apply drop_brackets_idempotent.
Defined.

(** A property named [__proto__] does not reach the result. *)
Example sanitizeObject_drops_proto :
  sanitizeObject (H := Examples.purify)
    (JObj [("__proto__", JStr "<b>p</b>"); ("a", JStr "<b>")])
  = JObj [("a", JStr "b")].
Proof. reflexivity. Qed.

(** ** Admin middleware (middleware/admin.js) *)

Section Admin.
Implicit Types (env : Env) (w : World) (user : User).

Lemma prefix_app (t s : string) :
  String.prefix t s = true <-> exists post, s = t ++ post.
Proof.
  revert s. induction t as [|c t IHt]; intros s.
  - split; [intros _; exists s; reflexivity|].
    intros _. destruct s; reflexivity.
  - destruct s as [|c' s]; cbn [String.prefix].
    + split; [discriminate|]. intros [post Hpost]. discriminate.
    + destruct (Ascii.ascii_dec c c') as [->|Hne].
      * rewrite IHt. split; intros [post Hpost]; exists post.
        -- cbn. rewrite Hpost. reflexivity.
        -- cbn in Hpost. injection Hpost as ->. reflexivity.
      * split; [discriminate|]. intros [post Hpost]. cbn in Hpost.
        injection Hpost as -> _. congruence.
Qed.

(** [includes] is the search for a substring. *)
Lemma includes_spec (s t : string) :
  includes s t = true <-> exists pre post, s = pre ++ t ++ post.
Proof.
  induction s as [|c s IHs]; cbn [includes].
  - rewrite orb_false_r, prefix_app. split.
    + intros [post Hpost]. exists EmptyString, post. exact Hpost.
    + intros (pre & post & Hs). destruct pre; [exists post; exact Hs|discriminate].
  - rewrite orb_true_iff, prefix_app, IHs. split.
    + intros [[post Hpost] | (pre & post & Hs)].
      * exists EmptyString, post. exact Hpost.
      * exists (String c pre), post. cbn. rewrite Hs. reflexivity.
    + intros (pre & post & Hs). destruct pre as [|c' pre].
      * left. exists post. exact Hs.
      * right. cbn in Hs. injection Hs as -> ->. exists pre, post. reflexivity.
Qed.

(** X19: [isAdmin] calls [next()] exactly for an authenticated user whose
    role is [admin]; every other request is answered 403.  It never changes
    the users collection or the session. *)
Theorem isAdmin_passes_admins_only (req_user : option User) w :
  (fst (isAdmin req_user w) = Continue tt <->
   exists user, req_user = Some user /\ role user = "admin") /\
  (fst (isAdmin req_user w) = Continue tt \/
   exists r, fst (isAdmin req_user w) = Returned r /\ status r = 403) /\
  users (snd (isAdmin req_user w)) = users w /\
  session (snd (isAdmin req_user w)) = session w.
Proof.
  unfold isAdmin. destruct req_user as [user|]; run_handler.
  - destruct (String.eqb_spec (role user) "admin") as [Hrole|Hrole]; cbn [negb].
    + repeat split; eauto.
    + repeat split; try discriminate; eauto.
      intros (u & [= <-] & Hu). contradiction.
  - repeat split; try discriminate; eauto.
    intros (u & [=] & _).
Qed.

(** X20: [isSuperAdmin] searches [SUPER_ADMIN_IDS] for the id as a
    substring.  With the variable set, it calls [next()] exactly for an
    authenticated admin whose id occurs somewhere in its value, be it
    inside a longer id. *)
Theorem isSuperAdmin_substring env (req_user : option User) w (ids : string) :
  process_env env !! "SUPER_ADMIN_IDS" = Some ids ->
  fst (isSuperAdmin env req_user w) = Continue tt <->
  exists user, req_user = Some user /\ role user = "admin" /\
               exists pre post, ids = pre ++ _id user ++ post.
Proof.
  intros Hids. unfold isSuperAdmin. destruct req_user as [user|]; run_handler.
  - destruct (String.eqb_spec (role user) "admin") as [Hrole|Hrole]; cbn [negb].
    + rewrite Hids. destruct (includes ids (_id user)) eqn:Hinc; cbn [negb].
      * split; [|reflexivity]. intros _. exists user.
        split; [reflexivity|]. split; [exact Hrole|]. apply includes_spec, Hinc.
      * split; [discriminate|]. intros (u & [= <-] & _ & Hsub).
        apply includes_spec in Hsub. congruence.
    + split; [discriminate|]. intros (u & [= <-] & Hu & _). contradiction.
  - split; [discriminate|]. intros (u & [=] & _).
Qed.

(** X21: with [SUPER_ADMIN_IDS] unset, [isSuperAdmin] lets no one through:
    an admin makes it throw a TypeError, which it does not catch, and every
    other request is answered 403 without the variable being read. *)
Theorem isSuperAdmin_unset env (req_user : option User) w :
  process_env env !! "SUPER_ADMIN_IDS" = None ->
  fst (isSuperAdmin env req_user w) <> Continue tt /\
  ((exists user, req_user = Some user /\ role user = "admin") ->
   exists e, fst (isSuperAdmin env req_user w) = Thrown (TypeError e)) /\
  (~ (exists user, req_user = Some user /\ role user = "admin") ->
   exists r, fst (isSuperAdmin env req_user w) = Returned r /\ status r = 403).
Proof.
  intros Hids. unfold isSuperAdmin. destruct req_user as [user|]; run_handler.
  - destruct (String.eqb_spec (role user) "admin") as [Hrole|Hrole]; cbn [negb].
    + rewrite Hids. split; [discriminate|]. split; [eauto|].
      intros Hnot. destruct Hnot. eauto.
    + split; [discriminate|]. split; [|eauto].
      intros (u & [= <-] & Hu). contradiction.
  - split; [discriminate|]. split; [|eauto]. intros (u & [=] & _).
Qed.

End Admin.

Lemma isSuperAdmin_substring_witness :
  let env := mkEnv {[ "SUPER_ADMIN_IDS" := "xa12,b7" ]} 0 in
  fst (isSuperAdmin env (Some Examples.admin) (Scenario.world_of Scenario.alice))
  = Continue tt.
Proof.
  intros env.
  apply (isSuperAdmin_substring env (Some Examples.admin)
           (Scenario.world_of Scenario.alice) "xa12,b7"); [reflexivity|].
  exists Examples.admin. split; [reflexivity|]. split; [reflexivity|].
  exists "x", "2,b7". reflexivity.
Defined.

Lemma isSuperAdmin_unset_witness :
  exists e,
    fst (isSuperAdmin Scenario.production (Some Examples.admin)
           (Scenario.world_of Scenario.alice)) = Thrown (TypeError e).
Proof.
  destruct (isSuperAdmin_unset Scenario.production (Some Examples.admin)
              (Scenario.world_of Scenario.alice)) as (_ & Hthrow & _);
    [reflexivity|].
  apply Hthrow. exists Examples.admin. split; reflexivity.
Defined.

(** ** Capsules (controllers/capsules.js) *)

Section CapsulesMore.
Context `{CapsuleModel}.
Implicit Types (env : Env) (st : Store) (c d capsule : Capsule.t)
  (cs l : list Capsule.t).

Lemma Capsule_findById_found (id : string) cs capsule :
  Capsule_findById id cs = inr (Some capsule) ->
  castObjectId id = true /\ capsule ∈ cs /\ Capsule._id capsule = id.
Proof.
  unfold Capsule_findById. destruct (castObjectId id); [|discriminate].
  intros [= Hfind]. apply find_some in Hfind as [Hin Heq].
  split; [reflexivity|]. split; [apply list_elem_of_In, Hin|].
  apply String.eqb_eq, Heq.
Qed.

(** X22: [getCapsule] shows a capsule exactly to its sender, or to anyone
    when it is public; the delivery status plays no part, so a public
    capsule can be read before it is delivered.  Any other reader is
    answered 403 without the document.  Nothing is written. *)
Theorem getCapsule_access (req_user_id params_id : string) st capsule :
  Capsule_findById params_id (capsules st) = inr (Some capsule) ->
  (status (fst (getCapsule req_user_id params_id st)) = 200 <->
   Capsule.isPublic capsule = true \/ Capsule.sender capsule = req_user_id) /\
  (status (fst (getCapsule req_user_id params_id st)) = 200 ->
   field "data" (body (fst (getCapsule req_user_id params_id st)))
     = Some (Capsule_toJSON capsule)) /\
  (status (fst (getCapsule req_user_id params_id st)) <> 200 ->
   status (fst (getCapsule req_user_id params_id st)) = 403 /\
   field "data" (body (fst (getCapsule req_user_id params_id st))) = None) /\
  capsules (snd (getCapsule req_user_id params_id st)) = capsules st.
Proof.
  intros Hfind. unfold getCapsule. rewrite Hfind.
  destruct (Capsule.isPublic capsule);
    destruct (String.eqb_spec (Capsule.sender capsule) req_user_id) as [Hs|Hs];
    cbn [negb andb fst snd status body capsules console_log json];
    repeat split; intros; try reflexivity; try discriminate; auto;
    try (exfalso; lia); try tauto;
    match goal with Hx : false = true \/ _ |- _ => destruct Hx as [[=]|?] end;
    contradiction.
Qed.

Lemma find_filter_ne (id : string) cs :
  List.find (fun c => String.eqb (Capsule._id c) id)
    (List.filter (fun c => negb (String.eqb (Capsule._id c) id)) cs) = None.
Proof.
  induction cs as [|c cs IHcs]; [reflexivity|]. cbn [List.filter].
  destruct (String.eqb (Capsule._id c) id) eqn:Hc; cbn [negb]; [exact IHcs|].
  cbn [List.find]. rewrite Hc. exact IHcs.
Qed.

(** X23: [deleteCapsule] removes a capsule for its sender only, whatever
    its delivery status: anyone else is answered 403 and nothing changes.
    For the sender the answer is 200, the capsules with another id stay in
    place and in order, and the id is not found afterwards. *)
Theorem deleteCapsule_owner_only (req_user_id params_id : string) st capsule :
  Capsule_findById params_id (capsules st) = inr (Some capsule) ->
  (Capsule.sender capsule <> req_user_id ->
   status (fst (deleteCapsule req_user_id params_id st)) = 403 /\
   capsules (snd (deleteCapsule req_user_id params_id st)) = capsules st) /\
  (Capsule.sender capsule = req_user_id ->
   status (fst (deleteCapsule req_user_id params_id st)) = 200 /\
   capsules (snd (deleteCapsule req_user_id params_id st)) =
     List.filter (fun c => negb (String.eqb (Capsule._id c) params_id)) (capsules st) /\
   Capsule_findById params_id (capsules (snd (deleteCapsule req_user_id params_id st)))
     = inr None /\
   forall reader,
     status (fst (getCapsule reader params_id
                    (snd (deleteCapsule req_user_id params_id st)))) = 404).
Proof.
  intros Hfind.
  destruct (Capsule_findById_found _ _ _ Hfind) as (Hcast & _ & Hid).
  unfold deleteCapsule. rewrite Hfind.
  destruct (String.eqb_spec (Capsule.sender capsule) req_user_id) as [Hs|Hs];
    cbn [negb]; (split; [intros Hne|intros Heq]); try contradiction.
  - split; [reflexivity|]. cbn [snd capsules console_log put_capsules].
    unfold remove_capsule. rewrite Hid.
    assert (Hgone : Capsule_findById params_id
              (List.filter (fun c => negb (String.eqb (Capsule._id c) params_id))
                 (capsules st)) = inr None).
    { unfold Capsule_findById. rewrite Hcast, find_filter_ne. reflexivity. }
    split; [reflexivity|]. split; [exact Hgone|].
    intros reader. unfold getCapsule.
    cbn [capsules console_log put_capsules snd]. rewrite Hgone. reflexivity.
  - split; reflexivity.
Qed.

(** X24: [updateCapsule] changes a capsule only for its sender and only
    while it is pending: for anyone else the answer is 403, for a capsule
    that is delivered or failed it is 400, and in every case that is not
    answered 200 the collection is unchanged. *)
Theorem updateCapsule_guards (req_user_id params_id : string) (req_body : Json)
    st capsule :
  Capsule_findById params_id (capsules st) = inr (Some capsule) ->
  (status (fst (updateCapsule req_user_id params_id req_body st)) = 200 ->
   Capsule.sender capsule = req_user_id /\ Capsule.status capsule = "pending") /\
  (Capsule.sender capsule <> req_user_id ->
   status (fst (updateCapsule req_user_id params_id req_body st)) = 403) /\
  (Capsule.sender capsule = req_user_id -> Capsule.status capsule <> "pending" ->
   status (fst (updateCapsule req_user_id params_id req_body st)) = 400) /\
  (status (fst (updateCapsule req_user_id params_id req_body st)) <> 200 ->
   capsules (snd (updateCapsule req_user_id params_id req_body st)) = capsules st).
Proof.
  intros Hfind. unfold updateCapsule. rewrite Hfind.
  destruct (String.eqb_spec (Capsule.sender capsule) req_user_id) as [Hs|Hs];
    cbn [negb].
  - destruct (String.eqb_spec (Capsule.status capsule) "pending") as [Hp|Hp];
      cbn [negb].
    + destruct (Capsule_runUpdate req_body capsule) as [e|updated];
        cbn [fst snd status capsules console_log console_error json server_error];
        repeat split; intros; try reflexivity; try discriminate; try contradiction;
        auto.
    + cbn [fst snd status capsules console_log json].
      repeat split; intros; try reflexivity; try discriminate; try contradiction.
  - cbn [fst snd status capsules console_log json].
    repeat split; intros; try reflexivity; try discriminate; try contradiction.
Qed.

End CapsulesMore.

Lemma getCapsule_access_witness :
  let reader := "u2" in
  status (fst (getCapsule (H := Examples.model) reader Examples.id2 Examples.store))
    = 200 /\
  status (fst (getCapsule (H := Examples.model) reader Examples.id1 Examples.store))
    = 403.
Proof.
  intros reader. split.
  - apply (getCapsule_access (H := Examples.model) reader Examples.id2 Examples.store
             (Examples.capsule Examples.id2 "u1" "bounce@example.com" true "pending" 600));
      [reflexivity|]. left. reflexivity.
  - apply (getCapsule_access (H := Examples.model) reader Examples.id1 Examples.store
             (Examples.capsule Examples.id1 "u1" "bob@example.com" false "pending" 500));
      [reflexivity|]. vm_compute. lia.
Defined.

Lemma deleteCapsule_owner_only_witness :
  status (fst (deleteCapsule (H := Examples.model) "u2" Examples.id1 Examples.store))
    = 403 /\
  status (fst (deleteCapsule (H := Examples.model) "u1" Examples.id1 Examples.store))
    = 200 /\
  length (capsules (snd (deleteCapsule (H := Examples.model) "u1" Examples.id1
                           Examples.store))) = 2%nat.
Proof.
  destruct (deleteCapsule_owner_only (H := Examples.model) "u2" Examples.id1
              Examples.store
              (Examples.capsule Examples.id1 "u1" "bob@example.com" false "pending" 500))
    as (Hother & _); [reflexivity|].
  destruct (deleteCapsule_owner_only (H := Examples.model) "u1" Examples.id1
              Examples.store
              (Examples.capsule Examples.id1 "u1" "bob@example.com" false "pending" 500))
    as (_ & Hown); [reflexivity|].
  destruct Hother as (H403 & _); [discriminate|].
  destruct Hown as (H200 & Hcs & _); [reflexivity|].
  split; [exact H403|]. split; [exact H200|]. rewrite Hcs. reflexivity.
Defined.

Lemma updateCapsule_guards_witness :
  status (fst (updateCapsule (H := Examples.model) "u2" Examples.id1 (JObj [])
                 Examples.store)) = 403.
Proof.
  apply (updateCapsule_guards (H := Examples.model) "u2" Examples.id1 (JObj [])
           Examples.store
           (Examples.capsule Examples.id1 "u1" "bob@example.com" false "pending" 500));
    [reflexivity | discriminate].
Defined.

(** ** Delivery (controllers/capsules.js) *)

Section Delivery.
Context `{CapsuleModel}.
Implicit Types (env : Env) (st : Store) (c d capsule : Capsule.t)
  (cs l : list Capsule.t) (now : Date).

Lemma due_pending now c : due now c = true -> Capsule.status c = "pending".
Proof.
  unfold due. intros Hdue. apply andb_true_iff in Hdue as [_ Hp].
  apply String.eqb_eq, Hp.
Qed.

(** A document whose delivery date has passed is refused by [save],
    whatever else it holds. *)
Lemma Capsule_save_overdue (t : Z) c cs :
  getTime (Capsule.deliveryDate c) < t ->
  Capsule_save t c cs = inl (Error (ValidationError_message t c)).
Proof.
  intros Hpast. unfold Capsule_save, deliveryDate_min.
  destruct (Z.leb_spec t (getTime (Capsule.deliveryDate c))); [lia|reflexivity].
Qed.

(** What [save] stores, it stores for a document whose date has not
    passed. *)
Lemma Capsule_save_stores (t : Z) c cs cs' :
  Capsule_save t c cs = inr cs' ->
  cs' = save_capsule c cs /\ t <= getTime (Capsule.deliveryDate c).
Proof.
  unfold Capsule_save, deliveryDate_min.
  destruct (Z.leb_spec t (getTime (Capsule.deliveryDate c))); cbn [andb];
    [|discriminate].
  destruct (Capsule_valid c); [|discriminate]. intros [= <-]. auto.
Qed.

(** An iteration on a capsule whose date has passed: the mail goes out if
    the transport takes it, both saves are refused, and the second refusal
    leaves the loop. *)
Lemma deliver_iteration_overdue env now (k : nat) d st :
  getTime (Capsule.deliveryDate d) < Date_now env ->
  exists error st',
    deliver_iteration env now k d st = (inl error, st') /\
    capsules st' = capsules st /\
    sent st' =
      (sent st ++ match sendMail k (capsule_mail env d) with
                  | None => [capsule_mail env d]
                  | Some _ => []
                  end)%list.
Proof.
  intros Hpast. unfold deliver_iteration, deliver_try.
  destruct (sendMail k (capsule_mail env d)) as [msg|].
  - rewrite Capsule_save_overdue by exact Hpast.
    do 2 eexists. split; [reflexivity|].
    cbn [capsules sent console_error]. rewrite app_nil_r. split; reflexivity.
  - rewrite (Capsule_save_overdue _ (with_status "delivered" (Some now) d))
      by exact Hpast.
    rewrite Capsule_save_overdue by exact Hpast.
    do 2 eexists. split; [reflexivity|].
    cbn [capsules sent console_error]. split; reflexivity.
Qed.

(** What an iteration can store: nothing, or, for a capsule whose date has
    not passed, the capsule with its status set. *)
Lemma deliver_iteration_stores env now (k : nat) d st :
  capsules (snd (deliver_iteration env now k d st)) = capsules st \/
  (Date_now env <= getTime (Capsule.deliveryDate d) /\
   exists d',
     capsules (snd (deliver_iteration env now k d st)) = save_capsule d' (capsules st) /\
     (d' = with_status "delivered" (Some now) d \/
      d' = with_status "failed" (Capsule.deliveredAt d) d \/
      d' = with_status "failed" (Some now) d)).
Proof.
  unfold deliver_iteration, deliver_try.
  destruct (sendMail k (capsule_mail env d)) as [msg|];
    repeat match goal with
      | |- context [Capsule_save ?t ?c ?l] =>
          let Hsave := fresh "Hsave" in
          destruct (Capsule_save t c l) as [?error|?saved] eqn:Hsave;
          [|apply Capsule_save_stores in Hsave as [-> ?Hdate]]
      end;
    cbn [snd capsules console_error console_log put_capsules];
    first [ left; reflexivity
          | right; split; [assumption|]; eexists; split; [reflexivity|]; auto ].
Qed.

Lemma elem_of_save_capsule c' d' cs :
  c' ∈ save_capsule d' cs ->
  c' = d' \/ (c' ∈ cs /\ Capsule._id c' <> Capsule._id d').
Proof.
  unfold save_capsule. intros Hin.
  apply list_elem_of_fmap in Hin as (c & -> & Hc).
  destruct (String.eqb_spec (Capsule._id c) (Capsule._id d')); auto.
Qed.

Lemma save_capsule_keeps c d' cs :
  c ∈ cs -> Capsule._id c <> Capsule._id d' -> c ∈ save_capsule d' cs.
Proof.
  intros Hc Hne. unfold save_capsule. apply list_elem_of_fmap. exists c.
  split; [|exact Hc].
  destruct (String.eqb_spec (Capsule._id c) (Capsule._id d')); congruence.
Qed.

Lemma save_capsule_ids d' cs :
  Capsule._id <$> save_capsule d' cs = Capsule._id <$> cs.
Proof.
  unfold save_capsule. rewrite <- list_fmap_compose.
  apply list_fmap_ext. intros _ c _. cbn.
  destruct (String.eqb_spec (Capsule._id c) (Capsule._id d')); congruence.
Qed.

(** The loop goes on from what an iteration leaves, or stops there. *)
Lemma deliver_loop_step env now d l (k : nat) (res : list Json) st :
  (exists res',
     deliver_loop env now (d :: l) k res st
     = deliver_loop env now l (S k) res' (snd (deliver_iteration env now k d st))) \/
  (exists error,
     deliver_loop env now (d :: l) k res st
     = (inl error, snd (deliver_iteration env now k d st))).
Proof.
  cbn [deliver_loop].
  destruct (deliver_iteration env now k d st) as [[error|result] st'];
    [right|left]; eexists; reflexivity.
Qed.

(** The loop keeps the ids, in order. *)
Lemma deliver_loop_ids env now l (k : nat) (res : list Json) st :
  Capsule._id <$> capsules (snd (deliver_loop env now l k res st))
  = Capsule._id <$> capsules st.
Proof.
  revert k res st. induction l as [|d l IHl]; intros k res st; [reflexivity|].
  assert (Hit : Capsule._id <$> capsules (snd (deliver_iteration env now k d st))
                = Capsule._id <$> capsules st).
  { destruct (deliver_iteration_stores env now k d st) as [-> | (_ & d' & -> & _)];
      [reflexivity | apply save_capsule_ids]. }
  destruct (deliver_loop_step env now d l k res st) as [[res' ->] | [error ->]].
  - rewrite IHl. exact Hit.
  - exact Hit.
Qed.

(** What the loop leaves was there before, or is a capsule of the list
    whose date has not passed, with its status set. *)
Lemma deliver_loop_members env now l (k : nat) (res : list Json) st c' :
  c' ∈ capsules (snd (deliver_loop env now l k res st)) ->
  c' ∈ capsules st \/
  exists d, d ∈ l /\ Date_now env <= getTime (Capsule.deliveryDate d) /\
    (c' = with_status "delivered" (Some now) d \/
     c' = with_status "failed" (Capsule.deliveredAt d) d \/
     c' = with_status "failed" (Some now) d).
Proof.
  revert k res st. induction l as [|d l IHl]; intros k res st Hc'; [left; exact Hc'|].
  assert (Hit : forall c1, c1 ∈ capsules (snd (deliver_iteration env now k d st)) ->
            c1 ∈ capsules st \/
            (Date_now env <= getTime (Capsule.deliveryDate d) /\
             (c1 = with_status "delivered" (Some now) d \/
              c1 = with_status "failed" (Capsule.deliveredAt d) d \/
              c1 = with_status "failed" (Some now) d))).
  { intros c1 Hc1.
    destruct (deliver_iteration_stores env now k d st)
      as [Heq | (Hdate & d' & Heq & Hd')]; rewrite Heq in Hc1; [left; exact Hc1|].
    apply elem_of_save_capsule in Hc1 as [-> | [Hc1 _]]; [right; auto|left; exact Hc1]. }
  destruct (deliver_loop_step env now d l k res st) as [[res' Heq] | [error Heq]];
    rewrite Heq in Hc'.
  - apply IHl in Hc' as [Hc' | (d1 & Hd1 & Hrest)].
    + apply Hit in Hc' as [Hc' | [Hdate Hd']]; [left; exact Hc'|].
      right. exists d. split; [left|]. auto.
    + right. exists d1. split; [right; exact Hd1|exact Hrest].
  - cbn [snd] in Hc'. apply Hit in Hc' as [Hc' | [Hdate Hd']]; [left; exact Hc'|].
    right. exists d. split; [left|]. auto.
Qed.

(** A stored capsule stays as it is when each capsule of the list has
    another id or a date that has passed. *)
Lemma deliver_loop_keeps env now l (k : nat) (res : list Json) st c :
  c ∈ capsules st ->
  (forall d, d ∈ l ->
     Capsule._id d <> Capsule._id c \/ getTime (Capsule.deliveryDate d) < Date_now env) ->
  c ∈ capsules (snd (deliver_loop env now l k res st)).
Proof.
  revert k res st. induction l as [|d l IHl]; intros k res st Hc Hids; [exact Hc|].
  assert (Hit : c ∈ capsules (snd (deliver_iteration env now k d st))).
  { destruct (deliver_iteration_stores env now k d st)
      as [-> | (Hdate & d' & -> & Hd')]; [exact Hc|].
    apply save_capsule_keeps; [exact Hc|].
    destruct (Hids d) as [Hne | Hpast]; [left| |lia].
    destruct Hd' as [-> | [-> | ->]]; cbn; congruence. }
  destruct (deliver_loop_step env now d l k res st) as [[res' ->] | [error ->]].
  - apply IHl; [exact Hit|]. intros d1 Hd1. apply Hids. right. exact Hd1.
  - exact Hit.
Qed.

Lemma elem_of_due_list now cs c :
  c ∈ List.filter (due now) cs <-> c ∈ cs /\ due now c = true.
Proof. rewrite !list_elem_of_In. apply filter_In. Qed.

(** What [deliverCapsules] does around the loop. *)
Lemma deliverCapsules_unfold env st :
  let now := mkDate (Date_now env) in
  let l := List.filter (due now) (capsules st) in
  let st0 := console_log ("Found " ++ pretty (length l) ++ " capsules to deliver") st in
  (l = [] /\
   deliverCapsules env st =
     (json 200 [("success", JBool true);
                ("message", JStr "No capsules to deliver");
                ("count", JNum 0)], st0)) \/
  (l <> [] /\
   ((exists results,
       deliver_loop env now l 0 [] st0
         = (inr results, snd (deliver_loop env now l 0 [] st0)) /\
       deliverCapsules env st =
         (json 200 [("success", JBool true);
                    ("message", JStr "Delivery process completed");
                    ("count", JNum (Z.of_nat (length l)));
                    ("results", JArr results)],
          snd (deliver_loop env now l 0 [] st0))) \/
    (exists error,
       deliver_loop env now l 0 [] st0
         = (inl error, snd (deliver_loop env now l 0 [] st0)) /\
       deliverCapsules env st =
         (json 500 [("success", JBool false);
                    ("message", JStr "Server error during delivery process")],
          console_error ("Error in delivery process: " ++ message error)
            (snd (deliver_loop env now l 0 [] st0)))))).
Proof.
  intros now l st0. unfold deliverCapsules. fold now. fold l. fold st0.
  destruct l as [|d l'] eqn:Hl; [left; split; reflexivity|right].
  split; [discriminate|]. cbn [length Nat.eqb].
  destruct (deliver_loop env now (d :: l') 0 [] st0) as [[error|results] st1];
    [right|left]; eexists; split; reflexivity.
Qed.

(** The capsules [deliverCapsules] leaves are those its loop leaves. *)
Lemma deliverCapsules_capsules env st :
  let now := mkDate (Date_now env) in
  let l := List.filter (due now) (capsules st) in
  exists st0,
    capsules st0 = capsules st /\ sent st0 = sent st /\
    capsules (snd (deliverCapsules env st))
      = capsules (snd (deliver_loop env now l 0 [] st0)) /\
    sent (snd (deliverCapsules env st))
      = sent (snd (deliver_loop env now l 0 [] st0)).
Proof.
  intros now l.
  exists (console_log ("Found " ++ pretty (length l) ++ " capsules to deliver") st).
  split; [reflexivity|]. split; [reflexivity|].
  destruct (deliverCapsules_unfold env st)
    as [[Hl ->] | [_ [(results & _ & ->) | (error & _ & ->)]]].
  - subst l now. rewrite Hl. split; reflexivity.
  - split; reflexivity.
  - split; reflexivity.
Qed.

(** A run that finds first, among the due capsules, one whose date has
    passed. *)
Lemma deliverCapsules_overdue env st d l :
  List.filter (due (mkDate (Date_now env))) (capsules st) = d :: l ->
  getTime (Capsule.deliveryDate d) < Date_now env ->
  fst (deliverCapsules env st) =
    json 500 [("success", JBool false);
              ("message", JStr "Server error during delivery process")] /\
  capsules (snd (deliverCapsules env st)) = capsules st /\
  sent (snd (deliverCapsules env st)) =
    (sent st ++ match sendMail 0 (capsule_mail env d) with
                | None => [capsule_mail env d]
                | Some _ => []
                end)%list.
Proof.
  intros Hl Hpast. unfold deliverCapsules. rewrite Hl.
  cbn [length Nat.eqb deliver_loop].
  destruct (deliver_iteration_overdue env (mkDate (Date_now env)) 0 d
              (console_log ("Found " ++ pretty (length (d :: l))
                            ++ " capsules to deliver") st) Hpast)
    as (error & st2 & Hit & Hcs & Hsent).
  cbn [length] in Hit. rewrite Hit. cbn [fst snd capsules sent console_error].
  rewrite Hcs, Hsent. repeat split.
Qed.

(** X25: a capsule whose delivery date has passed is never delivered.  When
    the first capsule that is due and pending has a delivery date before
    now, as a due capsule has unless the run falls on its very millisecond,
    [save] is refused in the [try] block and again in the [catch] block:
    [deliverCapsules] answers 500, stores nothing, and has sent the mail of
    that capsule if the transport took it.  The capsule is still due and
    pending, and the next run does the same. *)
Theorem deliverCapsules_overdue_answers_500 env st d l :
  List.filter (due (mkDate (Date_now env))) (capsules st) = d :: l ->
  getTime (Capsule.deliveryDate d) < Date_now env ->
  let st' := snd (deliverCapsules env st) in
  fst (deliverCapsules env st) =
    json 500 [("success", JBool false);
              ("message", JStr "Server error during delivery process")] /\
  capsules st' = capsules st /\
  sent st' =
    (sent st ++ match sendMail 0 (capsule_mail env d) with
                | None => [capsule_mail env d]
                | Some _ => []
                end)%list /\
  d ∈ capsules st' /\ due (mkDate (Date_now env)) d = true /\
  fst (deliverCapsules env st') = fst (deliverCapsules env st).
Proof.
  intros Hl Hpast st'.
  destruct (deliverCapsules_overdue env st d l Hl Hpast) as (Hr & Hcs & Hsent).
  assert (Hd : d ∈ List.filter (due (mkDate (Date_now env))) (capsules st))
    by (rewrite Hl; left).
  apply elem_of_due_list in Hd as [Hd Hdue].
  assert (Hl' : List.filter (due (mkDate (Date_now env))) (capsules st') = d :: l)
    by (subst st'; rewrite Hcs; exact Hl).
  destruct (deliverCapsules_overdue env st' d l Hl' Hpast) as (Hr' & _).
  subst st'. rewrite Hr', Hr, Hcs, Hsent. repeat split; assumption.
Qed.

(** X26: [deliverCapsules] only rewrites capsules that are due and pending
    and whose delivery date is the very time of the run.  The ids of the
    collection and their order are kept; every stored capsule afterwards
    either was there before, or is such a capsule with its status set to
    delivered or failed; and when the ids are distinct, every capsule that
    was not due, or whose delivery date had passed, is still there as it
    was. *)
Theorem deliverCapsules_changes_due_only env st :
  let now := mkDate (Date_now env) in
  let st' := snd (deliverCapsules env st) in
  Capsule._id <$> capsules st' = Capsule._id <$> capsules st /\
  (forall c', c' ∈ capsules st' ->
     c' ∈ capsules st \/
     exists d, d ∈ capsules st /\ due now d = true /\
       getTime (Capsule.deliveryDate d) = Date_now env /\
       (c' = with_status "delivered" (Some now) d \/
        c' = with_status "failed" (Capsule.deliveredAt d) d \/
        c' = with_status "failed" (Some now) d)) /\
  (NoDup (Capsule._id <$> capsules st) ->
   forall c, c ∈ capsules st ->
     due now c = false \/ getTime (Capsule.deliveryDate c) < Date_now env ->
     c ∈ capsules st').
Proof.
  intros now st'. subst st'.
  destruct (deliverCapsules_capsules env st) as (st0 & Hcs0 & _ & -> & _).
  fold now. split; [rewrite deliver_loop_ids, Hcs0; reflexivity|]. split.
  - intros c' Hc'.
    destruct (deliver_loop_members _ _ _ _ _ _ _ Hc') as [Hold | (d & Hd & Hdate & Hc)].
    + left. rewrite <- Hcs0. exact Hold.
    + right. exists d. apply elem_of_due_list in Hd as [Hd Hdue].
      split; [exact Hd|]. split; [exact Hdue|]. split; [|exact Hc].
      unfold due in Hdue. apply andb_true_iff in Hdue as [Hle _].
      apply Z.leb_le in Hle. cbn [getTime now] in Hle. lia.
  - intros Hnodup c Hc Hsafe. apply deliver_loop_keeps; [rewrite Hcs0; exact Hc|].
    intros d Hd. apply elem_of_due_list in Hd as [Hd Hdue].
    destruct (decide (Capsule._id d = Capsule._id c)) as [Hid|Hne]; [|left; exact Hne].
    assert (d = c); [|subst d; destruct Hsafe as [Hnot|Hpast]; [congruence|right; exact Hpast]].
    apply list_elem_of_lookup in Hd as [i Hi]. apply list_elem_of_lookup in Hc as [j Hj].
    assert (i = j).
    { apply (NoDup_lookup _ i j (Capsule._id c) Hnodup);
        rewrite list_lookup_fmap; [rewrite Hi|rewrite Hj]; cbn; congruence. }
    congruence.
Qed.


End Delivery.

Lemma deliverCapsules_overdue_answers_500_witness :
  status (fst (deliverCapsules (H := Examples.model) Scenario.dev Examples.store)) = 500 /\
  capsules (snd (deliverCapsules (H := Examples.model) Scenario.dev Examples.store))
    = capsules Examples.store /\
  length (sent (snd (deliverCapsules (H := Examples.model) Scenario.dev
                       Examples.store))) = 1%nat.
Proof.
  destruct (deliverCapsules_overdue_answers_500 (H := Examples.model) Scenario.dev
              Examples.store
              (Examples.capsule Examples.id1 "u1" "bob@example.com" false "pending" 500)
              [Examples.capsule Examples.id2 "u1" "bounce@example.com" true "pending" 600])
    as (Hr & Hcs & Hsent & _); [reflexivity | reflexivity |].
  rewrite Hr, Hcs, Hsent. repeat split.
Defined.


(** ** Routing (routes/capsules.js) *)

(** X28: no request reaches [deliverCapsules].  Its route, [GET /deliver],
    is registered after [GET /:id], and a path that matches the first also
    matches the second: whatever the method and the path, the route that
    takes the request is not the delivery route, and [GET /deliver] is
    taken by [getCapsule], with [deliver] as the capsule id. *)
Theorem deliver_route_unreachable (m : Method) (path : list string) (r : Route) :
  dispatch capsule_routes m path = Some r ->
  route_controller r <> deliverCapsules_controller /\
  (path_matches [Lit "deliver"] path = true -> m = GET ->
   route_controller r = getCapsule_controller).
Proof.
  unfold dispatch, capsule_routes.
  destruct path as [|seg [|seg' path]].
  - destruct m; cbn; intros [= <-]; split; discriminate.
  - destruct (String.eqb_spec seg EmptyString) as [->|Hseg].
    + destruct m; cbn; intros [=].
    + assert (Hparam : negb (String.eqb seg EmptyString) = true).
      { destruct (String.eqb_spec seg EmptyString); [contradiction|reflexivity]. }
      destruct m; cbn [List.find route_matches Method_eqb route_method route_path
                       path_matches segment_matches andb];
        rewrite ?Hparam; cbn [andb];
        try (intros [=]; fail);
        try (intros [= <-]; split; [discriminate|intros _ [=]]).
      rewrite !andb_true_r.
      destruct (String.eqb (lower "public") (lower seg)) eqn:Hpublic.
      * intros [= <-]. split; [discriminate|]. intros Hd _.
        exfalso. apply String.eqb_eq in Hpublic, Hd.
        rewrite <- Hd in Hpublic. vm_compute in Hpublic. discriminate.
      * intros [= <-]. split; [discriminate|reflexivity].
  - destruct m; cbn; rewrite ?andb_false_r; intros [=].
Qed.

Lemma deliver_route_unreachable_witness :
  route_controller
    (mkRoute GET [Param "id"] [protect] getCapsule_controller)
  = getCapsule_controller /\
  dispatch capsule_routes GET ["deliver"]
  = Some (mkRoute GET [Param "id"] [protect] getCapsule_controller).
Proof.
  split; [|reflexivity].
  apply (deliver_route_unreachable GET ["deliver"]); reflexivity.
Defined.

(** ** Listings (controllers/capsules.js) *)

Section Listings.
Context `{CapsuleModel}.
Implicit Types (st : Store) (c : Capsule.t).

(** [getCapsules] lists the capsules of the caller and no other: a
    stored capsule is in the answer exactly when the caller is its sender,
    and [count] is the number of capsules listed.  Nothing is written. *)
Theorem getCapsules_lists_own (req_user_id : string) st :
  exists l,
    field "data" (body (fst (getCapsules req_user_id st)))
      = Some (JArr (Capsule_toJSON <$> l)) /\
    field "count" (body (fst (getCapsules req_user_id st)))
      = Some (JNum (Z.of_nat (length l))) /\
    (forall c, c ∈ l <-> c ∈ capsules st /\ Capsule.sender c = req_user_id) /\
    capsules (snd (getCapsules req_user_id st)) = capsules st.
Proof.
  exists (List.filter (fun c => String.eqb (Capsule.sender c) req_user_id)
            (capsules st)).
  split; [reflexivity|]. split; [reflexivity|]. split; [|reflexivity].
  intros c. rewrite !list_elem_of_In, filter_In, String.eqb_eq. reflexivity.
Qed.

(** [getPublicCapsules] lists the capsules that are public and
    delivered, and only those, provided the sort of the collection gives
    back the documents it was given: a public capsule that is pending or
    failed is not listed.  Nothing is written. *)
Theorem getPublicCapsules_lists_delivered st :
  (forall l, Permutation (sort_deliveredAt_desc l) l) ->
  exists l,
    field "data" (body (fst (getPublicCapsules st)))
      = Some (JArr (Capsule_toJSON <$> l)) /\
    field "count" (body (fst (getPublicCapsules st)))
      = Some (JNum (Z.of_nat (length l))) /\
    (forall c, c ∈ l <->
               c ∈ capsules st /\ Capsule.isPublic c = true /\
               Capsule.status c = "delivered") /\
    capsules (snd (getPublicCapsules st)) = capsules st.
Proof.
  intros Hsort.
  exists (sort_deliveredAt_desc
            (List.filter
               (fun c => Capsule.isPublic c && String.eqb (Capsule.status c) "delivered")
               (capsules st))).
  split; [reflexivity|]. split; [reflexivity|]. split; [|reflexivity].
  intros c. rewrite (Hsort _).
  rewrite !list_elem_of_In, filter_In, andb_true_iff, String.eqb_eq. reflexivity.
Qed.

End Listings.

Lemma getPublicCapsules_lists_delivered_witness :
  field "count" (body (fst (getPublicCapsules (H := Examples.model) Examples.store)))
  = Some (JNum 0).
Proof.
  destruct (getPublicCapsules_lists_delivered (H := Examples.model) Examples.store)
    as (l & _ & Hcount & Hl & _); [intros l; reflexivity|].
  rewrite Hcount. destruct l as [|c l]; [reflexivity|].
  assert (Hc : c ∈ c :: l) by left.
  apply Hl in Hc as (Hin & _ & Hst). exfalso.
  repeat (apply elem_of_cons in Hin as [-> | Hin]; [discriminate|]).
  inversion Hin.
Defined.
